(** * neo2-llkh: the layout tables and the key-event classifier

    A shallow embedding of [src/main.cpp]: the construction of the six
    level tables and of the level-4 action table ([buildLayout]), the
    character emitter ([sendChar]) and the low-level keyboard hook
    ([keyevent]) with the modifier and lock flags it maintains.

    Conventions.  [DWORD] fields and 16-bit [TCHAR] code units are
    numbers in [N]; the [SHORT] returned by [VkKeyScanEx] is a [Z].
    A fixed-size array is a list, read with [!!] and written with
    [<[i:=v]>]; a read past the end has no defined value in C++ and is
    the [None] of the embedding.  The globals [g_settings] and [g_layout]
    are read-only once the hook runs and are passed as arguments;
    [g_state] is threaded through the [Hook] monad together with the
    calls to the operating system the hook makes. *)

From Stdlib Require Import NArith ZArith Bool String List Lia.
From stdpp Require Import base option list.
Import ListNotations.

Open Scope N_scope.

(** ** Constants of the Windows headers

    Virtual-key codes, event flags and message numbers, with the values
    the Windows SDK gives them. *)

Module Win.
Definition VK_BACK : N := 0x08.
Definition VK_TAB : N := 0x09.
Definition VK_RETURN : N := 0x0D.
Definition VK_SHIFT : N := 0x10.
Definition VK_CONTROL : N := 0x11.
Definition VK_MENU : N := 0x12.
Definition VK_CAPITAL : N := 0x14.
Definition VK_ESCAPE : N := 0x1B.
Definition VK_SPACE : N := 0x20.
Definition VK_PRIOR : N := 0x21.
Definition VK_NEXT : N := 0x22.
Definition VK_END : N := 0x23.
Definition VK_HOME : N := 0x24.
Definition VK_LEFT : N := 0x25.
Definition VK_UP : N := 0x26.
Definition VK_RIGHT : N := 0x27.
Definition VK_DOWN : N := 0x28.
Definition VK_INSERT : N := 0x2D.
Definition VK_DELETE : N := 0x2E.
Definition VK_LWIN : N := 0x5B.
Definition VK_RWIN : N := 0x5C.
Definition VK_LSHIFT : N := 0xA0.
Definition VK_RSHIFT : N := 0xA1.
Definition VK_LCONTROL : N := 0xA2.
Definition VK_RCONTROL : N := 0xA3.
Definition VK_LMENU : N := 0xA4.
Definition VK_RMENU : N := 0xA5.

Definition KEYEVENTF_KEYUP : N := 0x02.
Definition KEYEVENTF_UNICODE : N := 0x04.
Definition LLKHF_EXTENDED : N := 0x01.
Definition LLKHF_INJECTED : N := 0x10.
Definition LLKHF_UP : N := 0x80.

Definition WM_KEYDOWN : N := 0x100.
Definition WM_KEYUP : N := 0x101.
Definition WM_SYSKEYDOWN : N := 0x104.
Definition WM_SYSKEYUP : N := 0x105.
Definition HC_ACTION : Z := 0%Z.
End Win.
Import Win.

(** ** Data model *)

Definition MAPPING_LEN : nat := 103.
Definition LEVEL_COUNT : nat := 6.
Definition SCANCODE_TAB_KEY : N := 15.
Definition SCANCODE_CAPSLOCK_KEY : N := 58.
Definition SCANCODE_LOWER_THAN_KEY : N := 86.
Definition SCANCODE_QUOTE_KEY : N := 40.
Definition SCANCODE_HASH_KEY : N := 43.
Definition SCANCODE_RETURN_KEY : N := 28.

(** [enum Level]; [levelIndex] is the enumerator's value. *)
Inductive Level := LEVEL_1 | LEVEL_2 | LEVEL_3 | LEVEL_4 | LEVEL_5 | LEVEL_6.

Definition levelIndex (l : Level) : nat :=
  match l with
  | LEVEL_1 => 0 | LEVEL_2 => 1 | LEVEL_3 => 2
  | LEVEL_4 => 3 | LEVEL_5 => 4 | LEVEL_6 => 5
  end%nat.

Definition Level_eqb (a b : Level) : bool :=
  Nat.eqb (levelIndex a) (levelIndex b).

(** [struct KeyMapping] and [struct CharMapping]: one array of
    [MAPPING_LEN] code units, zero-initialised; both are a [list N]. *)
Definition emptyMapping : list N := replicate MAPPING_LEN 0.

(** [KeyMapping::fillAtLiteral<O>(p)]: [mapping[O + i] = p[i]] for the
    characters of the literal, in order. *)
Fixpoint fillAtLiteral (O : nat) (p : list N) (mapping : list N) : list N :=
  match p with
  | [] => mapping
  | c :: p' => fillAtLiteral (S O) p' (<[O := c]> mapping)
  end.

Record Layout := {
  levels : list (list N);
  is_kou_or_vue : bool;
  level4_specials : list N
}.

(** [Layout{}]: every table zeroed, the flag false. *)
Definition emptyLayout : Layout :=
  {| levels := replicate LEVEL_COUNT emptyMapping;
     is_kou_or_vue := false;
     level4_specials := emptyMapping |}.

(** [layout[level]] as an lvalue: apply [f] to that level's table. *)
Definition onLevel (level : Level) (f : list N -> list N) (layout : Layout) : Layout :=
  {| levels := alter f (levelIndex level) (levels layout);
     is_kou_or_vue := is_kou_or_vue layout;
     level4_specials := level4_specials layout |}.

(** [layout[level]] as an rvalue.  The enumerators are the only values
    of [Level], so the index is within the six tables. *)
Definition getLevel (layout : Layout) (level : Level) : list N :=
  default emptyMapping (levels layout !! levelIndex level).

Definition set_is_kou_or_vue (b : bool) (layout : Layout) : Layout :=
  {| levels := levels layout;
     is_kou_or_vue := b;
     level4_specials := level4_specials layout |}.

(** [layout.level4_specials.mapping[i] = v] *)
Definition setSpecial (i : nat) (v : N) (layout : Layout) : Layout :=
  {| levels := levels layout;
     is_kou_or_vue := is_kou_or_vue layout;
     level4_specials := <[i := v]> (level4_specials layout) |}.

(** [struct Settings] *)
Record Settings := {
  layout : string;
  debugWindow : bool;
  quoteAsMod3R : bool;
  returnAsMod3R : bool;
  tabAsMod4L : bool;
  capsLockEnabled : bool;
  shiftLockEnabled : bool;
  level4LockEnabled : bool;
  qwertzForShortcuts : bool;
  swapLeftCtrlAndLeftAlt : bool;
  swapLeftCtrlLeftAltAndLeftWin : bool;
  supportLevels5and6 : bool;
  capsLockAsEscape : bool;
  mod3RAsReturn : bool;
  mod4LAsTab : bool;
  scanCodeMod3L : N;
  scanCodeMod3R : N;
  scanCodeMod4L : N
}.

(** The member initialisers of [Settings]; the layout name is the one
    [readSettingsIni] falls back to. *)
Definition defaultSettings : Settings :=
  {| layout := "neo";
     debugWindow := false; quoteAsMod3R := false; returnAsMod3R := false;
     tabAsMod4L := false; capsLockEnabled := false; shiftLockEnabled := false;
     level4LockEnabled := false; qwertzForShortcuts := false;
     swapLeftCtrlAndLeftAlt := false; swapLeftCtrlLeftAltAndLeftWin := false;
     supportLevels5and6 := false; capsLockAsEscape := false;
     mod3RAsReturn := false; mod4LAsTab := false;
     scanCodeMod3L := SCANCODE_CAPSLOCK_KEY;
     scanCodeMod3R := SCANCODE_HASH_KEY;
     scanCodeMod4L := SCANCODE_LOWER_THAN_KEY |}.

(** [Settings::sanitize] *)
Definition sanitize (s : Settings) : Settings :=
  {| layout := layout s;
     debugWindow := debugWindow s;
     quoteAsMod3R := quoteAsMod3R s;
     returnAsMod3R := returnAsMod3R s;
     tabAsMod4L := tabAsMod4L s;
     capsLockEnabled := capsLockEnabled s;
     shiftLockEnabled :=
       if capsLockEnabled s then false else shiftLockEnabled s;
     level4LockEnabled := level4LockEnabled s;
     qwertzForShortcuts := qwertzForShortcuts s;
     swapLeftCtrlAndLeftAlt :=
       if swapLeftCtrlLeftAltAndLeftWin s then false else swapLeftCtrlAndLeftAlt s;
     swapLeftCtrlLeftAltAndLeftWin := swapLeftCtrlLeftAltAndLeftWin s;
     supportLevels5and6 := supportLevels5and6 s;
     capsLockAsEscape := capsLockAsEscape s;
     mod3RAsReturn := mod3RAsReturn s;
     mod4LAsTab := mod4LAsTab s;
     scanCodeMod3L := scanCodeMod3L s;
     scanCodeMod3R :=
       if quoteAsMod3R s then SCANCODE_QUOTE_KEY
       else if returnAsMod3R s then SCANCODE_RETURN_KEY
       else scanCodeMod3R s;
     scanCodeMod4L :=
       if tabAsMod4L s then SCANCODE_TAB_KEY else scanCodeMod4L s |}.

(** ** Layout construction *)

(** [ArrayView::findIndex]: the first index holding [f]; [None] is the
    source's [-1]. *)
Fixpoint findIndexFrom (i : nat) (m : list N) (f : N) : option nat :=
  match m with
  | [] => None
  | x :: m' => if x =? f then Some i else findIndexFrom (S i) m' f
  end.

Definition findIndex (m : list N) (f : N) : option nat := findIndexFrom 0 m f.

(** [L"abcdefghijklmnopqrstuvwxyzäöüß.,"] *)
Definition lowerLetters : list N :=
  [97; 98; 99; 100; 101; 102; 103; 104; 105; 106; 107; 108; 109; 110; 111;
   112; 113; 114; 115; 116; 117; 118; 119; 120; 121; 122;
   228; 246; 252; 223; 46; 44].

(** [mapLevelsLetters]: for every slot whose [base] character is one of
    [lowerLetters], write the character of [newChars] at the same index
    into the output table. *)
Definition mapLevelsLetters (base mappingTableOutput newChars : list N) : list N :=
  fold_left
    (fun out i =>
       match base !! i with
       | Some b =>
           match findIndex lowerLetters b with
           | Some c =>
               match newChars !! c with
               | Some n => <[i := n]> out
               | None => out
               end
           | None => out
           end
       | None => out
       end)
    (seq 0 MAPPING_LEN) mappingTableOutput.

(** [mapLevelsLetters(layout[from], layout[to], newChars)] *)
Definition mapLevels (from to : Level) (newChars : list N) (l : Layout) : Layout :=
  onLevel to (fun out => mapLevelsLetters (getLevel l from) out newChars) l.

(** [layout[level].mapping[i] = v] *)
Definition setSlot (level : Level) (i : nat) (v : N) (l : Layout) : Layout :=
  onLevel level (fun m => <[i := v]> m) l.

(** [layout[level].mapping[dst] = layout[level].mapping[src]] *)
Definition copySlot (level : Level) (dst src : nat) (l : Layout) : Layout :=
  match getLevel l level !! src with
  | Some v => setSlot level dst v l
  | None => l
  end.

(** The replacement alphabets of levels 2, 5 and 6, index by index
    parallel to [lowerLetters]. *)
Definition upperLetters : list N :=
  [65; 66; 67; 68; 69; 70; 71; 72; 73; 74; 75; 76; 77; 78; 79; 80; 81; 82; 83; 84; 85; 86; 87; 88; 89; 90; 196; 214; 220; 7838; 8226; 8211].

Definition greekLetters : list N :=
  [945; 946; 967; 948; 949; 966; 947; 968; 953; 952; 954; 955; 956; 957; 959; 960; 981; 961; 963; 964; 117; 118; 969; 958; 965; 950; 951; 1013; 252; 962; 977; 1009].

Definition mathSymbols : list N :=
  [8704; 8656; 8450; 916; 8707; 934; 915; 936; 8747; 920; 10799; 923; 8660; 8469; 8712; 928; 8474; 8477; 931; 8706; 8834; 8730; 937; 926; 8711; 8484; 8501; 8745; 8746; 8728; 8614; 8658].

(** The letter rows of level 1 for one layout name, and for the kou/vou
    family the flag and its own level-3 and level-4 punctuation.  The
    comparisons are the chain of [wcscmp] tests; any other name is neo. *)
Definition layoutDependent (name : string) (l : Layout) : Layout :=
  if String.eqb name "adnw" then
    let l := onLevel LEVEL_1 (fillAtLiteral 16 [107; 117; 252; 46; 228; 118; 103; 99; 108; 106; 102; 180]) l in
    let l := onLevel LEVEL_1 (fillAtLiteral 30 [104; 105; 101; 97; 111; 100; 116; 114; 110; 115; 223]) l in
    let l := onLevel LEVEL_1 (fillAtLiteral 44 [120; 121; 246; 44; 113; 98; 112; 119; 109; 122]) l in
    l
  else if String.eqb name "adnwzjf" then
    let l := onLevel LEVEL_1 (fillAtLiteral 16 [107; 117; 252; 46; 228; 118; 103; 99; 108; 223; 122; 180]) l in
    let l := onLevel LEVEL_1 (fillAtLiteral 30 [104; 105; 101; 97; 111; 100; 116; 114; 110; 115; 102]) l in
    let l := onLevel LEVEL_1 (fillAtLiteral 44 [120; 121; 246; 44; 113; 98; 112; 119; 109; 106]) l in
    l
  else if String.eqb name "bone" then
    let l := onLevel LEVEL_1 (fillAtLiteral 16 [106; 100; 117; 97; 120; 112; 104; 108; 109; 119; 223; 180]) l in
    let l := onLevel LEVEL_1 (fillAtLiteral 30 [99; 116; 105; 101; 111; 98; 110; 114; 115; 103; 113]) l in
    let l := onLevel LEVEL_1 (fillAtLiteral 44 [102; 118; 252; 228; 246; 121; 122; 44; 46; 107]) l in
    l
  else if String.eqb name "koy" then
    let l := onLevel LEVEL_1 (fillAtLiteral 16 [107; 46; 111; 44; 121; 118; 103; 99; 108; 223; 122; 180]) l in
    let l := onLevel LEVEL_1 (fillAtLiteral 30 [104; 97; 101; 105; 117; 100; 116; 114; 110; 115; 102]) l in
    let l := onLevel LEVEL_1 (fillAtLiteral 44 [120; 113; 228; 252; 246; 98; 112; 119; 109; 106]) l in
    l
  else if String.eqb name "kou" || String.eqb name "vou" then
    let l := set_is_kou_or_vue true l in
    let l :=
      if String.eqb name "kou" then
        let l := onLevel LEVEL_1 (fillAtLiteral 16 [107; 46; 111; 117; 228; 113; 103; 99; 108; 102; 106; 180]) l in
        let l := onLevel LEVEL_1 (fillAtLiteral 30 [104; 97; 101; 105; 121; 98; 116; 114; 110; 115; 223]) l in
        let l := onLevel LEVEL_1 (fillAtLiteral 44 [122; 120; 44; 252; 246; 112; 100; 119; 109; 118]) l in
        l
      else
        let l := onLevel LEVEL_1 (fillAtLiteral 16 [118; 46; 111; 117; 228; 113; 103; 108; 104; 102; 106; 180]) l in
        let l := onLevel LEVEL_1 (fillAtLiteral 30 [99; 97; 101; 105; 121; 98; 116; 114; 110; 115; 223]) l in
        let l := onLevel LEVEL_1 (fillAtLiteral 44 [122; 120; 44; 252; 246; 112; 100; 119; 109; 107]) l in
        l
    in
    let l := onLevel LEVEL_3 (fillAtLiteral 16 [64; 37; 123; 125; 94; 33; 60; 62; 61; 38; 8364; 823]) l in
    let l := onLevel LEVEL_3 (fillAtLiteral 30 [124; 96; 40; 41; 42; 63; 47; 58; 45; 95; 8594]) l in
    let l := onLevel LEVEL_3 (fillAtLiteral 44 [35; 91; 93; 126; 36; 43; 34; 39; 92; 59]) l in
    let l := onLevel LEVEL_4 (fillAtLiteral 4 [10004; 10008; 183; 163; 164; 48; 47; 42; 45; 168]) l in
    let l := onLevel LEVEL_4 (fillAtLiteral 21 [58; 55; 56; 57; 43; 8722; 733]) l in
    let l := onLevel LEVEL_4 (fillAtLiteral 35 [45; 52; 53; 54; 44; 59]) l in
    let l := onLevel LEVEL_4 (fillAtLiteral 49 [95; 49; 50; 51; 46]) l in
    l
  else
    let l := onLevel LEVEL_1 (fillAtLiteral 16 [120; 118; 108; 99; 119; 107; 104; 103; 102; 113; 223; 180]) l in
    let l := onLevel LEVEL_1 (fillAtLiteral 30 [117; 105; 97; 101; 111; 115; 110; 114; 116; 100; 121]) l in
    let l := onLevel LEVEL_1 (fillAtLiteral 44 [252; 246; 228; 112; 122; 98; 109; 44; 46; 106]) l in
    l.

(** [buildLayout] *)
Definition buildLayout (settings : Settings) : Layout :=
  let l := emptyLayout in
  (* same for all layouts *)
  let l := onLevel LEVEL_1 (fillAtLiteral 2 [49; 50; 51; 52; 53; 54; 55; 56; 57; 48; 45; 96]) l in
  let l := onLevel LEVEL_1 (fillAtLiteral 27 [180]) l in
  let l := onLevel LEVEL_2 (fillAtLiteral 41 [780]) l in
  let l := onLevel LEVEL_2 (fillAtLiteral 2 [176; 167; 8467; 187; 171; 36; 8364; 8222; 8220; 8221; 8212; 807]) l in
  let l := onLevel LEVEL_2 (fillAtLiteral 27 [126]) l in
  let l := onLevel LEVEL_3 (fillAtLiteral 41 [94]) l in
  let l := onLevel LEVEL_3 (fillAtLiteral 2 [185; 178; 179; 8250; 8249; 162; 165; 8218; 8216; 8217; 8212; 778]) l in
  let l := onLevel LEVEL_3 (fillAtLiteral 16 [8230; 95; 91; 93; 94; 33; 60; 62; 61; 38; 383; 823]) l in
  let l := onLevel LEVEL_3 (fillAtLiteral 30 [92; 47; 123; 125; 42; 63; 40; 41; 45; 58; 64]) l in
  let l := onLevel LEVEL_3 (fillAtLiteral 44 [35; 36; 124; 126; 96; 43; 37; 34; 39; 59]) l in
  let l := onLevel LEVEL_4 (fillAtLiteral 41 [775]) l in
  let l := onLevel LEVEL_4 (fillAtLiteral 2 [170; 186; 8470; 8942; 183; 163; 164; 48; 47; 42; 45; 168]) l in
  let l := onLevel LEVEL_4 (fillAtLiteral 21 [161; 55; 56; 57; 43; 8722; 733]) l in
  let l := onLevel LEVEL_4 (fillAtLiteral 35 [191; 52; 53; 54; 44; 46]) l in
  let l := onLevel LEVEL_4 (fillAtLiteral 49 [58; 49; 50; 51; 59]) l in
  (* layout dependent *)
  let l := layoutDependent (layout settings) l in
  (* map letters of level 2 *)
  let l := mapLevels LEVEL_1 LEVEL_2 upperLetters l in
  (* map main block on levels 5 and 6 *)
  let l := mapLevels LEVEL_1 LEVEL_5 greekLetters l in
  let l := mapLevels LEVEL_1 LEVEL_6 mathSymbols l in
  (* add number row and dead key in upper letter row *)
  let l := onLevel LEVEL_5 (fillAtLiteral 41 [777]) l in
  let l := onLevel LEVEL_5 (fillAtLiteral 2 [8321; 8322; 8323; 9794; 9792; 9893; 1008; 10216; 10217; 8320; 63; 8190]) l in
  let l := onLevel LEVEL_5 (fillAtLiteral 27 [8127]) l in
  let l := setSlot LEVEL_5 57 0x00a0 l in
  let l := onLevel LEVEL_6 (fillAtLiteral 41 [803]) l in
  let l := onLevel LEVEL_6 (fillAtLiteral 2 [172; 8744; 8743; 8869; 8737; 8741; 8594; 8734; 8733; 8960; 63; 772]) l in
  let l := onLevel LEVEL_6 (fillAtLiteral 27 [728]) l in
  let l := setSlot LEVEL_6 57 0x202f l in
  (* if quote is the right level 3 modifier, copy the symbol of the
     quote key to the hash key *)
  let l :=
    if quoteAsMod3R settings then
      let l := copySlot LEVEL_1 43 40 l in
      let l := copySlot LEVEL_2 43 40 l in
      let l := copySlot LEVEL_3 43 40 l in
      let l := copySlot LEVEL_4 43 40 l in
      let l := copySlot LEVEL_5 43 40 l in
      let l := copySlot LEVEL_6 43 40 l in
      l
    else l in
  let l := setSlot LEVEL_2 8 0x20AC l in
  let l := setSpecial 16 VK_PRIOR l in
  let l :=
    if is_kou_or_vue l then
      let l := setSpecial 17 VK_NEXT l in
      let l := setSpecial 18 VK_UP l in
      let l := setSpecial 19 VK_BACK l in
      let l := setSpecial 20 VK_DELETE l in
      l
    else
      let l := setSpecial 17 VK_BACK l in
      let l := setSpecial 18 VK_UP l in
      let l := setSpecial 19 VK_DELETE l in
      let l := setSpecial 20 VK_NEXT l in
      l in
  let l := setSpecial 30 VK_HOME l in
  let l := setSpecial 31 VK_LEFT l in
  let l := setSpecial 32 VK_DOWN l in
  let l := setSpecial 33 VK_RIGHT l in
  let l := setSpecial 34 VK_END l in
  let l :=
    if is_kou_or_vue l then
      let l := setSpecial 44 VK_INSERT l in
      let l := setSpecial 45 VK_TAB l in
      let l := setSpecial 46 VK_RETURN l in
      let l := setSpecial 47 VK_ESCAPE l in
      l
    else
      let l := setSpecial 44 VK_ESCAPE l in
      let l := setSpecial 45 VK_TAB l in
      let l := setSpecial 46 VK_INSERT l in
      let l := setSpecial 47 VK_RETURN l in
      l in
  let l := setSpecial 57 48 (* '0' *) l in
  l.

(** [mapScanCodeToChar], with the global [g_layout] as an argument.  The
    source indexes the array at [in] as it is; [None] is a read past the
    end of the [MAPPING_LEN] entries. *)
Definition mapScanCodeToChar (g_layout : Layout) (level : Level) (i : N) : option N :=
  getLevel g_layout level !! N.to_nat i.

(** ** The hook's state and events *)

(** [struct State] *)
Record State := {
  bypassMode : bool;
  shiftPressed : bool;
  mod3Pressed : bool;
  mod4Pressed : bool;
  shiftLeftPressed : bool;
  shiftRightPressed : bool;
  shiftLockActive : bool;
  capsLockActive : bool;
  level3modLeftPressed : bool;
  level3modRightPressed : bool;
  level3modLeftAndNoOtherKeyPressed : bool;
  level3modRightAndNoOtherKeyPressed : bool;
  level4modLeftAndNoOtherKeyPressed : bool;
  level4modLeftPressed : bool;
  level4modRightPressed : bool;
  level4LockActive : bool;
  ctrlLeftPressed : bool;
  ctrlRightPressed : bool;
  altLeftPressed : bool;
  winLeftPressed : bool;
  winRightPressed : bool
}.

(** [State{}]: every flag false. *)
Definition initialState : State :=
  {| bypassMode := false;
     shiftPressed := false;
     mod3Pressed := false;
     mod4Pressed := false;
     shiftLeftPressed := false;
     shiftRightPressed := false;
     shiftLockActive := false;
     capsLockActive := false;
     level3modLeftPressed := false;
     level3modRightPressed := false;
     level3modLeftAndNoOtherKeyPressed := false;
     level3modRightAndNoOtherKeyPressed := false;
     level4modLeftAndNoOtherKeyPressed := false;
     level4modLeftPressed := false;
     level4modRightPressed := false;
     level4LockActive := false;
     ctrlLeftPressed := false;
     ctrlRightPressed := false;
     altLeftPressed := false;
     winLeftPressed := false;
     winRightPressed := false |}.

(** Assignments to one member of [g_state]. *)
Definition set_bypassMode (v : bool) (st : State) : State :=
  {| bypassMode := v; shiftPressed := shiftPressed st;
     mod3Pressed := mod3Pressed st; mod4Pressed := mod4Pressed st;
     shiftLeftPressed := shiftLeftPressed st;
     shiftRightPressed := shiftRightPressed st;
     shiftLockActive := shiftLockActive st;
     capsLockActive := capsLockActive st;
     level3modLeftPressed := level3modLeftPressed st;
     level3modRightPressed := level3modRightPressed st;
     level3modLeftAndNoOtherKeyPressed := level3modLeftAndNoOtherKeyPressed st;
     level3modRightAndNoOtherKeyPressed := level3modRightAndNoOtherKeyPressed st;
     level4modLeftAndNoOtherKeyPressed := level4modLeftAndNoOtherKeyPressed st;
     level4modLeftPressed := level4modLeftPressed st;
     level4modRightPressed := level4modRightPressed st;
     level4LockActive := level4LockActive st;
     ctrlLeftPressed := ctrlLeftPressed st;
     ctrlRightPressed := ctrlRightPressed st;
     altLeftPressed := altLeftPressed st;
     winLeftPressed := winLeftPressed st;
     winRightPressed := winRightPressed st |}.

Definition set_shiftPressed (v : bool) (st : State) : State :=
  {| bypassMode := bypassMode st; shiftPressed := v;
     mod3Pressed := mod3Pressed st; mod4Pressed := mod4Pressed st;
     shiftLeftPressed := shiftLeftPressed st;
     shiftRightPressed := shiftRightPressed st;
     shiftLockActive := shiftLockActive st;
     capsLockActive := capsLockActive st;
     level3modLeftPressed := level3modLeftPressed st;
     level3modRightPressed := level3modRightPressed st;
     level3modLeftAndNoOtherKeyPressed := level3modLeftAndNoOtherKeyPressed st;
     level3modRightAndNoOtherKeyPressed := level3modRightAndNoOtherKeyPressed st;
     level4modLeftAndNoOtherKeyPressed := level4modLeftAndNoOtherKeyPressed st;
     level4modLeftPressed := level4modLeftPressed st;
     level4modRightPressed := level4modRightPressed st;
     level4LockActive := level4LockActive st;
     ctrlLeftPressed := ctrlLeftPressed st;
     ctrlRightPressed := ctrlRightPressed st;
     altLeftPressed := altLeftPressed st;
     winLeftPressed := winLeftPressed st;
     winRightPressed := winRightPressed st |}.

Definition set_mod3Pressed (v : bool) (st : State) : State :=
  {| bypassMode := bypassMode st; shiftPressed := shiftPressed st;
     mod3Pressed := v; mod4Pressed := mod4Pressed st;
     shiftLeftPressed := shiftLeftPressed st;
     shiftRightPressed := shiftRightPressed st;
     shiftLockActive := shiftLockActive st;
     capsLockActive := capsLockActive st;
     level3modLeftPressed := level3modLeftPressed st;
     level3modRightPressed := level3modRightPressed st;
     level3modLeftAndNoOtherKeyPressed := level3modLeftAndNoOtherKeyPressed st;
     level3modRightAndNoOtherKeyPressed := level3modRightAndNoOtherKeyPressed st;
     level4modLeftAndNoOtherKeyPressed := level4modLeftAndNoOtherKeyPressed st;
     level4modLeftPressed := level4modLeftPressed st;
     level4modRightPressed := level4modRightPressed st;
     level4LockActive := level4LockActive st;
     ctrlLeftPressed := ctrlLeftPressed st;
     ctrlRightPressed := ctrlRightPressed st;
     altLeftPressed := altLeftPressed st;
     winLeftPressed := winLeftPressed st;
     winRightPressed := winRightPressed st |}.

Definition set_mod4Pressed (v : bool) (st : State) : State :=
  {| bypassMode := bypassMode st; shiftPressed := shiftPressed st;
     mod3Pressed := mod3Pressed st; mod4Pressed := v;
     shiftLeftPressed := shiftLeftPressed st;
     shiftRightPressed := shiftRightPressed st;
     shiftLockActive := shiftLockActive st;
     capsLockActive := capsLockActive st;
     level3modLeftPressed := level3modLeftPressed st;
     level3modRightPressed := level3modRightPressed st;
     level3modLeftAndNoOtherKeyPressed := level3modLeftAndNoOtherKeyPressed st;
     level3modRightAndNoOtherKeyPressed := level3modRightAndNoOtherKeyPressed st;
     level4modLeftAndNoOtherKeyPressed := level4modLeftAndNoOtherKeyPressed st;
     level4modLeftPressed := level4modLeftPressed st;
     level4modRightPressed := level4modRightPressed st;
     level4LockActive := level4LockActive st;
     ctrlLeftPressed := ctrlLeftPressed st;
     ctrlRightPressed := ctrlRightPressed st;
     altLeftPressed := altLeftPressed st;
     winLeftPressed := winLeftPressed st;
     winRightPressed := winRightPressed st |}.

Definition set_shiftLeftPressed (v : bool) (st : State) : State :=
  {| bypassMode := bypassMode st; shiftPressed := shiftPressed st;
     mod3Pressed := mod3Pressed st; mod4Pressed := mod4Pressed st;
     shiftLeftPressed := v; shiftRightPressed := shiftRightPressed st;
     shiftLockActive := shiftLockActive st;
     capsLockActive := capsLockActive st;
     level3modLeftPressed := level3modLeftPressed st;
     level3modRightPressed := level3modRightPressed st;
     level3modLeftAndNoOtherKeyPressed := level3modLeftAndNoOtherKeyPressed st;
     level3modRightAndNoOtherKeyPressed := level3modRightAndNoOtherKeyPressed st;
     level4modLeftAndNoOtherKeyPressed := level4modLeftAndNoOtherKeyPressed st;
     level4modLeftPressed := level4modLeftPressed st;
     level4modRightPressed := level4modRightPressed st;
     level4LockActive := level4LockActive st;
     ctrlLeftPressed := ctrlLeftPressed st;
     ctrlRightPressed := ctrlRightPressed st;
     altLeftPressed := altLeftPressed st;
     winLeftPressed := winLeftPressed st;
     winRightPressed := winRightPressed st |}.

Definition set_shiftRightPressed (v : bool) (st : State) : State :=
  {| bypassMode := bypassMode st; shiftPressed := shiftPressed st;
     mod3Pressed := mod3Pressed st; mod4Pressed := mod4Pressed st;
     shiftLeftPressed := shiftLeftPressed st; shiftRightPressed := v;
     shiftLockActive := shiftLockActive st;
     capsLockActive := capsLockActive st;
     level3modLeftPressed := level3modLeftPressed st;
     level3modRightPressed := level3modRightPressed st;
     level3modLeftAndNoOtherKeyPressed := level3modLeftAndNoOtherKeyPressed st;
     level3modRightAndNoOtherKeyPressed := level3modRightAndNoOtherKeyPressed st;
     level4modLeftAndNoOtherKeyPressed := level4modLeftAndNoOtherKeyPressed st;
     level4modLeftPressed := level4modLeftPressed st;
     level4modRightPressed := level4modRightPressed st;
     level4LockActive := level4LockActive st;
     ctrlLeftPressed := ctrlLeftPressed st;
     ctrlRightPressed := ctrlRightPressed st;
     altLeftPressed := altLeftPressed st;
     winLeftPressed := winLeftPressed st;
     winRightPressed := winRightPressed st |}.

Definition set_shiftLockActive (v : bool) (st : State) : State :=
  {| bypassMode := bypassMode st; shiftPressed := shiftPressed st;
     mod3Pressed := mod3Pressed st; mod4Pressed := mod4Pressed st;
     shiftLeftPressed := shiftLeftPressed st;
     shiftRightPressed := shiftRightPressed st; shiftLockActive := v;
     capsLockActive := capsLockActive st;
     level3modLeftPressed := level3modLeftPressed st;
     level3modRightPressed := level3modRightPressed st;
     level3modLeftAndNoOtherKeyPressed := level3modLeftAndNoOtherKeyPressed st;
     level3modRightAndNoOtherKeyPressed := level3modRightAndNoOtherKeyPressed st;
     level4modLeftAndNoOtherKeyPressed := level4modLeftAndNoOtherKeyPressed st;
     level4modLeftPressed := level4modLeftPressed st;
     level4modRightPressed := level4modRightPressed st;
     level4LockActive := level4LockActive st;
     ctrlLeftPressed := ctrlLeftPressed st;
     ctrlRightPressed := ctrlRightPressed st;
     altLeftPressed := altLeftPressed st;
     winLeftPressed := winLeftPressed st;
     winRightPressed := winRightPressed st |}.

Definition set_capsLockActive (v : bool) (st : State) : State :=
  {| bypassMode := bypassMode st; shiftPressed := shiftPressed st;
     mod3Pressed := mod3Pressed st; mod4Pressed := mod4Pressed st;
     shiftLeftPressed := shiftLeftPressed st;
     shiftRightPressed := shiftRightPressed st;
     shiftLockActive := shiftLockActive st; capsLockActive := v;
     level3modLeftPressed := level3modLeftPressed st;
     level3modRightPressed := level3modRightPressed st;
     level3modLeftAndNoOtherKeyPressed := level3modLeftAndNoOtherKeyPressed st;
     level3modRightAndNoOtherKeyPressed := level3modRightAndNoOtherKeyPressed st;
     level4modLeftAndNoOtherKeyPressed := level4modLeftAndNoOtherKeyPressed st;
     level4modLeftPressed := level4modLeftPressed st;
     level4modRightPressed := level4modRightPressed st;
     level4LockActive := level4LockActive st;
     ctrlLeftPressed := ctrlLeftPressed st;
     ctrlRightPressed := ctrlRightPressed st;
     altLeftPressed := altLeftPressed st;
     winLeftPressed := winLeftPressed st;
     winRightPressed := winRightPressed st |}.

Definition set_level3modLeftPressed (v : bool) (st : State) : State :=
  {| bypassMode := bypassMode st; shiftPressed := shiftPressed st;
     mod3Pressed := mod3Pressed st; mod4Pressed := mod4Pressed st;
     shiftLeftPressed := shiftLeftPressed st;
     shiftRightPressed := shiftRightPressed st;
     shiftLockActive := shiftLockActive st;
     capsLockActive := capsLockActive st; level3modLeftPressed := v;
     level3modRightPressed := level3modRightPressed st;
     level3modLeftAndNoOtherKeyPressed := level3modLeftAndNoOtherKeyPressed st;
     level3modRightAndNoOtherKeyPressed := level3modRightAndNoOtherKeyPressed st;
     level4modLeftAndNoOtherKeyPressed := level4modLeftAndNoOtherKeyPressed st;
     level4modLeftPressed := level4modLeftPressed st;
     level4modRightPressed := level4modRightPressed st;
     level4LockActive := level4LockActive st;
     ctrlLeftPressed := ctrlLeftPressed st;
     ctrlRightPressed := ctrlRightPressed st;
     altLeftPressed := altLeftPressed st;
     winLeftPressed := winLeftPressed st;
     winRightPressed := winRightPressed st |}.

Definition set_level3modRightPressed (v : bool) (st : State) : State :=
  {| bypassMode := bypassMode st; shiftPressed := shiftPressed st;
     mod3Pressed := mod3Pressed st; mod4Pressed := mod4Pressed st;
     shiftLeftPressed := shiftLeftPressed st;
     shiftRightPressed := shiftRightPressed st;
     shiftLockActive := shiftLockActive st;
     capsLockActive := capsLockActive st;
     level3modLeftPressed := level3modLeftPressed st;
     level3modRightPressed := v;
     level3modLeftAndNoOtherKeyPressed := level3modLeftAndNoOtherKeyPressed st;
     level3modRightAndNoOtherKeyPressed := level3modRightAndNoOtherKeyPressed st;
     level4modLeftAndNoOtherKeyPressed := level4modLeftAndNoOtherKeyPressed st;
     level4modLeftPressed := level4modLeftPressed st;
     level4modRightPressed := level4modRightPressed st;
     level4LockActive := level4LockActive st;
     ctrlLeftPressed := ctrlLeftPressed st;
     ctrlRightPressed := ctrlRightPressed st;
     altLeftPressed := altLeftPressed st;
     winLeftPressed := winLeftPressed st;
     winRightPressed := winRightPressed st |}.

Definition set_level3modLeftAndNoOtherKeyPressed (v : bool) (st : State) : State :=
  {| bypassMode := bypassMode st; shiftPressed := shiftPressed st;
     mod3Pressed := mod3Pressed st; mod4Pressed := mod4Pressed st;
     shiftLeftPressed := shiftLeftPressed st;
     shiftRightPressed := shiftRightPressed st;
     shiftLockActive := shiftLockActive st;
     capsLockActive := capsLockActive st;
     level3modLeftPressed := level3modLeftPressed st;
     level3modRightPressed := level3modRightPressed st;
     level3modLeftAndNoOtherKeyPressed := v;
     level3modRightAndNoOtherKeyPressed := level3modRightAndNoOtherKeyPressed st;
     level4modLeftAndNoOtherKeyPressed := level4modLeftAndNoOtherKeyPressed st;
     level4modLeftPressed := level4modLeftPressed st;
     level4modRightPressed := level4modRightPressed st;
     level4LockActive := level4LockActive st;
     ctrlLeftPressed := ctrlLeftPressed st;
     ctrlRightPressed := ctrlRightPressed st;
     altLeftPressed := altLeftPressed st;
     winLeftPressed := winLeftPressed st;
     winRightPressed := winRightPressed st |}.

Definition set_level3modRightAndNoOtherKeyPressed (v : bool) (st : State) : State :=
  {| bypassMode := bypassMode st; shiftPressed := shiftPressed st;
     mod3Pressed := mod3Pressed st; mod4Pressed := mod4Pressed st;
     shiftLeftPressed := shiftLeftPressed st;
     shiftRightPressed := shiftRightPressed st;
     shiftLockActive := shiftLockActive st;
     capsLockActive := capsLockActive st;
     level3modLeftPressed := level3modLeftPressed st;
     level3modRightPressed := level3modRightPressed st;
     level3modLeftAndNoOtherKeyPressed := level3modLeftAndNoOtherKeyPressed st;
     level3modRightAndNoOtherKeyPressed := v;
     level4modLeftAndNoOtherKeyPressed := level4modLeftAndNoOtherKeyPressed st;
     level4modLeftPressed := level4modLeftPressed st;
     level4modRightPressed := level4modRightPressed st;
     level4LockActive := level4LockActive st;
     ctrlLeftPressed := ctrlLeftPressed st;
     ctrlRightPressed := ctrlRightPressed st;
     altLeftPressed := altLeftPressed st;
     winLeftPressed := winLeftPressed st;
     winRightPressed := winRightPressed st |}.

Definition set_level4modLeftAndNoOtherKeyPressed (v : bool) (st : State) : State :=
  {| bypassMode := bypassMode st; shiftPressed := shiftPressed st;
     mod3Pressed := mod3Pressed st; mod4Pressed := mod4Pressed st;
     shiftLeftPressed := shiftLeftPressed st;
     shiftRightPressed := shiftRightPressed st;
     shiftLockActive := shiftLockActive st;
     capsLockActive := capsLockActive st;
     level3modLeftPressed := level3modLeftPressed st;
     level3modRightPressed := level3modRightPressed st;
     level3modLeftAndNoOtherKeyPressed := level3modLeftAndNoOtherKeyPressed st;
     level3modRightAndNoOtherKeyPressed := level3modRightAndNoOtherKeyPressed st;
     level4modLeftAndNoOtherKeyPressed := v;
     level4modLeftPressed := level4modLeftPressed st;
     level4modRightPressed := level4modRightPressed st;
     level4LockActive := level4LockActive st;
     ctrlLeftPressed := ctrlLeftPressed st;
     ctrlRightPressed := ctrlRightPressed st;
     altLeftPressed := altLeftPressed st;
     winLeftPressed := winLeftPressed st;
     winRightPressed := winRightPressed st |}.

Definition set_level4modLeftPressed (v : bool) (st : State) : State :=
  {| bypassMode := bypassMode st; shiftPressed := shiftPressed st;
     mod3Pressed := mod3Pressed st; mod4Pressed := mod4Pressed st;
     shiftLeftPressed := shiftLeftPressed st;
     shiftRightPressed := shiftRightPressed st;
     shiftLockActive := shiftLockActive st;
     capsLockActive := capsLockActive st;
     level3modLeftPressed := level3modLeftPressed st;
     level3modRightPressed := level3modRightPressed st;
     level3modLeftAndNoOtherKeyPressed := level3modLeftAndNoOtherKeyPressed st;
     level3modRightAndNoOtherKeyPressed := level3modRightAndNoOtherKeyPressed st;
     level4modLeftAndNoOtherKeyPressed := level4modLeftAndNoOtherKeyPressed st;
     level4modLeftPressed := v;
     level4modRightPressed := level4modRightPressed st;
     level4LockActive := level4LockActive st;
     ctrlLeftPressed := ctrlLeftPressed st;
     ctrlRightPressed := ctrlRightPressed st;
     altLeftPressed := altLeftPressed st;
     winLeftPressed := winLeftPressed st;
     winRightPressed := winRightPressed st |}.

Definition set_level4modRightPressed (v : bool) (st : State) : State :=
  {| bypassMode := bypassMode st; shiftPressed := shiftPressed st;
     mod3Pressed := mod3Pressed st; mod4Pressed := mod4Pressed st;
     shiftLeftPressed := shiftLeftPressed st;
     shiftRightPressed := shiftRightPressed st;
     shiftLockActive := shiftLockActive st;
     capsLockActive := capsLockActive st;
     level3modLeftPressed := level3modLeftPressed st;
     level3modRightPressed := level3modRightPressed st;
     level3modLeftAndNoOtherKeyPressed := level3modLeftAndNoOtherKeyPressed st;
     level3modRightAndNoOtherKeyPressed := level3modRightAndNoOtherKeyPressed st;
     level4modLeftAndNoOtherKeyPressed := level4modLeftAndNoOtherKeyPressed st;
     level4modLeftPressed := level4modLeftPressed st;
     level4modRightPressed := v; level4LockActive := level4LockActive st;
     ctrlLeftPressed := ctrlLeftPressed st;
     ctrlRightPressed := ctrlRightPressed st;
     altLeftPressed := altLeftPressed st;
     winLeftPressed := winLeftPressed st;
     winRightPressed := winRightPressed st |}.

Definition set_level4LockActive (v : bool) (st : State) : State :=
  {| bypassMode := bypassMode st; shiftPressed := shiftPressed st;
     mod3Pressed := mod3Pressed st; mod4Pressed := mod4Pressed st;
     shiftLeftPressed := shiftLeftPressed st;
     shiftRightPressed := shiftRightPressed st;
     shiftLockActive := shiftLockActive st;
     capsLockActive := capsLockActive st;
     level3modLeftPressed := level3modLeftPressed st;
     level3modRightPressed := level3modRightPressed st;
     level3modLeftAndNoOtherKeyPressed := level3modLeftAndNoOtherKeyPressed st;
     level3modRightAndNoOtherKeyPressed := level3modRightAndNoOtherKeyPressed st;
     level4modLeftAndNoOtherKeyPressed := level4modLeftAndNoOtherKeyPressed st;
     level4modLeftPressed := level4modLeftPressed st;
     level4modRightPressed := level4modRightPressed st;
     level4LockActive := v; ctrlLeftPressed := ctrlLeftPressed st;
     ctrlRightPressed := ctrlRightPressed st;
     altLeftPressed := altLeftPressed st;
     winLeftPressed := winLeftPressed st;
     winRightPressed := winRightPressed st |}.

Definition set_ctrlLeftPressed (v : bool) (st : State) : State :=
  {| bypassMode := bypassMode st; shiftPressed := shiftPressed st;
     mod3Pressed := mod3Pressed st; mod4Pressed := mod4Pressed st;
     shiftLeftPressed := shiftLeftPressed st;
     shiftRightPressed := shiftRightPressed st;
     shiftLockActive := shiftLockActive st;
     capsLockActive := capsLockActive st;
     level3modLeftPressed := level3modLeftPressed st;
     level3modRightPressed := level3modRightPressed st;
     level3modLeftAndNoOtherKeyPressed := level3modLeftAndNoOtherKeyPressed st;
     level3modRightAndNoOtherKeyPressed := level3modRightAndNoOtherKeyPressed st;
     level4modLeftAndNoOtherKeyPressed := level4modLeftAndNoOtherKeyPressed st;
     level4modLeftPressed := level4modLeftPressed st;
     level4modRightPressed := level4modRightPressed st;
     level4LockActive := level4LockActive st; ctrlLeftPressed := v;
     ctrlRightPressed := ctrlRightPressed st;
     altLeftPressed := altLeftPressed st;
     winLeftPressed := winLeftPressed st;
     winRightPressed := winRightPressed st |}.

Definition set_ctrlRightPressed (v : bool) (st : State) : State :=
  {| bypassMode := bypassMode st; shiftPressed := shiftPressed st;
     mod3Pressed := mod3Pressed st; mod4Pressed := mod4Pressed st;
     shiftLeftPressed := shiftLeftPressed st;
     shiftRightPressed := shiftRightPressed st;
     shiftLockActive := shiftLockActive st;
     capsLockActive := capsLockActive st;
     level3modLeftPressed := level3modLeftPressed st;
     level3modRightPressed := level3modRightPressed st;
     level3modLeftAndNoOtherKeyPressed := level3modLeftAndNoOtherKeyPressed st;
     level3modRightAndNoOtherKeyPressed := level3modRightAndNoOtherKeyPressed st;
     level4modLeftAndNoOtherKeyPressed := level4modLeftAndNoOtherKeyPressed st;
     level4modLeftPressed := level4modLeftPressed st;
     level4modRightPressed := level4modRightPressed st;
     level4LockActive := level4LockActive st;
     ctrlLeftPressed := ctrlLeftPressed st; ctrlRightPressed := v;
     altLeftPressed := altLeftPressed st;
     winLeftPressed := winLeftPressed st;
     winRightPressed := winRightPressed st |}.

Definition set_altLeftPressed (v : bool) (st : State) : State :=
  {| bypassMode := bypassMode st; shiftPressed := shiftPressed st;
     mod3Pressed := mod3Pressed st; mod4Pressed := mod4Pressed st;
     shiftLeftPressed := shiftLeftPressed st;
     shiftRightPressed := shiftRightPressed st;
     shiftLockActive := shiftLockActive st;
     capsLockActive := capsLockActive st;
     level3modLeftPressed := level3modLeftPressed st;
     level3modRightPressed := level3modRightPressed st;
     level3modLeftAndNoOtherKeyPressed := level3modLeftAndNoOtherKeyPressed st;
     level3modRightAndNoOtherKeyPressed := level3modRightAndNoOtherKeyPressed st;
     level4modLeftAndNoOtherKeyPressed := level4modLeftAndNoOtherKeyPressed st;
     level4modLeftPressed := level4modLeftPressed st;
     level4modRightPressed := level4modRightPressed st;
     level4LockActive := level4LockActive st;
     ctrlLeftPressed := ctrlLeftPressed st;
     ctrlRightPressed := ctrlRightPressed st; altLeftPressed := v;
     winLeftPressed := winLeftPressed st;
     winRightPressed := winRightPressed st |}.

Definition set_winLeftPressed (v : bool) (st : State) : State :=
  {| bypassMode := bypassMode st; shiftPressed := shiftPressed st;
     mod3Pressed := mod3Pressed st; mod4Pressed := mod4Pressed st;
     shiftLeftPressed := shiftLeftPressed st;
     shiftRightPressed := shiftRightPressed st;
     shiftLockActive := shiftLockActive st;
     capsLockActive := capsLockActive st;
     level3modLeftPressed := level3modLeftPressed st;
     level3modRightPressed := level3modRightPressed st;
     level3modLeftAndNoOtherKeyPressed := level3modLeftAndNoOtherKeyPressed st;
     level3modRightAndNoOtherKeyPressed := level3modRightAndNoOtherKeyPressed st;
     level4modLeftAndNoOtherKeyPressed := level4modLeftAndNoOtherKeyPressed st;
     level4modLeftPressed := level4modLeftPressed st;
     level4modRightPressed := level4modRightPressed st;
     level4LockActive := level4LockActive st;
     ctrlLeftPressed := ctrlLeftPressed st;
     ctrlRightPressed := ctrlRightPressed st;
     altLeftPressed := altLeftPressed st; winLeftPressed := v;
     winRightPressed := winRightPressed st |}.

Definition set_winRightPressed (v : bool) (st : State) : State :=
  {| bypassMode := bypassMode st; shiftPressed := shiftPressed st;
     mod3Pressed := mod3Pressed st; mod4Pressed := mod4Pressed st;
     shiftLeftPressed := shiftLeftPressed st;
     shiftRightPressed := shiftRightPressed st;
     shiftLockActive := shiftLockActive st;
     capsLockActive := capsLockActive st;
     level3modLeftPressed := level3modLeftPressed st;
     level3modRightPressed := level3modRightPressed st;
     level3modLeftAndNoOtherKeyPressed := level3modLeftAndNoOtherKeyPressed st;
     level3modRightAndNoOtherKeyPressed := level3modRightAndNoOtherKeyPressed st;
     level4modLeftAndNoOtherKeyPressed := level4modLeftAndNoOtherKeyPressed st;
     level4modLeftPressed := level4modLeftPressed st;
     level4modRightPressed := level4modRightPressed st;
     level4LockActive := level4LockActive st;
     ctrlLeftPressed := ctrlLeftPressed st;
     ctrlRightPressed := ctrlRightPressed st;
     altLeftPressed := altLeftPressed st;
     winLeftPressed := winLeftPressed st; winRightPressed := v |}.
(** [KBDLLHOOKSTRUCT], the record the operating system hands to a
    low-level keyboard hook. *)
Record KBDLLHOOKSTRUCT := {
  vkCode : N;
  scanCode : N;
  flags : N;
  time : N;
  dwExtraInfo : N
}.

Definition set_vkCode (v : N) (k : KBDLLHOOKSTRUCT) : KBDLLHOOKSTRUCT :=
  {| vkCode := v; scanCode := scanCode k; flags := flags k;
     time := time k; dwExtraInfo := dwExtraInfo k |}.

(** What the hook does to the outside world, in program order. *)
Inductive Effect :=
| KeybdEvent (bVk bScan dwFlags extra : N)
    (* keybd_event(bVk, bScan, dwFlags, dwExtraInfo) *)
| SendUnicode (wScan : N)
    (* SendInput of one KEYEVENTF_UNICODE keyboard input *)
| TrayChangeIcon (disabled : bool)
    (* trayicon_change_icon with the disabled or the normal icon *)
| LogKeyEvent (desc : string) (keyInfo : KBDLLHOOKSTRUCT)
| LogActivation (name : string) (isActive : bool)
| LogMapped (sc character key : N) (level : Level)
| LogBypass (mode : bool).

(** The value [keyevent] returns: [-1] consumes the event,
    [CallNextHookEx] hands the unchanged event to the next hook. *)
Inductive HookResult := Consumed | CallNextHookEx.

(** ** The hook monad: the state [g_state], the effects, and undefined
    behaviour as [None] *)

Definition Hook (A : Type) : Type := State -> option (A * State * list Effect).

Definition ret {A} (a : A) : Hook A := fun st => Some (a, st, []).

Definition bind {A B} (m : Hook A) (k : A -> Hook B) : Hook B :=
  fun st =>
    match m st with
    | None => None
    | Some (a, st1, o1) =>
        match k a st1 with
        | None => None
        | Some (b, st2, o2) => Some (b, st2, o1 ++ o2)
        end
    end.

Definition get : Hook State := fun st => Some (st, st, []).
Definition modify (f : State -> State) : Hook unit := fun st => Some (tt, f st, []).
Definition emit (e : Effect) : Hook unit := fun st => Some (tt, st, [e]).
Definition undefined {A} : Hook A := fun _ => None.

Declare Scope hook_scope.
Delimit Scope hook_scope with hook.
Notation "x <- c1 ;; c2" := (bind c1 (fun x => c2))
  (at level 100, c1 at next level, c2 at level 200, right associativity) : hook_scope.
Notation "c1 ;; c2" := (bind c1 (fun _ => c2))
  (at level 100, c2 at level 200, right associativity) : hook_scope.
Open Scope hook_scope.

(** [keybd_event]: the first two parameters are [BYTE]s. *)
Definition keybd_event (bVk bScan dwFlags extra : N) : Hook unit :=
  emit (KeybdEvent (bVk mod 256) (bScan mod 256) dwFlags extra).

Definition logKeyEvent (desc : string) (keyInfo : KBDLLHOOKSTRUCT) : Hook unit :=
  emit (LogKeyEvent desc keyInfo).

Definition logActivation (name : string) (isActive : bool) : Hook unit :=
  emit (LogActivation name isActive).

(** [sendUnicodeChar] *)
Definition sendUnicodeChar (key : N) : Hook unit := emit (SendUnicode key).

(** [toggleBypassMode] *)
Definition toggleBypassMode : Hook unit :=
  st <- get ;;
  modify (set_bypassMode (negb (bypassMode st))) ;;
  st <- get ;;
  emit (TrayChangeIcon (bypassMode st)) ;;
  emit (LogBypass (bypassMode st)).

(** [wparam == WM_SYSKEYUP || wparam == WM_KEYUP] and its key-down
    counterpart; [keyInfo.flags & LLKHF_INJECTED]. *)
Definition isKeyUpMsg (wparam : N) : bool :=
  (wparam =? WM_SYSKEYUP) || (wparam =? WM_KEYUP).

Definition isKeyDownMsg (wparam : N) : bool :=
  (wparam =? WM_SYSKEYDOWN) || (wparam =? WM_KEYDOWN).

Definition injected (keyInfo : KBDLLHOOKSTRUCT) : bool :=
  negb (N.land (flags keyInfo) LLKHF_INJECTED =? 0).

(** One call of the hook by the operating system: the arguments of
    [keyevent]. *)
Record HookCall := {
  code : Z;
  wparam : N;
  lparam : KBDLLHOOKSTRUCT
}.

Section Hook.

(** The host system's reverse layout lookup
    [VkKeyScanEx(key, GetKeyboardLayout(0))], a [SHORT] that is [-1] when
    no key types the character, and [MapVirtualKeyA(vk, MAPVK_VK_TO_CHAR)],
    which only the log reads. *)
Variable VkKeyScanEx : N -> Z.
Variable MapVirtualKeyA : N -> N.

Variable g_settings : Settings.
Variable g_layout : Layout.

(** The test that sends [sendChar] down the Unicode branch. *)
Definition useUnicode (keyScanResult : Z) (st : State) (keyInfo : KBDLLHOOKSTRUCT) : bool :=
  (keyScanResult =? -1)%Z || shiftLockActive st || capsLockActive st
  || level4LockActive st
  || ((0x30 <=? vkCode keyInfo) && (vkCode keyInfo <=? 0x39)).

(** [when c m]: [if (c) m;] *)
Definition when (c : bool) (m : Hook unit) : Hook unit :=
  if c then m else ret tt.

(** [sendChar] *)
Definition sendChar (key : N) (keyInfo : KBDLLHOOKSTRUCT) : Hook unit :=
  let keyScanResult := VkKeyScanEx key in
  st <- get ;;
  if useUnicode keyScanResult st keyInfo then
    sendUnicodeChar key
  else
    (* keyInfo.vkCode = keyScanResult: a SHORT stored into a DWORD *)
    let keyInfo := set_vkCode (Z.to_N (keyScanResult mod 2 ^ 32)) keyInfo in
    let modifiers := Z.shiftr keyScanResult 8 in
    let shift := negb (Z.land modifiers 1 =? 0)%Z in
    let alt := negb (Z.land modifiers 2 =? 0)%Z in
    let ctrl := negb (Z.land modifiers 4 =? 0)%Z in
    let altgr := alt && ctrl in
    let ctrl := if altgr then false else ctrl in
    let alt := if altgr then false else alt in
    when altgr (keybd_event VK_RMENU 0 0 0) ;;
    when ctrl (keybd_event VK_CONTROL 0 0 0) ;;
    when alt (keybd_event VK_MENU 0 0 0) ;;
    when shift (keybd_event VK_SHIFT 0 0 0) ;;
    keybd_event (vkCode keyInfo) (scanCode keyInfo) (flags keyInfo) (dwExtraInfo keyInfo) ;;
    when altgr (keybd_event VK_RMENU 0 KEYEVENTF_KEYUP 0) ;;
    when ctrl (keybd_event VK_CONTROL 0 KEYEVENTF_KEYUP 0) ;;
    when alt (keybd_event VK_MENU 0 KEYEVENTF_KEYUP 0) ;;
    when shift (keybd_event VK_SHIFT 0 KEYEVENTF_KEYUP 0).

(** [handleLayer2SpecialCases]; a [switch] whose cases all return is
    the chain of equality tests on the scrutinee. *)
Definition handleLayer2SpecialCases (keyInfo : KBDLLHOOKSTRUCT) : Hook bool :=
  if scanCode keyInfo =? 27 then sendChar 0x303 keyInfo ;; ret true
  else if scanCode keyInfo =? 41 then sendChar 0x30C keyInfo ;; ret true
  else ret false.

(** [handleLayer3SpecialCases] *)
Definition handleLayer3SpecialCases (keyInfo : KBDLLHOOKSTRUCT) : Hook bool :=
  if scanCode keyInfo =? 13 then sendChar 0x30A keyInfo ;; ret true
  else if scanCode keyInfo =? 20 then
    sendChar 0x5E keyInfo ;; keybd_event VK_SPACE 0 0 0 ;; ret true
  else if scanCode keyInfo =? 27 then sendChar 0x337 keyInfo ;; ret true
  else if scanCode keyInfo =? 31 then
    if is_kou_or_vue g_layout then
      sendChar 0x60 keyInfo ;; keybd_event VK_SPACE 0 0 0 ;; ret true
    else ret false
  else if scanCode keyInfo =? 48 then
    if is_kou_or_vue g_layout then
      sendChar 0x60 keyInfo ;; keybd_event VK_SPACE 0 0 0 ;; ret true
    else ret false
  else ret false.

(** The read [g_layout.level4_specials.mapping[i]]; [None] past the end. *)
Definition level4Special (i : N) : option N :=
  level4_specials g_layout !! N.to_nat i.

(** [handleLayer4SpecialCases]: after the three dead keys, the second
    level-4 table is read at [keyInfo.scanCode]. *)
Definition handleLayer4SpecialCases (keyInfo : KBDLLHOOKSTRUCT) : Hook bool :=
  if scanCode keyInfo =? 13 then sendChar 0xA8 keyInfo ;; ret true
  else if scanCode keyInfo =? 27 then sendChar 0x2DD keyInfo ;; ret true
  else if scanCode keyInfo =? 41 then sendChar 0x307 keyInfo ;; ret true
  else
    match level4Special (scanCode keyInfo) with
    | None => undefined
    | Some mapped =>
        if negb (mapped =? 0) then
          (* always send extended flag *)
          keybd_event mapped 0 0x01 0 ;; ret true
        else ret false
    end.

(** [isShift], [isMod3], [isMod4], [isSystemKeyPressed], [isLetter] *)
Definition isShift (keyInfo : KBDLLHOOKSTRUCT) : bool :=
  (vkCode keyInfo =? VK_SHIFT) || (vkCode keyInfo =? VK_LSHIFT)
  || (vkCode keyInfo =? VK_RSHIFT).

Definition isMod3 (keyInfo : KBDLLHOOKSTRUCT) : bool :=
  (scanCode keyInfo =? scanCodeMod3L g_settings)
  || (scanCode keyInfo =? scanCodeMod3R g_settings).

Definition isMod4 (keyInfo : KBDLLHOOKSTRUCT) : bool :=
  (scanCode keyInfo =? scanCodeMod4L g_settings)
  || (vkCode keyInfo =? VK_RMENU).

Definition isSystemKeyPressed (st : State) : bool :=
  ctrlLeftPressed st || ctrlRightPressed st || altLeftPressed st
  || winLeftPressed st || winRightPressed st.

Definition isLetter (key : N) : bool :=
  ((65 <=? key) && (key <=? 90))
  || ((97 <=? key) && (key <=? 122))
  || (key =? 228) || (key =? 246) || (key =? 252) || (key =? 223)
  || (key =? 196) || (key =? 214) || (key =? 220) || (key =? 7838).

(** The [level] lambda of [keyevent]; [a != b] on two [bool]s. *)
Definition bool_ne (a b : bool) : bool := negb (Bool.eqb a b).

Definition level (st : State) : Level :=
  let lower :=
    if bool_ne (mod4Pressed st) (level4LockActive st) then LEVEL_4
    else if mod3Pressed st then LEVEL_3
    else if bool_ne (shiftPressed st) (shiftLockActive st) then LEVEL_2
    else LEVEL_1 in
  if supportLevels5and6 g_settings then
    if bool_ne (shiftPressed st) (shiftLockActive st) && mod3Pressed st
    then LEVEL_5
    else if mod3Pressed st && bool_ne (mod4Pressed st) (level4LockActive st)
    then LEVEL_6
    else lower
  else lower.

(** The lock toggle both arms of the shift release run when the other
    shift key is still held. *)
Definition toggleShiftOrCapsLock : Hook unit :=
  if shiftLockEnabled g_settings then
    st <- get ;;
    modify (set_shiftLockActive (negb (shiftLockActive st))) ;;
    logActivation "Shift lock" (negb (shiftLockActive st))
  else if capsLockEnabled g_settings then
    st <- get ;;
    modify (set_capsLockActive (negb (capsLockActive st))) ;;
    logActivation "Caps lock" (negb (capsLockActive st))
  else ret tt.

Definition toggleLevel4Lock : Hook unit :=
  st <- get ;;
  modify (set_level4LockActive (negb (level4LockActive st))) ;;
  logActivation "Level4 lock" (negb (level4LockActive st)).

(** The [keyUp] branch of [keyevent]. *)
Definition keyUpBranch (keyInfo : KBDLLHOOKSTRUCT) : Hook HookResult :=
  logKeyEvent "key up" keyInfo ;;
  if isShift keyInfo then
    (if vkCode keyInfo =? VK_RSHIFT then
       modify (set_shiftRightPressed false) ;;
       st <- get ;;
       when (shiftLeftPressed st) toggleShiftOrCapsLock ;;
       keybd_event VK_RSHIFT 54 KEYEVENTF_KEYUP 0
     else
       modify (set_shiftLeftPressed false) ;;
       st <- get ;;
       when (shiftRightPressed st) toggleShiftOrCapsLock ;;
       keybd_event VK_LSHIFT 42 KEYEVENTF_KEYUP 0) ;;
    st <- get ;;
    modify (set_shiftPressed (shiftLeftPressed st || shiftRightPressed st)) ;;
    ret Consumed
  else if isMod3 keyInfo then
    let finish :=
      st <- get ;;
      modify (set_mod3Pressed (level3modLeftPressed st || level3modRightPressed st)) ;;
      ret Consumed in
    if scanCode keyInfo =? scanCodeMod3R g_settings then
      modify (set_level3modRightPressed false) ;;
      st <- get ;;
      if mod3RAsReturn g_settings && level3modRightAndNoOtherKeyPressed st then
        (* release Mod3_R, send Return *)
        keybd_event (vkCode keyInfo) 0 KEYEVENTF_KEYUP 0 ;;
        keybd_event VK_RETURN 0 0x01 0 ;;
        modify (set_level3modRightAndNoOtherKeyPressed false) ;;
        ret Consumed
      else finish
    else
      modify (set_level3modLeftPressed false) ;;
      st <- get ;;
      if capsLockAsEscape g_settings && level3modLeftAndNoOtherKeyPressed st then
        (* release CapsLock/Mod3_L, send Escape *)
        keybd_event VK_CAPITAL 0 KEYEVENTF_KEYUP 0 ;;
        keybd_event VK_ESCAPE 0 0x01 0 ;;
        modify (set_level3modLeftAndNoOtherKeyPressed false) ;;
        ret Consumed
      else finish
  else if isMod4 keyInfo then
    let finish :=
      st <- get ;;
      modify (set_mod4Pressed (level4modLeftPressed st || level4modRightPressed st)) ;;
      ret Consumed in
    if scanCode keyInfo =? scanCodeMod4L g_settings then
      modify (set_level4modLeftPressed false) ;;
      st <- get ;;
      if level4modRightPressed st && level4LockEnabled g_settings then
        toggleLevel4Lock ;; finish
      else if mod4LAsTab g_settings && level4modLeftAndNoOtherKeyPressed st then
        (* release Mod4_L, send Tab *)
        keybd_event (vkCode keyInfo) 0 KEYEVENTF_KEYUP 0 ;;
        keybd_event VK_TAB 0 0x01 0 ;;
        modify (set_level4modLeftAndNoOtherKeyPressed false) ;;
        ret Consumed
      else finish
    else
      modify (set_level4modRightPressed false) ;;
      st <- get ;;
      when (level4modLeftPressed st && level4LockEnabled g_settings) toggleLevel4Lock ;;
      finish
  (* Check also the scan code because AltGr sends VK_LCONTROL with
     scanCode 541 *)
  else if (vkCode keyInfo =? VK_LCONTROL) && (scanCode keyInfo =? 29) then
    (if swapLeftCtrlAndLeftAlt g_settings then
       modify (set_altLeftPressed false) ;;
       keybd_event VK_LMENU 0 KEYEVENTF_KEYUP 0
     else if swapLeftCtrlLeftAltAndLeftWin g_settings then
       modify (set_winLeftPressed false) ;;
       keybd_event VK_LWIN 0 KEYEVENTF_KEYUP 0
     else
       modify (set_ctrlLeftPressed false) ;;
       keybd_event VK_LCONTROL 0 KEYEVENTF_KEYUP 0) ;;
    ret Consumed
  else if vkCode keyInfo =? VK_RCONTROL then
    modify (set_ctrlRightPressed false) ;;
    ret CallNextHookEx
  else if vkCode keyInfo =? VK_LMENU then
    (if swapLeftCtrlAndLeftAlt g_settings || swapLeftCtrlLeftAltAndLeftWin g_settings then
       modify (set_ctrlLeftPressed false) ;;
       keybd_event VK_LCONTROL 0 KEYEVENTF_KEYUP 0
     else
       modify (set_altLeftPressed false) ;;
       keybd_event VK_LMENU 0 KEYEVENTF_KEYUP 0) ;;
    ret Consumed
  else if vkCode keyInfo =? VK_LWIN then
    (if swapLeftCtrlLeftAltAndLeftWin g_settings then
       modify (set_altLeftPressed false) ;;
       keybd_event VK_LMENU 0 KEYEVENTF_KEYUP 0
     else
       modify (set_winLeftPressed false) ;;
       keybd_event VK_LWIN 0 KEYEVENTF_KEYUP 0) ;;
    ret Consumed
  else if vkCode keyInfo =? VK_RWIN then
    modify (set_winRightPressed false) ;;
    ret CallNextHookEx
  else ret CallNextHookEx.

(** The tail of the [keyDown] branch, from the [level] lambda on. *)
Definition keyDownMapping (keyInfo : KBDLLHOOKSTRUCT) : Hook HookResult :=
  st <- get ;;
  let level := level st in
  if isShift keyInfo then
    modify (set_shiftPressed true) ;;
    (if vkCode keyInfo =? VK_RSHIFT then
       modify (set_shiftRightPressed true) ;;
       keybd_event VK_RSHIFT 0 0 0
     else
       modify (set_shiftLeftPressed true) ;;
       keybd_event VK_LSHIFT 0 0 0) ;;
    ret Consumed
  else if isMod3 keyInfo then
    modify (set_mod3Pressed true) ;;
    (if scanCode keyInfo =? scanCodeMod3R g_settings then
       modify (set_level3modRightPressed true) ;;
       modify (set_level3modRightAndNoOtherKeyPressed true)
     else
       modify (set_level3modLeftPressed true) ;;
       modify (set_level3modLeftAndNoOtherKeyPressed true)) ;;
    ret Consumed
  else if isMod4 keyInfo then
    modify (set_mod4Pressed true) ;;
    (if scanCode keyInfo =? scanCodeMod4L g_settings then
       modify (set_level4modLeftPressed true) ;;
       modify (set_level4modLeftAndNoOtherKeyPressed true)
     else
       modify (set_level4modRightPressed true) ;;
       keybd_event VK_RMENU 0 KEYEVENTF_KEYUP 0) ;;
    ret Consumed
  else
    handled2 <- (if Level_eqb level LEVEL_2
                 then handleLayer2SpecialCases keyInfo else ret false) ;;
    if handled2 then ret Consumed else
    handled3 <- (if Level_eqb level LEVEL_3
                 then handleLayer3SpecialCases keyInfo else ret false) ;;
    if handled3 then ret Consumed else
    handled4 <- (if Level_eqb level LEVEL_4
                 then handleLayer4SpecialCases keyInfo else ret false) ;;
    if handled4 then ret Consumed else
    if (0x60 <=? vkCode keyInfo) && (vkCode keyInfo <=? 0x6F) then
      (* Numeric keypad -> don't remap *)
      ret CallNextHookEx
    else if negb (qwertzForShortcuts g_settings && isSystemKeyPressed st) then
      match mapScanCodeToChar g_layout level (scanCode keyInfo) with
      | None => undefined
      | Some key =>
          let other := if Level_eqb level LEVEL_1 then LEVEL_2 else LEVEL_1 in
          let swapCase :=
            capsLockActive st
            && (Level_eqb level LEVEL_1 || Level_eqb level LEVEL_2)
            && isLetter key in
          match (if swapCase
                 then mapScanCodeToChar g_layout other (scanCode keyInfo)
                 else Some key) with
          | None => undefined
          | Some key =>
              if negb (key =? 0) && negb (injected keyInfo) then
                (* if key must be mapped *)
                emit (LogMapped (scanCode keyInfo)
                        (MapVirtualKeyA (vkCode keyInfo)) key level) ;;
                sendChar key keyInfo ;;
                ret Consumed
              else ret CallNextHookEx
          end
      end
    else ret CallNextHookEx.

(** The [keyDown] branch of [keyevent]. *)
Definition keyDownBranch (keyInfo : KBDLLHOOKSTRUCT) : Hook HookResult :=
  logKeyEvent (String (Ascii.ascii_of_nat 10) "key down") keyInfo ;;
  modify (set_level3modLeftAndNoOtherKeyPressed false) ;;
  modify (set_level3modRightAndNoOtherKeyPressed false) ;;
  modify (set_level4modLeftAndNoOtherKeyPressed false) ;;
  (* Check also the scan code because AltGr sends VK_LCONTROL with
     scanCode 541 *)
  if (vkCode keyInfo =? VK_LCONTROL) && (scanCode keyInfo =? 29) then
    (if swapLeftCtrlAndLeftAlt g_settings then
       modify (set_altLeftPressed true) ;;
       keybd_event VK_LMENU 0 0 0
     else if swapLeftCtrlLeftAltAndLeftWin g_settings then
       modify (set_winLeftPressed true) ;;
       keybd_event VK_LWIN 0 0 0
     else
       modify (set_ctrlLeftPressed true) ;;
       keybd_event VK_LCONTROL 0 0 0) ;;
    ret Consumed
  else if vkCode keyInfo =? VK_RCONTROL then
    modify (set_ctrlRightPressed true) ;;
    keyDownMapping keyInfo
  else if vkCode keyInfo =? VK_LMENU then
    (if swapLeftCtrlAndLeftAlt g_settings || swapLeftCtrlLeftAltAndLeftWin g_settings then
       modify (set_ctrlLeftPressed true) ;;
       keybd_event VK_LCONTROL 0 0 0
     else
       modify (set_altLeftPressed true) ;;
       keybd_event VK_LMENU 0 0 0) ;;
    ret Consumed
  else if vkCode keyInfo =? VK_LWIN then
    (if swapLeftCtrlLeftAltAndLeftWin g_settings then
       modify (set_altLeftPressed true) ;;
       keybd_event VK_LMENU 0 0 0
     else
       modify (set_winLeftPressed true) ;;
       keybd_event VK_LWIN 0 0 0) ;;
    ret Consumed
  else if vkCode keyInfo =? VK_RWIN then
    modify (set_winRightPressed true) ;;
    keyDownMapping keyInfo
  else keyDownMapping keyInfo.

(** [keyevent(code, wparam, lparam)], with [keyInfo] the record [lparam]
    points to. *)
Definition keyevent (code : Z) (wparam : N) (keyInfo : KBDLLHOOKSTRUCT) : Hook HookResult :=
  if negb (code =? HC_ACTION)%Z then ret CallNextHookEx else
  let keyUp := isKeyUpMsg wparam in
  let keyDown := isKeyDownMsg wparam in
  if negb keyUp && negb keyDown then ret CallNextHookEx else
  if injected keyInfo then
    (* process injected events like normal, because most probably we are
       injecting them *)
    logKeyEvent "injected" keyInfo ;;
    ret CallNextHookEx
  else
  st <- get ;;
  if keyDown && shiftPressed st && (scanCode keyInfo =? 69) then
    toggleBypassMode ;; (* Shift + Pause *)
    ret Consumed
  else if bypassMode st then ret CallNextHookEx
  else if keyUp then keyUpBranch keyInfo
  else if keyDown then keyDownBranch keyInfo
  else ret CallNextHookEx.

(** The hook called on a sequence of events, one after the other, on
    the same [g_state]. *)
Fixpoint run (calls : list HookCall) : Hook (list HookResult) :=
  match calls with
  | [] => ret []
  | c :: rest =>
      r <- keyevent (code c) (wparam c) (lparam c) ;;
      rs <- run rest ;;
      ret (r :: rs)
  end.

End Hook.

(** ** Definitions the statements use *)

(** The priority table of the specification, read off its six rules:
    first match wins. *)
Definition levelTable (extended shift mod3 mod4 shiftLock level4Lock : bool) : Level :=
  if extended && xorb shift shiftLock && mod3 then LEVEL_5
  else if extended && mod3 && xorb mod4 level4Lock then LEVEL_6
  else if xorb mod4 level4Lock then LEVEL_4
  else if mod3 then LEVEL_3
  else if xorb shift shiftLock then LEVEL_2
  else LEVEL_1.

(** The settings record with a given layout name and [quoteAsMod3R],
    every other member at its initialiser. *)
Definition variant (name : string) (quote : bool) : Settings :=
  {| layout := name;
     debugWindow := false; quoteAsMod3R := quote; returnAsMod3R := false;
     tabAsMod4L := false; capsLockEnabled := false; shiftLockEnabled := false;
     level4LockEnabled := false; qwertzForShortcuts := false;
     swapLeftCtrlAndLeftAlt := false; swapLeftCtrlLeftAltAndLeftWin := false;
     supportLevels5and6 := false; capsLockAsEscape := false;
     mod3RAsReturn := false; mod4LAsTab := false;
     scanCodeMod3L := SCANCODE_CAPSLOCK_KEY;
     scanCodeMod3R := SCANCODE_HASH_KEY;
     scanCodeMod4L := SCANCODE_LOWER_THAN_KEY |}.

(** The name the chain of comparisons in [buildLayout] treats a layout
    name as. *)
Definition canonicalName (name : string) : string :=
  if String.eqb name "adnw" then "adnw"
  else if String.eqb name "adnwzjf" then "adnwzjf"
  else if String.eqb name "bone" then "bone"
  else if String.eqb name "koy" then "koy"
  else if String.eqb name "kou" then "kou"
  else if String.eqb name "vou" then "vou"
  else "neo".

Definition layoutNames : list string :=
  ["adnw"; "adnwzjf"; "bone"; "koy"; "kou"; "vou"; "neo"]%string.

(** Six tables and the action table, each of [MAPPING_LEN] entries. *)
Definition wfLayout (l : Layout) : bool :=
  Nat.eqb (length (levels l)) LEVEL_COUNT
  && forallb (fun m => Nat.eqb (length m) MAPPING_LEN) (levels l)
  && Nat.eqb (length (level4_specials l)) MAPPING_LEN.

(** Synthesized input, as opposed to log lines and the tray icon. *)
Definition isSynthInput (e : Effect) : bool :=
  match e with
  | KeybdEvent _ _ _ _ | SendUnicode _ => true
  | _ => false
  end.

Definition isUnicodeInput (e : Effect) : bool :=
  match e with
  | SendUnicode _ => true
  | _ => false
  end.

(** A key-down of the Return key. *)
Definition isReturnDown (e : Effect) : bool :=
  match e with
  | KeybdEvent vk _ fl _ => (N.land fl KEYEVENTF_KEYUP =? 0) && (vk =? VK_RETURN)
  | _ => false
  end.

(** The three lock flags. *)
Definition locks (st : State) : bool * bool * bool :=
  (shiftLockActive st, capsLockActive st, level4LockActive st).

(** At most the lock the settings select is armed: with shift lock
    enabled the caps lock is off, without it the shift lock is off. *)
Definition lockInv (s : Settings) (st : State) : bool :=
  negb (if shiftLockEnabled s then capsLockActive st else shiftLockActive st).

(** A non-injected key-down and key-up of a key, as the operating
    system delivers them. *)
Definition keyDownOf (vk sc : N) : HookCall :=
  {| code := HC_ACTION; wparam := WM_KEYDOWN;
     lparam := {| vkCode := vk; scanCode := sc; flags := 0;
                  time := 0; dwExtraInfo := 0 |} |}.

Definition keyUpOf (vk sc : N) : HookCall :=
  {| code := HC_ACTION; wparam := WM_KEYUP;
     lparam := {| vkCode := vk; scanCode := sc; flags := LLKHF_UP;
                  time := 0; dwExtraInfo := 0 |} |}.

(** The same key-down as injected input. *)
Definition injectedDownOf (vk sc : N) : HookCall :=
  {| code := HC_ACTION; wparam := WM_KEYDOWN;
     lparam := {| vkCode := vk; scanCode := sc; flags := LLKHF_INJECTED;
                  time := 0; dwExtraInfo := 0 |} |}.

(** The hook reaches its classification of the call: a key-down or
    key-up message with [HC_ACTION], not injected. *)
Definition delivered (c : HookCall) : bool :=
  (code c =? HC_ACTION)%Z
  && (isKeyUpMsg (wparam c) || isKeyDownMsg (wparam c))
  && negb (injected (lparam c)).

(** The call is a key-down that [keyevent] classifies in state [st]:
    delivered, not the Shift+Pause toggle, bypass mode off. *)
Definition classifiedKeyDown (st : State) (c : HookCall) : bool :=
  delivered c && isKeyDownMsg (wparam c)
  && negb (shiftPressed st && (scanCode (lparam c) =? 69))
  && negb (bypassMode st).

(** The call is a press of the right mod3 key that [keyevent] takes as
    such: its scan code is [scanCodeMod3R], and neither the pause scan
    code nor a virtual key the hook tests earlier (shift, left control
    with scan code 29, left alt, left win). *)
Definition mod3RightDown (s : Settings) (c : HookCall) : bool :=
  delivered c && isKeyDownMsg (wparam c)
  && (scanCode (lparam c) =? scanCodeMod3R s)
  && negb (isShift (lparam c))
  && negb ((vkCode (lparam c) =? VK_LCONTROL) && (scanCode (lparam c) =? 29))
  && negb (vkCode (lparam c) =? VK_LMENU)
  && negb (vkCode (lparam c) =? VK_LWIN)
  && negb (scanCode (lparam c) =? 69).

(** The call is a release of the right mod3 key. *)
Definition mod3RightUp (s : Settings) (c : HookCall) : bool :=
  delivered c && isKeyUpMsg (wparam c)
  && (scanCode (lparam c) =? scanCodeMod3R s)
  && negb (isShift (lparam c)).

(** Between the press and the release of the right mod3 key, a call
    that is no key-down of another key: not a key-down message and not
    the right mod3 key, or the press repeated. *)
Definition quiet (s : Settings) (c : HookCall) : bool :=
  (negb (isKeyDownMsg (wparam c))
   && negb (scanCode (lparam c) =? scanCodeMod3R s))
  || mod3RightDown s c.

(** A key that is neither a modifier of the hook nor on the numeric
    keypad. *)
Definition plainKey (s : Settings) (k : KBDLLHOOKSTRUCT) : bool :=
  negb (isShift k) && negb (isMod3 s k) && negb (isMod4 s k)
  && negb ((vkCode k =? VK_LCONTROL) && (scanCode k =? 29))
  && negb (vkCode k =? VK_LMENU) && negb (vkCode k =? VK_LWIN)
  && negb ((0x60 <=? vkCode k) && (vkCode k <=? 0x6F)).

(** The pressed flag of the shift key other than the one [k] is. *)
Definition otherShiftHeld (k : KBDLLHOOKSTRUCT) (st : State) : bool :=
  if vkCode k =? VK_RSHIFT then shiftLeftPressed st else shiftRightPressed st.

(** The lock flags after one toggle of the lock the settings select. *)
Definition toggledLocks (s : Settings) (x : bool * bool * bool) : bool * bool * bool :=
  let '(shiftLock, capsLock, level4Lock) := x in
  if shiftLockEnabled s then (negb shiftLock, capsLock, level4Lock)
  else if capsLockEnabled s then (shiftLock, negb capsLock, level4Lock)
  else x.

(** The hook called on [calls] from [st] and then once more on [c]:
    the result and the effects of that last call. *)
Definition lastCall (VkKeyScanEx : N -> Z) (MapVirtualKeyA : N -> N)
    (s : Settings) (l : Layout) (calls : list HookCall) (c : HookCall)
    (st : State) : option (HookResult * list Effect) :=
  match run VkKeyScanEx MapVirtualKeyA s l calls st with
  | Some (_, st1, _) =>
      match keyevent VkKeyScanEx MapVirtualKeyA s l
              (code c) (wparam c) (lparam c) st1 with
      | Some (r, _, o) => Some (r, o)
      | None => None
      end
  | None => None
  end.

(** The neo layout with [mod3RAsReturn] set, sanitized. *)
Definition tapSettings : Settings :=
  sanitize
    {| layout := "neo";
       debugWindow := false; quoteAsMod3R := false; returnAsMod3R := false;
       tabAsMod4L := false; capsLockEnabled := false; shiftLockEnabled := false;
       level4LockEnabled := false; qwertzForShortcuts := false;
       swapLeftCtrlAndLeftAlt := false; swapLeftCtrlLeftAltAndLeftWin := false;
       supportLevels5and6 := false; capsLockAsEscape := false;
       mod3RAsReturn := true; mod4LAsTab := false;
       scanCodeMod3L := SCANCODE_CAPSLOCK_KEY;
       scanCodeMod3R := SCANCODE_HASH_KEY;
       scanCodeMod4L := SCANCODE_LOWER_THAN_KEY |}.

(** The neo layout with shift lock enabled, sanitized. *)
Definition shiftLockSettings : Settings :=
  sanitize
    {| layout := "neo";
       debugWindow := false; quoteAsMod3R := false; returnAsMod3R := false;
       tabAsMod4L := false; capsLockEnabled := false; shiftLockEnabled := true;
       level4LockEnabled := false; qwertzForShortcuts := false;
       swapLeftCtrlAndLeftAlt := false; swapLeftCtrlLeftAltAndLeftWin := false;
       supportLevels5and6 := false; capsLockAsEscape := false;
       mod3RAsReturn := false; mod4LAsTab := false;
       scanCodeMod3L := SCANCODE_CAPSLOCK_KEY;
       scanCodeMod3R := SCANCODE_HASH_KEY;
       scanCodeMod4L := SCANCODE_LOWER_THAN_KEY |}.

(** The state with the left, or the right, shift key held. *)
Definition shiftLeftHeld : State :=
  set_shiftLeftPressed true (set_shiftPressed true initialState).

Definition shiftRightHeld : State :=
  set_shiftRightPressed true (set_shiftPressed true initialState).

(** A host layout on which no key types any character: the reverse
    lookup always fails; and the matching forward lookup. *)
Definition noHostKey : N -> Z := fun _ => (-1)%Z.
Definition noHostChar : N -> N := fun _ => 0.

(** Weakest precondition of a hook computation from state [st]; [d] is
    what an undefined read counts as: [False] for total correctness,
    [True] for partial correctness. *)
Definition wpg (d : Prop) {A} (m : Hook A)
    (Q : A -> State -> list Effect -> Prop) (st : State) : Prop :=
  match m st with
  | Some (a, st', o) => Q a st' o
  | None => d
  end.

(** The level-4 action table as the specification describes it: a fixed
    set of slots, and two groups of four slots (17 to 20 and 44 to 47)
    whose order is the family's. *)
Definition actionTable (kou_or_vue : bool) : list N :=
  let t := <[16%nat := VK_PRIOR]> emptyMapping in
  let t := fillAtLiteral 17
             (if kou_or_vue then [VK_NEXT; VK_UP; VK_BACK; VK_DELETE]
              else [VK_BACK; VK_UP; VK_DELETE; VK_NEXT]) t in
  let t := fillAtLiteral 30 [VK_HOME; VK_LEFT; VK_DOWN; VK_RIGHT; VK_END] t in
  let t := fillAtLiteral 44
             (if kou_or_vue then [VK_INSERT; VK_TAB; VK_RETURN; VK_ESCAPE]
              else [VK_ESCAPE; VK_TAB; VK_INSERT; VK_RETURN]) t in
  <[57%nat := 48]> t.

(** The entries of a table at a list of slots. *)
Definition slots (t : list N) (indices : list nat) : list (option N) :=
  map (fun i => t !! i) indices.

(** ** Definitions for the further properties *)

(** Every slot of level 1 that holds a symbol of [lowerLetters] holds,
    at levels 2, 5 and 6, the symbol of the parallel alphabet at the
    same index. *)
Definition lettersParallel (l : Layout) : bool :=
  forallb
    (fun i =>
       match getLevel l LEVEL_1 !! i with
       | Some ch =>
           match findIndex lowerLetters ch with
           | Some c =>
               match getLevel l LEVEL_2 !! i, upperLetters !! c,
                     getLevel l LEVEL_5 !! i, greekLetters !! c,
                     getLevel l LEVEL_6 !! i, mathSymbols !! c with
               | Some a2, Some b2, Some a5, Some b5, Some a6, Some b6 =>
                   (a2 =? b2) && (a5 =? b5) && (a6 =? b6)
               | _, _, _, _, _, _ => false
               end
           | None => true
           end
       | None => true
       end)
    (seq 0 MAPPING_LEN).

(** How often a code unit occurs in a table. *)
Definition occurrences (ch : N) (m : list N) : nat :=
  length (List.filter (N.eqb ch) m).

(** [isLetter] agrees on the level-1 and the level-2 entry of every
    slot. *)
Definition lettersPaired (l : Layout) : bool :=
  forallb
    (fun i =>
       match getLevel l LEVEL_1 !! i, getLevel l LEVEL_2 !! i with
       | Some a, Some b => Bool.eqb (isLetter a) (isLetter b)
       | _, _ => false
       end)
    (seq 0 MAPPING_LEN).

(** Every symbol of [lowerLetters] sits in as many slots of level 1 as
    [count] says. *)
Definition lettersCounted (l : Layout) (count : N -> nat) : bool :=
  forallb
    (fun ch => Nat.eqb (occurrences ch (getLevel l LEVEL_1)) (count ch))
    lowerLetters.

(** Slot [i] of level 1 holds [ch], and the scan code [i] is none of
    the three modifier scan codes. *)
Definition typedBy (mod3L mod3R mod4L : N) (l : Layout) (ch : N) (i : nat) : bool :=
  match getLevel l LEVEL_1 !! i with
  | Some c =>
      (c =? ch) && negb (N.of_nat i =? mod3L) && negb (N.of_nat i =? mod3R)
      && negb (N.of_nat i =? mod4L)
  | None => false
  end.

(** Every symbol of [lowerLetters] has such a slot. *)
Definition lettersTyped (mod3L mod3R mod4L : N) (l : Layout) : bool :=
  forallb
    (fun ch => existsb (typedBy mod3L mod3R mod4L l ch) (seq 0 MAPPING_LEN))
    lowerLetters.

(** [g_settings.quoteAsMod3R = v], as [readArguments] assigns it. *)
Definition set_quoteAsMod3R (v : bool) (s : Settings) : Settings :=
  {| layout := layout s;
     debugWindow := debugWindow s;
     quoteAsMod3R := v;
     returnAsMod3R := returnAsMod3R s;
     tabAsMod4L := tabAsMod4L s;
     capsLockEnabled := capsLockEnabled s;
     shiftLockEnabled := shiftLockEnabled s;
     level4LockEnabled := level4LockEnabled s;
     qwertzForShortcuts := qwertzForShortcuts s;
     swapLeftCtrlAndLeftAlt := swapLeftCtrlAndLeftAlt s;
     swapLeftCtrlLeftAltAndLeftWin := swapLeftCtrlLeftAltAndLeftWin s;
     supportLevels5and6 := supportLevels5and6 s;
     capsLockAsEscape := capsLockAsEscape s;
     mod3RAsReturn := mod3RAsReturn s;
     mod4LAsTab := mod4LAsTab s;
     scanCodeMod3L := scanCodeMod3L s;
     scanCodeMod3R := scanCodeMod3R s;
     scanCodeMod4L := scanCodeMod4L s |}.

(** Slot [i] of level 1 holds a symbol of [lowerLetters] that no other
    slot of the level holds. *)
Definition onlySlot (l : Layout) (i : nat) : bool :=
  match getLevel l LEVEL_1 !! i with
  | Some ch =>
      existsb (N.eqb ch) lowerLetters
      && forallb
           (fun j =>
              Nat.eqb j i
              || negb match getLevel l LEVEL_1 !! j with
                      | Some c => c =? ch
                      | None => false
                      end)
           (seq 0 MAPPING_LEN)
  | None => false
  end.

(** The three tap flags cleared, as every key-down starts with. *)
Definition clearTaps (st : State) : State :=
  set_level4modLeftAndNoOtherKeyPressed false
    (set_level3modRightAndNoOtherKeyPressed false
       (set_level3modLeftAndNoOtherKeyPressed false st)).

(** The scan codes the special-case handlers of a level take. *)
Definition specialCase (l : Layout) (lvl : Level) (sc : N) : bool :=
  match lvl with
  | LEVEL_2 => (sc =? 27) || (sc =? 41)
  | LEVEL_3 =>
      (sc =? 13) || (sc =? 20) || (sc =? 27)
      || (is_kou_or_vue l && ((sc =? 31) || (sc =? 48)))
  | LEVEL_4 =>
      (sc =? 13) || (sc =? 27) || (sc =? 41)
      || negb (default 0 (level4Special l sc) =? 0)
  | _ => false
  end.

(** The three modifier flags the [level] lambda reads, against the
    flags of the two keys of each modifier: [shiftPressed] is their
    disjunction; [mod3Pressed] and [mod4Pressed] are set whenever one
    of their keys is held. *)
Definition shiftInv (st : State) : bool :=
  Bool.eqb (shiftPressed st) (shiftLeftPressed st || shiftRightPressed st).

Definition mod3Inv (st : State) : bool :=
  implb (level3modLeftPressed st || level3modRightPressed st) (mod3Pressed st).

Definition mod4Inv (st : State) : bool :=
  implb (level4modLeftPressed st || level4modRightPressed st) (mod4Pressed st).

(** [mod3Pressed] and [mod4Pressed] are exactly the disjunctions. *)
Definition mod3Exact (st : State) : bool :=
  Bool.eqb (mod3Pressed st) (level3modLeftPressed st || level3modRightPressed st).

Definition mod4Exact (st : State) : bool :=
  Bool.eqb (mod4Pressed st) (level4modLeftPressed st || level4modRightPressed st).

(** The keys the hook relabels when a swap is set: left control (with
    its own scan code, because AltGr sends [VK_LCONTROL] with scan code
    541), left alt and left win. *)
Definition leftSystemKey (k : KBDLLHOOKSTRUCT) : bool :=
  ((vkCode k =? VK_LCONTROL) && (scanCode k =? 29))
  || (vkCode k =? VK_LMENU) || (vkCode k =? VK_LWIN).

(** The pressed flag of the left system key with virtual key [v]. *)
Definition setPressed (v : N) (b : bool) (st : State) : State :=
  if v =? VK_LCONTROL then set_ctrlLeftPressed b st
  else if v =? VK_LMENU then set_altLeftPressed b st
  else set_winLeftPressed b st.

(** The pressed flag a right system key has, if the key is one. *)
Definition setRightPressed (k : KBDLLHOOKSTRUCT) (b : bool) (st : State) : State :=
  if vkCode k =? VK_RCONTROL then set_ctrlRightPressed b st
  else if vkCode k =? VK_RWIN then set_winRightPressed b st
  else st.

(** The virtual key sent in place of a left system key: the swap of
    left control and left alt, or the rotation of left control, left alt
    and left win. *)
Definition relabel (s : Settings) (k : KBDLLHOOKSTRUCT) : N :=
  if (vkCode k =? VK_LCONTROL) && (scanCode k =? 29) then
    if swapLeftCtrlAndLeftAlt s then VK_LMENU
    else if swapLeftCtrlLeftAltAndLeftWin s then VK_LWIN
    else VK_LCONTROL
  else if vkCode k =? VK_LMENU then
    if swapLeftCtrlAndLeftAlt s || swapLeftCtrlLeftAltAndLeftWin s
    then VK_LCONTROL else VK_LMENU
  else
    if swapLeftCtrlLeftAltAndLeftWin s then VK_LMENU else VK_LWIN.

(** A key that is no modifier of the hook and no left system key. *)
Definition otherKey (s : Settings) (k : KBDLLHOOKSTRUCT) : bool :=
  negb (isShift k) && negb (isMod3 s k) && negb (isMod4 s k)
  && negb (leftSystemKey k).

(** The left mod3 key, as the hook takes it: one of the two mod3 scan
    codes and not the right one; the left mod4 key; either mod4 key. *)
Definition mod3LeftKey (s : Settings) (k : KBDLLHOOKSTRUCT) : bool :=
  negb (injected k) && negb (isShift k) && negb (leftSystemKey k)
  && isMod3 s k && negb (scanCode k =? scanCodeMod3R s).

Definition mod4Key (s : Settings) (k : KBDLLHOOKSTRUCT) : bool :=
  negb (injected k) && negb (isShift k) && negb (leftSystemKey k)
  && negb (isMod3 s k) && isMod4 s k.

Definition mod4LeftKey (s : Settings) (k : KBDLLHOOKSTRUCT) : bool :=
  mod4Key s k && (scanCode k =? scanCodeMod4L s).

(** The pressed flag of the mod4 key other than the one [k] is. *)
Definition otherMod4Held (s : Settings) (k : KBDLLHOOKSTRUCT) (st : State) : bool :=
  if scanCode k =? scanCodeMod4L s
  then level4modRightPressed st else level4modLeftPressed st.

(** The press and the release of a modifier of the host layout, as
    [sendChar] sends them around a key. *)
Definition pressKey (v : N) : Effect := KeybdEvent v 0 0 0.
Definition releaseKey (v : N) : Effect := KeybdEvent v 0 KEYEVENTF_KEYUP 0.

(** A key-down and a key-up call with given messages. *)
Definition callOf (w : N) (k : KBDLLHOOKSTRUCT) : HookCall :=
  {| code := HC_ACTION; wparam := w; lparam := k |}.

(** [g_settings.swapLeftCtrlAndLeftAlt = v] *)
Definition set_swap (v : bool) (s : Settings) : Settings :=
  {| layout := layout s;
     debugWindow := debugWindow s;
     quoteAsMod3R := quoteAsMod3R s;
     returnAsMod3R := returnAsMod3R s;
     tabAsMod4L := tabAsMod4L s;
     capsLockEnabled := capsLockEnabled s;
     shiftLockEnabled := shiftLockEnabled s;
     level4LockEnabled := level4LockEnabled s;
     qwertzForShortcuts := qwertzForShortcuts s;
     swapLeftCtrlAndLeftAlt := v;
     swapLeftCtrlLeftAltAndLeftWin := swapLeftCtrlLeftAltAndLeftWin s;
     supportLevels5and6 := supportLevels5and6 s;
     capsLockAsEscape := capsLockAsEscape s;
     mod3RAsReturn := mod3RAsReturn s;
     mod4LAsTab := mod4LAsTab s;
     scanCodeMod3L := scanCodeMod3L s;
     scanCodeMod3R := scanCodeMod3R s;
     scanCodeMod4L := scanCodeMod4L s |}.

(** The neo layout with the three taps and the level-4 lock enabled,
    sanitized. *)
Definition gestureSettings : Settings :=
  sanitize
    {| layout := "neo";
       debugWindow := false; quoteAsMod3R := false; returnAsMod3R := false;
       tabAsMod4L := false; capsLockEnabled := false; shiftLockEnabled := false;
       level4LockEnabled := true; qwertzForShortcuts := false;
       swapLeftCtrlAndLeftAlt := false; swapLeftCtrlLeftAltAndLeftWin := false;
       supportLevels5and6 := false; capsLockAsEscape := true;
       mod3RAsReturn := true; mod4LAsTab := true;
       scanCodeMod3L := SCANCODE_CAPSLOCK_KEY;
       scanCodeMod3R := SCANCODE_HASH_KEY;
       scanCodeMod4L := SCANCODE_LOWER_THAN_KEY |}.

(** The neo layout with caps lock enabled, sanitized. *)
Definition capsLockSettings : Settings :=
  sanitize
    {| layout := "neo";
       debugWindow := false; quoteAsMod3R := false; returnAsMod3R := false;
       tabAsMod4L := false; capsLockEnabled := true; shiftLockEnabled := false;
       level4LockEnabled := false; qwertzForShortcuts := false;
       swapLeftCtrlAndLeftAlt := false; swapLeftCtrlLeftAltAndLeftWin := false;
       supportLevels5and6 := false; capsLockAsEscape := false;
       mod3RAsReturn := false; mod4LAsTab := false;
       scanCodeMod3L := SCANCODE_CAPSLOCK_KEY;
       scanCodeMod3R := SCANCODE_HASH_KEY;
       scanCodeMod4L := SCANCODE_LOWER_THAN_KEY |}.

(** A host layout on which every character is typed by the key with
    its own code unit as virtual key code, with shift.  *)
Definition shiftedHostKey : N -> Z := fun key => (Z.of_N key mod 256 + 256)%Z.

(** The log line of a lock toggle on the release of a shift key while
    the other one is held: of the lock the settings select, with its
    new value. *)
Definition lockLog (s : Settings) (st : State) : list Effect :=
  if shiftLockEnabled s
  then [LogActivation "Shift lock" (negb (shiftLockActive st))]
  else if capsLockEnabled s
       then [LogActivation "Caps lock" (negb (capsLockActive st))]
       else [].

(** A call that cannot disarm the tap of the right mod3 key when it
    arrives in state [st]: a quiet one, or a key-down the hook does not
    classify (another hook code, an injected event, the Shift+Pause
    toggle, any key-down in bypass mode). *)
Definition keepsTap (s : Settings) (st : State) (c : HookCall) : bool :=
  quiet s c || (isKeyDownMsg (wparam c) && negb (classifiedKeyDown st c)).

(** Every call of a sequence keeps the tap, each in the state the hook
    is in when the call arrives. *)
Fixpoint tapKept (VkKeyScanEx : N -> Z) (MapVirtualKeyA : N -> N)
    (s : Settings) (l : Layout) (calls : list HookCall) (st : State) : bool :=
  match calls with
  | [] => true
  | c :: rest =>
      keepsTap s st c
      && match keyevent VkKeyScanEx MapVirtualKeyA s l
                 (code c) (wparam c) (lparam c) st with
         | Some (_, st', _) => tapKept VkKeyScanEx MapVirtualKeyA s l rest st'
         | None => true
         end
  end.

(** ** The layout tables *)

Lemma layoutDependent_canonical (name : string) (l : Layout) :
  layoutDependent name l = layoutDependent (canonicalName name) l.
Proof.
  unfold canonicalName.
  destruct (String.eqb name "adnw") eqn:E1;
    [apply String.eqb_eq in E1; subst; reflexivity|].
  destruct (String.eqb name "adnwzjf") eqn:E2;
    [apply String.eqb_eq in E2; subst; reflexivity|].
  destruct (String.eqb name "bone") eqn:E3;
    [apply String.eqb_eq in E3; subst; reflexivity|].
  destruct (String.eqb name "koy") eqn:E4;
    [apply String.eqb_eq in E4; subst; reflexivity|].
  destruct (String.eqb name "kou") eqn:E5;
    [apply String.eqb_eq in E5; subst; reflexivity|].
  destruct (String.eqb name "vou") eqn:E6;
    [apply String.eqb_eq in E6; subst; reflexivity|].
  unfold layoutDependent. rewrite E1, E2, E3, E4, E5, E6. reflexivity.
Qed.

Lemma canonicalName_in (name : string) : In (canonicalName name) layoutNames.
Proof.
  unfold canonicalName, layoutNames.
  repeat match goal with
         | |- context [if ?c then _ else _] => destruct c
         end; simpl; tauto.
Qed.

(** [buildLayout] reads the layout name and [quoteAsMod3R], nothing else. *)
Lemma buildLayout_reads (s1 s2 : Settings) :
  layout s1 = layout s2 -> quoteAsMod3R s1 = quoteAsMod3R s2 ->
  buildLayout s1 = buildLayout s2.
Proof. unfold buildLayout. intros -> ->. reflexivity. Qed.

Lemma buildLayout_variant (s : Settings) :
  buildLayout s = buildLayout (variant (canonicalName (layout s)) (quoteAsMod3R s)).
Proof.
  unfold buildLayout. rewrite layoutDependent_canonical. reflexivity.
Qed.

(** Every layout [buildLayout] can return is one of fourteen. *)
Lemma buildLayout_cases (P : Layout -> Prop) :
  (forall name q, In name layoutNames -> P (buildLayout (variant name q))) ->
  forall s, P (buildLayout s).
Proof.
  intros H s. rewrite buildLayout_variant. apply H, canonicalName_in.
Qed.

(** Case analysis on the layout a settings record builds: the goal is
    left with [buildLayout (variant name q)] for each of the names. *)
Ltac each_variant s :=
  rewrite ?(buildLayout_variant s);
  generalize (canonicalName_in (layout s));
  generalize (canonicalName (layout s));
  let name := fresh "name" in
  let Hin := fresh "Hin" in
  intros name Hin; unfold layoutNames in Hin;
  repeat (destruct Hin as [<- | Hin]); [ .. | destruct Hin ].

Lemma buildLayout_wf (s : Settings) : wfLayout (buildLayout s) = true.
Proof. each_variant s; destruct (quoteAsMod3R s); vm_compute; reflexivity. Qed.

Lemma wfLayout_level (l : Layout) (lvl : Level) :
  wfLayout l = true -> length (getLevel l lvl) = MAPPING_LEN.
Proof.
  unfold wfLayout, getLevel. intros H.
  apply andb_prop in H as [H _]. apply andb_prop in H as [H6 Hall].
  apply Nat.eqb_eq in H6.
  destruct (levels l !! levelIndex lvl) as [m|] eqn:E.
  - simpl. rewrite forallb_forall in Hall.
    apply Nat.eqb_eq, Hall.
    apply list_elem_of_In. eapply list_elem_of_lookup_2; eauto.
  - apply lookup_ge_None in E. destruct lvl; simpl in E; unfold LEVEL_COUNT in *; lia.
Qed.

Lemma wfLayout_specials (l : Layout) :
  wfLayout l = true -> length (level4_specials l) = MAPPING_LEN.
Proof.
  unfold wfLayout. intros H. apply andb_prop in H as [_ H].
  now apply Nat.eqb_eq.
Qed.

(** A read of a level table is defined exactly below [MAPPING_LEN]. *)
Lemma mapScanCodeToChar_defined (l : Layout) (lvl : Level) (sc : N) :
  wfLayout l = true ->
  is_Some (mapScanCodeToChar l lvl sc) <-> sc < 103.
Proof.
  intros Hwf. unfold mapScanCodeToChar.
  rewrite lookup_lt_is_Some, (wfLayout_level l lvl Hwf).
  unfold MAPPING_LEN. lia.
Qed.

Lemma level4Special_defined (l : Layout) (sc : N) :
  wfLayout l = true ->
  is_Some (level4Special l sc) <-> sc < 103.
Proof.
  intros Hwf. unfold level4Special.
  rewrite lookup_lt_is_Some, (wfLayout_specials l Hwf).
  unfold MAPPING_LEN. lia.
Qed.

(** ** Reasoning about hook computations *)

Section Triples.

Variable d : Prop.

Lemma wpg_ret {A} (a : A) Q st : Q a st [] -> wpg d (ret a) Q st.
Proof. unfold wpg, ret. auto. Qed.

Lemma wpg_bind {A B} (m : Hook A) (k : A -> Hook B) Q st :
  wpg d m (fun a st1 o1 => wpg d (k a) (fun b st2 o2 => Q b st2 (o1 ++ o2)) st1) st ->
  wpg d (bind m k) Q st.
Proof.
  unfold wpg, bind.
  destruct (m st) as [[[a st1] o1]|]; auto.
  destruct (k a st1) as [[[b st2] o2]|]; auto.
Qed.

Lemma wpg_get Q st : Q st st [] -> wpg d get Q st.
Proof. unfold wpg, get. auto. Qed.

Lemma wpg_modify f Q st : Q tt (f st) [] -> wpg d (modify f) Q st.
Proof. unfold wpg, modify. auto. Qed.

Lemma wpg_emit e Q st : Q tt st [e] -> wpg d (emit e) Q st.
Proof. unfold wpg, emit. auto. Qed.

Lemma wpg_undefined {A} (Q : A -> State -> list Effect -> Prop) st :
  d -> wpg d undefined Q st.
Proof. unfold wpg, undefined. auto. Qed.

Lemma wpg_if {A} (c : bool) (a b : Hook A) Q st :
  (c = true -> wpg d a Q st) -> (c = false -> wpg d b Q st) ->
  wpg d (if c then a else b) Q st.
Proof. destruct c; auto. Qed.

Lemma wpg_mono {A} (m : Hook A) (Q Q' : A -> State -> list Effect -> Prop) st :
  (forall a st' o, Q a st' o -> Q' a st' o) -> wpg d m Q st -> wpg d m Q' st.
Proof.
  unfold wpg. intros H. destruct (m st) as [[[a st1] o1]|]; auto.
Qed.

End Triples.

(** Total correctness read back as an equation, and partial correctness
    as an implication. *)
Lemma wpg_total {A} (m : Hook A) Q st :
  wpg False m Q st -> exists a st' o, m st = Some (a, st', o) /\ Q a st' o.
Proof.
  unfold wpg. destruct (m st) as [[[a st1] o1]|]; [eauto | tauto].
Qed.

Lemma wpg_partial {A} (m : Hook A) Q st a st' o :
  wpg True m Q st -> m st = Some (a, st', o) -> Q a st' o.
Proof. unfold wpg. intros H E. now rewrite E in H. Qed.

Lemma wpg_eq d {A} (m m' : Hook A) Q st :
  m st = m' st -> wpg d m' Q st -> wpg d m Q st.
Proof. unfold wpg. now intros ->. Qed.

Lemma wpg_exact {A} (m : Hook A) (x : A * State * list Effect) st :
  wpg False m (fun a st' o => (a, st', o) = x) st -> m st = Some x.
Proof.
  unfold wpg. destruct (m st) as [[[a st1] o1]|]; [now intros -> | tauto].
Qed.

Lemma wpg_none {A} (m : Hook A) st :
  wpg True m (fun _ _ _ => False) st -> m st = None.
Proof.
  unfold wpg. destruct (m st) as [[[a st1] o1]|]; [tauto | reflexivity].
Qed.


Lemma bind_get {A} (k : State -> Hook A) (st : State) :
  bind get k st = k st st.
Proof.
  unfold bind, get. destruct (k st st) as [[[a st1] o1]|]; reflexivity.
Qed.

(** Use the boolean facts of the context in the goal. *)
Ltac use_hyps :=
  repeat match goal with
    | H : ?x = true |- context [?x] => rewrite H
    | H : ?x = false |- context [?x] => rewrite H
    end;
  rewrite ?orb_true_r, ?orb_false_r, ?andb_true_r, ?andb_false_r;
  cbn [andb orb negb].

(** Split a conjunction of boolean tests into its facts. *)
Ltac split_bools H :=
  repeat match type of H with
    | _ && _ = true =>
        let H' := fresh "Hb" in
        apply andb_prop in H; destruct H as [H H']; split_bools H'
    end;
  repeat match goal with
    | E : negb _ = true |- _ => apply negb_true_iff in E
    end.

(** [sendChar] succeeds, leaves [g_state] alone and only synthesizes
    input. *)
Lemma sendChar_runs VkKeyScanEx (key : N) (keyInfo : KBDLLHOOKSTRUCT) (st : State) :
  exists o, sendChar VkKeyScanEx key keyInfo st = Some (tt, st, o)
            /\ forallb isSynthInput o = true.
Proof.
  unfold sendChar, bind, get, when, keybd_event, sendUnicodeChar, emit.
  destruct (useUnicode _ _ _); [eexists; split; reflexivity|].
  repeat match goal with
         | |- context [if ?c then _ else _] => destruct c
         end; eexists; split; reflexivity.
Qed.

Lemma wpg_sendChar d VkKeyScanEx key keyInfo Q st :
  (forall o, forallb isSynthInput o = true -> Q tt st o) ->
  wpg d (sendChar VkKeyScanEx key keyInfo) Q st.
Proof.
  intros H. unfold wpg.
  destruct (sendChar_runs VkKeyScanEx key keyInfo st) as (o & -> & Ho). auto.
Qed.

(** One step of symbolic execution. *)
Ltac wp_step :=
  lazymatch goal with
  | |- wpg _ (bind _ _) _ _ => apply wpg_bind
  | |- wpg _ (ret _) _ _ => apply wpg_ret
  | |- wpg _ get _ _ => apply wpg_get
  | |- wpg _ (modify _) _ _ => apply wpg_modify
  | |- wpg _ (emit _) _ _ => apply wpg_emit
  | |- wpg _ undefined _ _ => apply wpg_undefined
  | |- wpg _ (sendChar _ _ _) _ _ =>
      let o := fresh "o" in
      let Ho := fresh "Ho" in
      apply wpg_sendChar; intros o Ho
  | |- wpg _ (if _ then _ else _) _ _ =>
      let E := fresh "E" in apply wpg_if; intros E
  | |- wpg _ (match ?x with Some _ => _ | None => _ end) _ _ =>
      let E := fresh "E" in destruct x eqn:E
  end; cbv beta.

Ltac wp_run := repeat (wp_step; try discriminate).

Lemma isKeyUpMsg_not_down (w : N) : isKeyUpMsg w = true -> isKeyDownMsg w = false.
Proof.
  unfold isKeyUpMsg, isKeyDownMsg. intros H.
  apply orb_prop in H as [H|H]; apply N.eqb_eq in H; subst; reflexivity.
Qed.

Lemma isKeyDownMsg_not_up (w : N) : isKeyDownMsg w = true -> isKeyUpMsg w = false.
Proof.
  unfold isKeyUpMsg, isKeyDownMsg. intros H.
  apply orb_prop in H as [H|H]; apply N.eqb_eq in H; subst; reflexivity.
Qed.

Section Classifier.

Variable VkKeyScanEx : N -> Z.
Variable MapVirtualKeyA : N -> N.
Variable s : Settings.
Variable l : Layout.

Local Abbreviation keyevent' := (keyevent VkKeyScanEx MapVirtualKeyA s l).
Local Abbreviation run' := (run VkKeyScanEx MapVirtualKeyA s l).

(** An injected event: logged when it is a key message, handed on,
    nothing else. *)
Lemma keyevent_injected (c : Z) (w : N) (k : KBDLLHOOKSTRUCT) (st : State) :
  injected k = true ->
  keyevent' c w k st =
    Some (CallNextHookEx, st,
          if (c =? HC_ACTION)%Z && (isKeyUpMsg w || isKeyDownMsg w)
          then [LogKeyEvent "injected" k] else []).
Proof.
  intros H. unfold keyevent. rewrite H.
  destruct (c =? HC_ACTION)%Z; [|reflexivity]. cbn [negb andb].
  destruct (isKeyUpMsg w), (isKeyDownMsg w); reflexivity.
Qed.

(** With bypass mode off, a delivered key-up runs the key-up branch. *)
Lemma keyevent_keyUp (w : N) (k : KBDLLHOOKSTRUCT) (st : State) :
  isKeyUpMsg w = true -> injected k = false -> bypassMode st = false ->
  keyevent' HC_ACTION w k st = keyUpBranch s k st.
Proof.
  intros Hw Hi Hb. unfold keyevent.
  rewrite Z.eqb_refl, Hw, Hi, (isKeyUpMsg_not_down w Hw).
  cbn [negb andb orb]. now rewrite bind_get, Hb.
Qed.

(** With bypass mode off, a delivered key-down other than the toggle
    runs the key-down branch. *)
Lemma keyevent_keyDown (w : N) (k : KBDLLHOOKSTRUCT) (st : State) :
  isKeyDownMsg w = true -> injected k = false -> bypassMode st = false ->
  shiftPressed st && (scanCode k =? 69) = false ->
  keyevent' HC_ACTION w k st = keyDownBranch VkKeyScanEx MapVirtualKeyA s l k st.
Proof.
  intros Hw Hi Hb Ht. unfold keyevent.
  rewrite Z.eqb_refl, Hw, Hi, (isKeyDownMsg_not_up w Hw).
  cbn [negb andb orb]. now rewrite bind_get, Ht, Hb.
Qed.

(** The special cases of levels 2 and 3 succeed and leave [g_state]
    alone; so does the level-4 one when its table read is defined. *)
Lemma wpg_handleLayer2 d (k : KBDLLHOOKSTRUCT) Q st :
  (forall b o, Q b st o) ->
  wpg d (handleLayer2SpecialCases VkKeyScanEx k) Q st.
Proof.
  intros H. unfold handleLayer2SpecialCases. wp_run; apply H.
Qed.

Lemma wpg_handleLayer3 d (k : KBDLLHOOKSTRUCT) Q st :
  (forall b o, Q b st o) ->
  wpg d (handleLayer3SpecialCases VkKeyScanEx l k) Q st.
Proof.
  intros H. unfold handleLayer3SpecialCases, keybd_event. wp_run; apply H.
Qed.

Lemma wpg_handleLayer4 d (k : KBDLLHOOKSTRUCT) Q st :
  (forall b o, Q b st o) ->
  (level4Special l (scanCode k) = None -> d) ->
  wpg d (handleLayer4SpecialCases VkKeyScanEx l k) Q st.
Proof.
  intros H Hd. unfold handleLayer4SpecialCases, keybd_event.
  wp_run; solve [apply H | auto].
Qed.

Ltac wp_handlers :=
  first [ apply wpg_handleLayer2; intros ? ?
        | apply wpg_handleLayer3; intros ? ?
        | apply wpg_handleLayer4; [intros ? ? | intros ?] ]; cbv beta.

Ltac st_done :=
  cbn in *; repeat split; intros;
  repeat match goal with
    | E : _ && _ = true |- _ => apply andb_prop in E; destruct E
    end;
  auto; try discriminate; try congruence.

Ltac wp_all := repeat (first [wp_step | wp_handlers]; try discriminate).

(** An undefined read contradicts a scan code below [MAPPING_LEN]. *)
Lemma read_defined d (k : KBDLLHOOKSTRUCT) :
  (wfLayout l = true /\ scanCode k < 103) \/ d ->
  (exists lvl, mapScanCodeToChar l lvl (scanCode k) = None)
  \/ level4Special l (scanCode k) = None ->
  d.
Proof.
  intros [[Hwf Hsc]|Hd] H; [exfalso | exact Hd].
  destruct H as [[lvl H]|H].
  - destruct (proj2 (mapScanCodeToChar_defined l lvl _ Hwf) Hsc) as [c Hc].
    congruence.
  - destruct (proj2 (level4Special_defined l _ Hwf) Hsc) as [c Hc]. congruence.
Qed.

Ltac solve_undefined Hb :=
  repeat match goal with
    | E : (if ?c then _ else _) = None |- _ => destruct c; try discriminate E
    end;
  apply (read_defined _ _ Hb); solve [eauto].

(** What a key-down does to the flags the statements are about, from
    the [level] lambda on and as a whole: the locks and the bypass flag
    stay, and the right tap flag is set by the right mod3 key only. *)
Lemma keyDownMapping_summary d (k : KBDLLHOOKSTRUCT) (st : State) :
  (wfLayout l = true /\ scanCode k < 103) \/ d ->
  wpg d (keyDownMapping VkKeyScanEx MapVirtualKeyA s l k)
    (fun _ st' _ =>
       locks st' = locks st /\ bypassMode st' = bypassMode st
       /\ (level3modRightAndNoOtherKeyPressed st' = true ->
           level3modRightAndNoOtherKeyPressed st = true
           \/ (scanCode k =? scanCodeMod3R s) = true)) st.
Proof.
  intros Hb. unfold keyDownMapping, keybd_event.
  wp_all; try solve [st_done]; solve_undefined Hb.
Qed.

Lemma keyDownBranch_summary d (k : KBDLLHOOKSTRUCT) (st : State) :
  (wfLayout l = true /\ scanCode k < 103) \/ d ->
  wpg d (keyDownBranch VkKeyScanEx MapVirtualKeyA s l k)
    (fun _ st' _ =>
       locks st' = locks st /\ bypassMode st' = bypassMode st
       /\ (level3modRightAndNoOtherKeyPressed st' = true ->
           (scanCode k =? scanCodeMod3R s) = true)) st.
Proof.
  intros Hb. unfold keyDownBranch, logKeyEvent, keybd_event.
  wp_all; try solve [st_done].
  all: eapply wpg_mono; [|apply keyDownMapping_summary; exact Hb].
  all: cbv beta; cbn; intros ? ? ? (H1 & H2 & H3); repeat split; auto.
  all: intros H; destruct (H3 H); [discriminate | assumption].
Qed.

(** What a key-up does: the bypass flag stays; the right tap flag is
    touched by the right mod3 key only and never set; without that flag
    no Return is sent; the lock the settings do not select stays off. *)
Lemma keyUpBranch_summary d (k : KBDLLHOOKSTRUCT) (st : State) :
  wpg d (keyUpBranch s k)
    (fun _ st' o =>
       bypassMode st' = bypassMode st
       /\ ((scanCode k =? scanCodeMod3R s) = false ->
           level3modRightAndNoOtherKeyPressed st'
           = level3modRightAndNoOtherKeyPressed st)
       /\ (level3modRightAndNoOtherKeyPressed st = false ->
           level3modRightAndNoOtherKeyPressed st' = false
           /\ existsb isReturnDown o = false)
       /\ (lockInv s st = true -> lockInv s st' = true)) st.
Proof.
  unfold keyUpBranch, toggleShiftOrCapsLock, toggleLevel4Lock, when,
    logKeyEvent, logActivation, keybd_event.
  cbv zeta. wp_all; unfold lockInv in *; st_done.
  all: match goal with
       | E : shiftLockEnabled s = _ |- _ => rewrite E in *
       end; assumption.
Qed.


Lemma lockInv_locks (st st' : State) :
  locks st' = locks st -> lockInv s st' = lockInv s st.
Proof. unfold locks, lockInv. intros [= -> -> _]. reflexivity. Qed.

(** The same facts for one call of the hook, whatever the event.  Only
    a key-down reads the tables. *)
Lemma keyevent_summary d (c : Z) (w : N) (k : KBDLLHOOKSTRUCT) (st : State) :
  (wfLayout l = true /\ scanCode k < 103) \/ isKeyDownMsg w = false \/ d ->
  wpg d (keyevent' c w k)
    (fun _ st' o =>
       (lockInv s st = true -> lockInv s st' = true)
       /\ (isKeyDownMsg w = true -> locks st' = locks st)
       /\ (isKeyDownMsg w = false -> bypassMode st' = bypassMode st)
       /\ ((scanCode k =? scanCodeMod3R s) = false ->
           (level3modRightAndNoOtherKeyPressed st = false ->
            level3modRightAndNoOtherKeyPressed st' = false)
           /\ (isKeyDownMsg w = false ->
               level3modRightAndNoOtherKeyPressed st'
               = level3modRightAndNoOtherKeyPressed st))
       /\ (level3modRightAndNoOtherKeyPressed st = false ->
           isKeyDownMsg w = false -> existsb isReturnDown o = false)) st.
Proof.
  intros Hb. pose proof (isKeyUpMsg_not_down w) as Hud.
  unfold keyevent, toggleBypassMode, logKeyEvent. cbv zeta.
  wp_all.
  all: try solve [unfold lockInv in *; st_done].
  - eapply wpg_mono; [|apply keyUpBranch_summary]. cbv beta.
    intros _ st' o (H1 & H2 & H3 & H4).
    match goal with E : isKeyUpMsg w = true |- _ => specialize (Hud E) end.
    repeat split; intros; try congruence; auto.
    + now apply H3.
    + now apply H3.
  - assert (Hb' : (wfLayout l = true /\ scanCode k < 103) \/ d)
      by (destruct Hb as [?|[?|?]]; [now left | congruence | now right]).
    eapply wpg_mono; [|apply keyDownBranch_summary; exact Hb']. cbv beta.
    intros _ st' o (H1 & H2 & H3).
    repeat split; intros; try congruence; auto.
    + now rewrite (lockInv_locks _ _ H1).
    + destruct (level3modRightAndNoOtherKeyPressed st'); [|reflexivity].
      rewrite H3 in *; [discriminate|reflexivity].
Qed.

(** A key-down the hook classifies clears the right tap flag, unless it
    is the right mod3 key itself. *)
Lemma classified_key_down_disarms d (c : HookCall) (st : State) :
  (wfLayout l = true /\ scanCode (lparam c) < 103) \/ d ->
  classifiedKeyDown st c = true ->
  (scanCode (lparam c) =? scanCodeMod3R s) = false ->
  wpg d (keyevent' (code c) (wparam c) (lparam c))
    (fun _ st' _ => level3modRightAndNoOtherKeyPressed st' = false) st.
Proof.
  intros Hb H Hsc. unfold classifiedKeyDown, delivered in H.
  repeat (apply andb_prop in H; destruct H as [H ?]).
  apply Z.eqb_eq in H. rewrite H.
  eapply wpg_eq; [apply keyevent_keyDown | ]; auto.
  - now apply negb_true_iff.
  - now apply negb_true_iff.
  - now apply negb_true_iff.
  - eapply wpg_mono; [|apply keyDownBranch_summary; exact Hb]. cbv beta.
    intros _ st' o (_ & _ & Hflag).
    destruct (level3modRightAndNoOtherKeyPressed st'); [|reflexivity].
    rewrite Hflag in *; [discriminate|reflexivity].
Qed.

(** The press of the right mod3 key arms its tap flag. *)
Lemma mod3Right_press (c : HookCall) (st : State) :
  mod3RightDown s c = true -> bypassMode st = false ->
  wpg False (keyevent' (code c) (wparam c) (lparam c))
    (fun r st' _ =>
       r = Consumed /\ bypassMode st' = false
       /\ level3modRightAndNoOtherKeyPressed st' = true) st.
Proof.
  intros H Hbp. unfold mod3RightDown, delivered in H. split_bools H.
  apply Z.eqb_eq in H. rewrite H.
  eapply wpg_eq; [apply keyevent_keyDown; auto; now use_hyps|].
  unfold keyDownBranch, keyDownMapping, isMod3, logKeyEvent, keybd_event.
  use_hyps. wp_all; st_done.
Qed.


(** The release of the right mod3 key with its tap flag armed and
    [mod3RAsReturn] set: the key is released, Return is sent, and the
    hook returns before the [mod3Pressed] update. *)
Lemma mod3Right_tap_release (c : HookCall) (st : State) :
  mod3RightUp s c = true -> bypassMode st = false ->
  mod3RAsReturn s = true -> level3modRightAndNoOtherKeyPressed st = true ->
  keyevent' (code c) (wparam c) (lparam c) st =
    Some (Consumed,
          set_level3modRightAndNoOtherKeyPressed false
            (set_level3modRightPressed false st),
          [LogKeyEvent "key up" (lparam c);
           KeybdEvent (vkCode (lparam c) mod 256) 0 KEYEVENTF_KEYUP 0;
           KeybdEvent VK_RETURN 0 LLKHF_EXTENDED 0]).
Proof.
  intros H Hbp Hset Hflag. unfold mod3RightUp, delivered in H. split_bools H.
  apply Z.eqb_eq in H. rewrite H.
  rewrite keyevent_keyUp by auto.
  apply wpg_exact.
  unfold keyUpBranch, isMod3, logKeyEvent, keybd_event. cbv zeta.
  use_hyps. wp_all.
  all: cbn in *; first [reflexivity | congruence].
Qed.

(** A quiet call keeps the hook active and the tap flag armed. *)
Lemma quiet_step (c : HookCall) (st : State) :
  quiet s c = true -> bypassMode st = false ->
  level3modRightAndNoOtherKeyPressed st = true ->
  wpg False (keyevent' (code c) (wparam c) (lparam c))
    (fun _ st' _ =>
       bypassMode st' = false
       /\ level3modRightAndNoOtherKeyPressed st' = true) st.
Proof.
  intros H Hbp Hflag. unfold quiet in H.
  apply orb_prop in H as [H|H].
  - split_bools H.
    eapply wpg_mono; [|apply keyevent_summary; auto]. cbv beta.
    intros _ st' o (_ & _ & H3 & H4 & _).
    split; [rewrite H3; auto|].
    destruct (H4 Hb) as [_ H6]. rewrite H6; auto.
  - eapply wpg_mono; [|apply mod3Right_press; auto]. cbv beta. tauto.
Qed.

Lemma quiet_run (cs : list HookCall) (st : State) :
  forallb (quiet s) cs = true -> bypassMode st = false ->
  level3modRightAndNoOtherKeyPressed st = true ->
  wpg False (run' cs)
    (fun _ st' _ =>
       bypassMode st' = false
       /\ level3modRightAndNoOtherKeyPressed st' = true) st.
Proof.
  revert st. induction cs as [|c cs IH]; intros st Hall Hbp Hflag.
  - cbn. auto.
  - cbn [forallb] in Hall. apply andb_prop in Hall as [Hc Hall].
    cbn [run]. wp_step.
    eapply wpg_mono; [|apply quiet_step; auto]. cbv beta.
    intros r st1 o1 [Hbp1 Hflag1]. wp_step.
    eapply wpg_mono; [|apply IH; auto]. cbv beta.
    intros rs st2 o2 H. wp_step. exact H.
Qed.

(** Once the tap flag is cleared, calls with another scan code leave it
    cleared. *)
Lemma disarmed_run d (cs : list HookCall) (st : State) :
  (wfLayout l = true
   /\ forallb (fun c => scanCode (lparam c) <? 103) cs = true) \/ d ->
  forallb (fun c => negb (scanCode (lparam c) =? scanCodeMod3R s)) cs = true ->
  level3modRightAndNoOtherKeyPressed st = false ->
  wpg d (run' cs)
    (fun _ st' _ => level3modRightAndNoOtherKeyPressed st' = false) st.
Proof.
  revert st. induction cs as [|c cs IH]; intros st Hb Hall Hflag.
  - cbn. auto.
  - cbn [forallb] in Hall. apply andb_prop in Hall as [Hc Hall].
    apply negb_true_iff in Hc.
    cbn [run]. wp_step.
    eapply wpg_mono; [|apply keyevent_summary].
    + cbv beta. intros r st1 o1 (_ & _ & _ & H4 & _).
      destruct (H4 Hc) as [H5 _]. wp_step.
      eapply wpg_mono; [|apply IH; auto].
      * cbv beta. intros rs st2 o2 H. wp_step. exact H.
      * destruct Hb as [[Hwf Hsc]|Hd]; [left|now right].
        cbn [forallb] in Hsc. apply andb_prop in Hsc as [_ Hsc]. auto.
    + destruct Hb as [[Hwf Hsc]|Hd]; [left|now right; right].
      cbn [forallb] in Hsc. apply andb_prop in Hsc as [Hsc _].
      apply N.ltb_lt in Hsc. auto.
Qed.

(** A key-up message sends no Return while the tap flag is cleared. *)
Lemma disarmed_release (c : Z) (w : N) (k : KBDLLHOOKSTRUCT) (st : State) :
  isKeyDownMsg w = false ->
  level3modRightAndNoOtherKeyPressed st = false ->
  wpg False (keyevent' c w k)
    (fun _ _ o => existsb isReturnDown o = false) st.
Proof.
  intros Hw Hflag.
  eapply wpg_mono; [|apply keyevent_summary; auto]. cbv beta.
  intros _ st' o (_ & _ & _ & _ & H5). auto.
Qed.


(** A shift key is none of the keys the hook tests before it. *)
Lemma isShift_vk (k : KBDLLHOOKSTRUCT) :
  isShift k = true ->
  (vkCode k =? VK_LCONTROL) = false /\ (vkCode k =? VK_RCONTROL) = false
  /\ (vkCode k =? VK_LMENU) = false /\ (vkCode k =? VK_LWIN) = false
  /\ (vkCode k =? VK_RWIN) = false.
Proof.
  unfold isShift. intros H.
  repeat (apply orb_prop in H as [H|H]); apply N.eqb_eq in H; rewrite H;
    repeat split; reflexivity.
Qed.

Ltac rewrite_facts :=
  repeat match goal with
    | E : _ = true |- _ => rewrite E
    | E : _ = false |- _ => rewrite E
    end.

(** Pressing a shift key changes no lock. *)
Lemma shift_press (w : N) (k : KBDLLHOOKSTRUCT) (st : State) :
  isKeyDownMsg w = true -> injected k = false -> bypassMode st = false ->
  isShift k = true -> (scanCode k =? 69) = false ->
  wpg False (keyevent' HC_ACTION w k)
    (fun r st' _ =>
       r = Consumed /\ bypassMode st' = false
       /\ otherShiftHeld k st' = otherShiftHeld k st
       /\ locks st' = locks st) st.
Proof.
  intros Hw Hi Hbp Hs Hsc.
  destruct (isShift_vk k Hs) as (V1 & V2 & V3 & V4 & V5).
  eapply wpg_eq; [apply keyevent_keyDown; auto; now use_hyps|].
  unfold keyDownBranch, keyDownMapping, logKeyEvent, keybd_event.
  use_hyps. wp_all; unfold otherShiftHeld, locks; cbn; rewrite_facts; auto.
Qed.

(** Releasing a shift key toggles the selected lock exactly when the
    other shift key is held. *)
Lemma shift_release (w : N) (k : KBDLLHOOKSTRUCT) (st : State) :
  isKeyUpMsg w = true -> injected k = false -> bypassMode st = false ->
  isShift k = true ->
  wpg False (keyevent' HC_ACTION w k)
    (fun r st' _ =>
       r = Consumed /\ bypassMode st' = false
       /\ otherShiftHeld k st' = otherShiftHeld k st
       /\ locks st' = (if otherShiftHeld k st
                       then toggledLocks s (locks st) else locks st)) st.
Proof.
  intros Hw Hi Hbp Hs.
  eapply wpg_eq; [apply keyevent_keyUp; auto|].
  unfold keyUpBranch, toggleShiftOrCapsLock, when, logKeyEvent,
    logActivation, keybd_event.
  use_hyps. wp_all; unfold otherShiftHeld, toggledLocks, locks;
    cbn in *; rewrite_facts; auto.
Qed.

Lemma toggledLocks_twice (x : bool * bool * bool) :
  toggledLocks s (toggledLocks s x) = x.
Proof.
  destruct x as [[a b] c]. unfold toggledLocks.
  destruct (shiftLockEnabled s), (capsLockEnabled s);
    rewrite ?negb_involutive; reflexivity.
Qed.

(** The gesture: one shift key pressed and released while the other is
    held. *)
Lemma shift_gesture (wd wu : N) (kd ku : KBDLLHOOKSTRUCT) (st : State) :
  isKeyDownMsg wd = true -> isKeyUpMsg wu = true ->
  injected kd = false -> injected ku = false ->
  isShift kd = true -> isShift ku = true ->
  (vkCode kd =? VK_RSHIFT) = (vkCode ku =? VK_RSHIFT) ->
  (scanCode kd =? 69) = false ->
  bypassMode st = false -> otherShiftHeld ku st = true ->
  wpg False
    (run' [ {| code := HC_ACTION; wparam := wd; lparam := kd |};
            {| code := HC_ACTION; wparam := wu; lparam := ku |} ])
    (fun rs st' _ =>
       rs = [Consumed; Consumed] /\ bypassMode st' = false
       /\ otherShiftHeld ku st' = true
       /\ locks st' = toggledLocks s (locks st)) st.
Proof.
  intros Hwd Hwu Hid Hiu Hsd Hsu Hside Hsc Hbp Hother.
  assert (Hsame : forall st0, otherShiftHeld kd st0 = otherShiftHeld ku st0)
    by (intros st0; unfold otherShiftHeld; now rewrite Hside).
  cbn [run code wparam lparam]. wp_step.
  eapply wpg_mono; [|apply shift_press; auto]. cbv beta.
  intros r st1 o1 (-> & Hbp1 & Ho1 & Hl1). wp_step. wp_step.
  eapply wpg_mono; [|apply shift_release; auto]. cbv beta.
  intros r st2 o2 (-> & Hbp2 & Ho2 & Hl2). repeat wp_step.
  rewrite !Hsame in Ho1. rewrite Ho1, Hother in *. rewrite Hl2, Hl1. auto.
Qed.

(** Shift held and the pause scan code: the bypass flag flips and the
    event is consumed. *)
Lemma bypass_toggle (w : N) (k : KBDLLHOOKSTRUCT) (st : State) :
  isKeyDownMsg w = true -> injected k = false ->
  shiftPressed st = true -> (scanCode k =? 69) = true ->
  keyevent' HC_ACTION w k st =
    Some (Consumed, set_bypassMode (negb (bypassMode st)) st,
          [TrayChangeIcon (negb (bypassMode st));
           LogBypass (negb (bypassMode st))]).
Proof.
  intros Hw Hi Hs Hsc. apply wpg_exact.
  unfold keyevent, toggleBypassMode. cbv zeta.
  rewrite Z.eqb_refl, (isKeyDownMsg_not_up w Hw). use_hyps.
  wp_all; cbn in *; rewrite ?Hs in *; first [reflexivity | discriminate].
Qed.

(** In bypass mode every call other than a pause key-down is handed on
    with the state as it was and nothing synthesized. *)
Lemma bypass_passes (c : Z) (w : N) (k : KBDLLHOOKSTRUCT) (st : State) :
  bypassMode st = true -> isKeyDownMsg w && (scanCode k =? 69) = false ->
  wpg False (keyevent' c w k)
    (fun r st' o =>
       r = CallNextHookEx /\ st' = st /\ existsb isSynthInput o = false) st.
Proof.
  intros Hbp Hother. unfold keyevent, logKeyEvent. cbv zeta.
  wp_all; try solve [cbn; auto]; exfalso; try congruence.
  destruct (isKeyDownMsg w), (shiftPressed st), (scanCode k =? 69);
    cbn in *; discriminate.
Qed.

Lemma bypass_run (cs : list HookCall) (st : State) :
  bypassMode st = true ->
  forallb (fun c => negb (isKeyDownMsg (wparam c)
                          && (scanCode (lparam c) =? 69))) cs = true ->
  wpg False (run' cs)
    (fun rs st' o =>
       rs = map (fun _ => CallNextHookEx) cs /\ st' = st
       /\ existsb isSynthInput o = false) st.
Proof.
  intros Hbp. induction cs as [|c cs IH]; intros Hall.
  - cbn. auto.
  - cbn [forallb] in Hall. apply andb_prop in Hall as [Hc Hall].
    apply negb_true_iff in Hc.
    cbn [run]. wp_step.
    eapply wpg_mono; [|apply bypass_passes; auto]. cbv beta.
    intros r st1 o1 (-> & -> & Ho1). wp_step.
    eapply wpg_mono; [|apply IH; auto]. cbv beta.
    intros rs st2 o2 (-> & -> & Ho2). wp_step.
    repeat split. now rewrite !existsb_app, Ho1, Ho2.
Qed.

(** No key-down changes a lock flag. *)
Lemma key_down_keeps_locks (c : Z) (w : N) (k : KBDLLHOOKSTRUCT) (st : State) :
  isKeyDownMsg w = true ->
  wpg True (keyevent' c w k) (fun _ st' _ => locks st' = locks st) st.
Proof.
  intros Hw.
  eapply wpg_mono; [|apply keyevent_summary; right; right; exact I].
  cbv beta. intros _ st' o (_ & H & _). auto.
Qed.

(** The lock the settings do not select stays off along every run. *)
Lemma lockInv_run (cs : list HookCall) (st : State) :
  lockInv s st = true ->
  wpg True (run' cs) (fun _ st' _ => lockInv s st' = true) st.
Proof.
  revert st. induction cs as [|c cs IH]; intros st Hinv.
  - cbn. auto.
  - cbn [run]. wp_step.
    eapply wpg_mono; [|apply keyevent_summary; right; right; exact I].
    cbv beta. intros r st1 o1 (H & _). wp_step.
    eapply wpg_mono; [|apply IH; auto]. cbv beta.
    intros rs st2 o2 H2. wp_step. exact H2.
Qed.

Lemma lockInv_not_both (st : State) :
  lockInv s st = true -> shiftLockActive st && capsLockActive st = false.
Proof.
  unfold lockInv.
  destruct (shiftLockEnabled s), (shiftLockActive st), (capsLockActive st);
    cbn; congruence.
Qed.

(** With valid scan codes the hook is defined on every call. *)
Lemma keyevent_defined (c : HookCall) (st : State) :
  wfLayout l = true -> scanCode (lparam c) < 103 ->
  is_Some (keyevent' (code c) (wparam c) (lparam c) st).
Proof.
  intros Hwf Hsc.
  destruct (wpg_total (keyevent' (code c) (wparam c) (lparam c))
              (fun _ _ _ => True) st) as (r & st' & o & E & _).
  - eapply wpg_mono; [|apply keyevent_summary; left; auto]. auto.
  - rewrite E. eauto.
Qed.

(** A classified key-down of a plain key with a scan code of 103 or
    more reads a table past its end. *)
Lemma out_of_range_read (c : HookCall) (st : State) :
  wfLayout l = true -> classifiedKeyDown st c = true ->
  plainKey s (lparam c) = true -> qwertzForShortcuts s = false ->
  103 <= scanCode (lparam c) ->
  keyevent' (code c) (wparam c) (lparam c) st = None.
Proof.
  intros Hwf H Hplain Hq Hsc.
  unfold classifiedKeyDown, delivered in H. split_bools H.
  unfold plainKey in Hplain. split_bools Hplain.
  apply Z.eqb_eq in H. rewrite H.
  rewrite keyevent_keyDown by (auto; now apply negb_true_iff).
  apply wpg_none.
  unfold keyDownBranch, keyDownMapping, handleLayer2SpecialCases,
    handleLayer3SpecialCases, handleLayer4SpecialCases, logKeyEvent, keybd_event.
  use_hyps. wp_all; try exact I.
  all: try match goal with
       | E : (scanCode _ =? _) = true |- _ => apply N.eqb_eq in E; lia
       end.
  all: try match goal with
       | E : mapScanCodeToChar _ ?lvl _ = Some _ |- _ =>
           assert (is_Some (mapScanCodeToChar l lvl (scanCode (lparam c))))
             as Hs by (rewrite E; eauto);
           apply mapScanCodeToChar_defined in Hs; [lia | assumption]
       | E : level4Special _ _ = Some _ |- _ =>
           assert (is_Some (level4Special l (scanCode (lparam c))))
             as Hs by (rewrite E; eauto);
           apply level4Special_defined in Hs; [lia | assumption]
       end.
Qed.

End Classifier.

(** ** The scenarios of the specification, evaluated *)

(** On the neo layout the key at scan code 30 types u with no modifier
    held, and the level-3 character of that slot, a backslash, with the
    left mod3 key held. *)
Example neo_u_at_level_1 :
  lastCall noHostKey noHostChar defaultSettings (buildLayout defaultSettings)
    [] (keyDownOf 0x41 30) initialState
  = Some (Consumed,
          [LogKeyEvent (String (Ascii.ascii_of_nat 10) "key down")
             (lparam (keyDownOf 0x41 30));
           LogMapped 30 0 117 LEVEL_1; SendUnicode 117]).
Proof. vm_compute. reflexivity. Qed.

Example neo_u_slot_at_level_3 :
  lastCall noHostKey noHostChar defaultSettings (buildLayout defaultSettings)
    [keyDownOf VK_CAPITAL 58] (keyDownOf 0x41 30) initialState
  = Some (Consumed,
          [LogKeyEvent (String (Ascii.ascii_of_nat 10) "key down")
             (lparam (keyDownOf 0x41 30));
           LogMapped 30 0 92 LEVEL_3; SendUnicode 92]).
Proof. vm_compute. reflexivity. Qed.

(** ** Further facts *)

Lemma kou_or_vou_canonical (name : string) :
  String.eqb (canonicalName name) "kou" || String.eqb (canonicalName name) "vou"
  = String.eqb name "kou" || String.eqb name "vou".
Proof.
  unfold canonicalName.
  repeat match goal with
    | |- context [if String.eqb name ?x then _ else _] =>
        let E := fresh "E" in
        destruct (String.eqb name x) eqn:E;
        [apply String.eqb_eq in E; subst; reflexivity|]
    end.
  reflexivity.
Qed.

(** Both families agree on every slot but six. *)
Lemma actionTable_common (b1 b2 : bool) (i : nat) :
  ~ In i [17; 19; 20; 44; 46; 47]%nat ->
  actionTable b1 !! i = actionTable b2 !! i.
Proof.
  intros H.
  assert (Hin : forall j, In j [17; 19; 20; 44; 46; 47]%nat -> i <> j)
    by (intros j Hj ->; auto).
  do 48 (destruct i as [|i];
         [first [ destruct b1, b2; reflexivity
                | exfalso; eapply Hin; [|reflexivity]; simpl; tauto ] |]).
  destruct b1, b2; reflexivity.
Qed.

(** On those six the families differ. *)
Lemma actionTable_differs (b : bool) (i : nat) :
  In i [17; 19; 20; 44; 46; 47]%nat ->
  actionTable (negb b) !! i <> actionTable b !! i.
Proof.
  simpl. intros H.
  repeat (destruct H as [<- | H]; [destruct b; discriminate|]).
  destruct H.
Qed.

Lemma actionTable_unused (b : bool) (i : nat) :
  (i < MAPPING_LEN)%nat ->
  ~ In i [16; 17; 18; 19; 20; 30; 31; 32; 33; 34; 44; 45; 46; 47; 57]%nat ->
  actionTable b !! i = Some 0.
Proof.
  intros Hlt H.
  assert (Hin : forall j,
             In j [16; 17; 18; 19; 20; 30; 31; 32; 33; 34;
                   44; 45; 46; 47; 57]%nat -> i <> j)
    by (intros j Hj ->; auto).
  unfold MAPPING_LEN in Hlt.
  do 103 (destruct i as [|i];
          [first [ destruct b; reflexivity
                 | exfalso; eapply Hin; [|reflexivity]; simpl; tauto ] |]).
  lia.
Qed.

Lemma level4_specials_actionTable (s : Settings) :
  level4_specials (buildLayout s) = actionTable (is_kou_or_vue (buildLayout s)).
Proof.
  each_variant s; destruct (quoteAsMod3R s); vm_compute; reflexivity.
Qed.

Lemma useUnicode_spec (r : Z) (st : State) (k : KBDLLHOOKSTRUCT) :
  useUnicode r st k = true <->
  (r = (-1)%Z \/ shiftLockActive st = true \/ capsLockActive st = true
   \/ level4LockActive st = true
   \/ (0x30 <= vkCode k /\ vkCode k <= 0x39)).
Proof.
  unfold useUnicode.
  rewrite !orb_true_iff, andb_true_iff, Z.eqb_eq, !N.leb_le. tauto.
Qed.


(** ** Properties of the code *)

(** *** The table builders *)

Lemma fillAtLiteral_length (O : nat) (p mapping : list N) :
  length (fillAtLiteral O p mapping) = length mapping.
Proof.
  revert O mapping. induction p as [|c p IH]; intros O mapping; cbn.
  - reflexivity.
  - now rewrite IH, length_insert.
Qed.

(** X1. [fillAtLiteral<O>(p)] on a table the literal fits into writes
    the characters of the literal to the slots from [O] on, in order,
    and leaves every other slot and the length of the table as they
    were. *)
Theorem fillAtLiteral_lookup :
  forall (O : nat) (p mapping : list N) (i : nat),
    (O + length p <= length mapping)%nat ->
    length (fillAtLiteral O p mapping) = length mapping
    /\ fillAtLiteral O p mapping !! i
       = (if (O <=? i)%nat && (i <? O + length p)%nat
          then p !! (i - O)%nat else mapping !! i).
Proof.
  intros O p mapping i H. split; [apply fillAtLiteral_length|].
  revert O mapping H.
  induction p as [|c p IH]; intros O mapping H; cbn [fillAtLiteral length] in *.
  - rewrite Nat.add_0_r.
    destruct (Nat.leb_spec O i), (Nat.ltb_spec i O); cbn; auto; lia.
  - rewrite IH by (rewrite length_insert; lia).
    destruct (Nat.leb_spec (S O) i), (Nat.ltb_spec i (S O + length p)),
      (Nat.leb_spec O i), (Nat.ltb_spec i (O + S (length p)));
      cbn [andb]; try lia.
    all: first
      [ rewrite list_lookup_insert_ne by lia; reflexivity
      | replace (i - O)%nat with (S (i - S O)) by lia; reflexivity
      | assert (i = O) as -> by lia;
        rewrite list_lookup_insert_eq by lia;
        replace (O - O)%nat with 0%nat by lia; reflexivity ].
Qed.

(** The literal of the digit row written into an empty table. *)
Lemma fillAtLiteral_lookup_witness :
  fillAtLiteral 2 [49; 50; 51] emptyMapping !! 3%nat = Some 50
  /\ fillAtLiteral 2 [49; 50; 51] emptyMapping !! 5%nat = Some 0.
Proof.
  split.
  - exact (proj2 (fillAtLiteral_lookup 2 [49; 50; 51] emptyMapping 3
                    ltac:(vm_compute; lia))).
  - exact (proj2 (fillAtLiteral_lookup 2 [49; 50; 51] emptyMapping 5
                    ltac:(vm_compute; lia))).
Defined.

Lemma findIndexFrom_spec (k : nat) (m : list N) (f : N) :
  match findIndexFrom k m f with
  | Some i =>
      (k <= i)%nat /\ m !! (i - k)%nat = Some f
      /\ forall j, (j < i - k)%nat -> m !! j <> Some f
  | None => forall j, m !! j <> Some f
  end.
Proof.
  revert k. induction m as [|x m IH]; intros k; cbn.
  - intros j. rewrite lookup_nil. discriminate.
  - destruct (N.eqb_spec x f) as [->|Hne].
    + replace (k - k)%nat with 0%nat by lia.
      repeat split; [lia | intros j Hj; lia].
    + specialize (IH (S k)). destruct (findIndexFrom (S k) m f) as [i|].
      * destruct IH as (Hle & Hi & Hfirst).
        replace (i - k)%nat with (S (i - S k)) by lia.
        repeat split; [lia | exact Hi |].
        intros [|j] Hj; cbn; [congruence | apply Hfirst; lia].
      * intros [|j]; cbn; [congruence | apply IH].
Qed.

(** X2. [findIndex] gives the first index that holds the wanted
    character, and [-1] (here [None]) exactly when no slot holds it. *)
Theorem findIndex_first :
  forall (m : list N) (f : N),
    match findIndex m f with
    | Some i => m !! i = Some f /\ forall j, (j < i)%nat -> m !! j <> Some f
    | None => forall j, m !! j <> Some f
    end.
Proof.
  intros m f. unfold findIndex.
  pose proof (findIndexFrom_spec 0 m f) as H.
  destruct (findIndexFrom 0 m f) as [i|]; [|exact H].
  replace (i - 0)%nat with i in H by lia. tauto.
Qed.

Lemma findIndex_bound (m : list N) (f : N) (c : nat) :
  findIndex m f = Some c -> (c < length m)%nat.
Proof.
  intros H. pose proof (findIndex_first m f) as Hf. rewrite H in Hf.
  destruct Hf as [Hc _]. now apply lookup_lt_Some in Hc.
Qed.

Lemma mapLevelsLetters_prefix (base newChars : list N) (n : nat) (out : list N) (i : nat) :
  let step := fun (out : list N) (i : nat) =>
    match base !! i with
    | Some b =>
        match findIndex lowerLetters b with
        | Some c =>
            match newChars !! c with
            | Some x => <[i := x]> out
            | None => out
            end
        | None => out
        end
    | None => out
    end in
  length newChars = length lowerLetters ->
  length (fold_left step (seq 0 n) out) = length out
  /\ fold_left step (seq 0 n) out !! i
     = (if (i <? n)%nat && (i <? length out)%nat then
          match base !! i with
          | Some b =>
              match findIndex lowerLetters b with
              | Some c => newChars !! c
              | None => out !! i
              end
          | None => out !! i
          end
        else out !! i).
Proof.
  intros step Hlen. induction n as [|n [IHl IHi]].
  - cbn. auto.
  - rewrite seq_S, fold_left_app. cbn [fold_left Nat.add].
    set (acc := fold_left step (seq 0 n) out) in *.
    assert (Hstep : length (step acc n) = length acc
                    /\ step acc n !! i
                       = (if (i =? n)%nat && (i <? length acc)%nat then
                            match base !! n with
                            | Some b =>
                                match findIndex lowerLetters b with
                                | Some c => newChars !! c
                                | None => acc !! i
                                end
                            | None => acc !! i
                            end
                          else acc !! i)).
    { unfold step.
      destruct (Nat.ltb_spec i (length acc)), (Nat.eqb_spec i n) as [Heq|Hne];
        try subst i; cbn [andb].
      all: destruct (base !! n) as [b|]; [|auto].
      all: destruct (findIndex lowerLetters b) as [c|] eqn:Ec; [|auto].
      all: apply findIndex_bound in Ec; rewrite <- Hlen in Ec.
      all: destruct (lookup_lt_is_Some_2 newChars c Ec) as [x Hx]; rewrite Hx.
      all: rewrite length_insert; split; [reflexivity|].
      all: first [ now rewrite list_lookup_insert_eq by lia
                 | now rewrite list_lookup_insert_ne by congruence
                 | rewrite list_insert_ge by lia; reflexivity ]. }
    destruct Hstep as [Hsl Hsi]. split; [congruence|].
    rewrite Hsi, IHl, IHi.
    destruct (Nat.ltb_spec i (length out)), (Nat.eqb_spec i n) as [Heq|Hne];
      try subst i; rewrite ?andb_false_r, ?andb_true_r; cbn [andb].
    + rewrite Nat.ltb_irrefl, (proj2 (Nat.ltb_lt n (S n))) by lia.
      destruct (base !! n) as [b|]; [|reflexivity].
      now destruct (findIndex lowerLetters b).
    + destruct (Nat.ltb_spec i n), (Nat.ltb_spec i (S n)); auto; lia.
    + reflexivity.
    + reflexivity.
Qed.

(** X3. [mapLevelsLetters] on two tables of [MAPPING_LEN] entries and
    an alphabet as long as [lowerLetters]: a slot whose [base] character
    is the symbol of [lowerLetters] at index [c] receives the symbol of
    the new alphabet at index [c]; every other slot of the output table
    keeps its entry, and the table keeps its length. *)
Theorem mapLevelsLetters_lookup :
  forall (base out newChars : list N) (i : nat),
    length base = MAPPING_LEN -> length out = MAPPING_LEN ->
    length newChars = length lowerLetters ->
    length (mapLevelsLetters base out newChars) = MAPPING_LEN
    /\ mapLevelsLetters base out newChars !! i
       = match base !! i with
         | Some b =>
             match findIndex lowerLetters b with
             | Some c => newChars !! c
             | None => out !! i
             end
         | None => out !! i
         end.
Proof.
  intros base out newChars i Hb Ho Hn. unfold mapLevelsLetters.
  destruct (mapLevelsLetters_prefix base newChars MAPPING_LEN out i Hn)
    as [Hl Hi].
  split; [congruence|]. rewrite Hi, Ho.
  destruct (Nat.ltb_spec i MAPPING_LEN); cbn [andb]; [reflexivity|].
  now rewrite (lookup_ge_None_2 base i) by lia.
Qed.

(** Level 1 of neo mapped to capitals: slot 30 holds u and receives U,
    slot 2 holds the digit 1 and keeps its entry. *)
Lemma mapLevelsLetters_lookup_witness :
  mapLevelsLetters (getLevel (buildLayout defaultSettings) LEVEL_1)
    emptyMapping upperLetters !! 30%nat = Some 85
  /\ mapLevelsLetters (getLevel (buildLayout defaultSettings) LEVEL_1)
       emptyMapping upperLetters !! 2%nat = Some 0.
Proof.
  split.
  - exact (proj2 (mapLevelsLetters_lookup
                    (getLevel (buildLayout defaultSettings) LEVEL_1)
                    emptyMapping upperLetters 30 eq_refl eq_refl eq_refl)).
  - exact (proj2 (mapLevelsLetters_lookup
                    (getLevel (buildLayout defaultSettings) LEVEL_1)
                    emptyMapping upperLetters 2 eq_refl eq_refl eq_refl)).
Defined.

(** *** The tables of [buildLayout] *)

Lemma buildLayout_lettersParallel (s : Settings) :
  lettersParallel (buildLayout s) = true.
Proof. each_variant s; destruct (quoteAsMod3R s); vm_compute; reflexivity. Qed.

Lemma lettersParallel_lookup (l : Layout) (i : nat) (ch : N) (c : nat) :
  lettersParallel l = true ->
  length (getLevel l LEVEL_1) = MAPPING_LEN ->
  getLevel l LEVEL_1 !! i = Some ch ->
  findIndex lowerLetters ch = Some c ->
  getLevel l LEVEL_2 !! i = upperLetters !! c
  /\ getLevel l LEVEL_5 !! i = greekLetters !! c
  /\ getLevel l LEVEL_6 !! i = mathSymbols !! c.
Proof.
  intros H Hlen Hi Hc.
  unfold lettersParallel in H. rewrite forallb_forall in H.
  assert (Hlt : (i < MAPPING_LEN)%nat).
  { rewrite <- Hlen. now apply lookup_lt_Some in Hi. }
  assert (Hin : In i (seq 0 MAPPING_LEN)) by (apply in_seq; lia).
  specialize (H i Hin). cbv beta in H.
  rewrite Hi, Hc in H.
  destruct (getLevel l LEVEL_2 !! i) as [a2|]; [|discriminate].
  destruct (upperLetters !! c) as [b2|]; [|discriminate].
  destruct (getLevel l LEVEL_5 !! i) as [a5|]; [|discriminate].
  destruct (greekLetters !! c) as [b5|]; [|discriminate].
  destruct (getLevel l LEVEL_6 !! i) as [a6|]; [|discriminate].
  destruct (mathSymbols !! c) as [b6|]; [|discriminate].
  apply andb_prop in H as [H H6]. apply andb_prop in H as [H2 H5].
  apply N.eqb_eq in H2, H5, H6. subst. auto.
Qed.

(** X4. In every layout [buildLayout] returns, a slot whose level-1
    character is the symbol of [lowerLetters] at index [c] holds the
    capital at index [c] on level 2, the Greek letter at index [c] on
    level 5 and the mathematical symbol at index [c] on level 6: no
    later write of [buildLayout] touches a letter slot. *)
Theorem buildLayout_letter_slots_parallel :
  forall (s : Settings) (i : nat) (ch : N) (c : nat),
    getLevel (buildLayout s) LEVEL_1 !! i = Some ch ->
    findIndex lowerLetters ch = Some c ->
    getLevel (buildLayout s) LEVEL_2 !! i = upperLetters !! c
    /\ getLevel (buildLayout s) LEVEL_5 !! i = greekLetters !! c
    /\ getLevel (buildLayout s) LEVEL_6 !! i = mathSymbols !! c.
Proof.
  intros s i ch c. apply lettersParallel_lookup.
  - apply buildLayout_lettersParallel.
  - apply wfLayout_level, buildLayout_wf.
Qed.

(** The key of scan code 30 on neo: u, U, the Greek and the
    mathematical symbol at the index of u. *)
Lemma buildLayout_letter_slots_parallel_witness :
  getLevel (buildLayout defaultSettings) LEVEL_2 !! 30%nat = Some 85
  /\ getLevel (buildLayout defaultSettings) LEVEL_5 !! 30%nat = Some 117
  /\ getLevel (buildLayout defaultSettings) LEVEL_6 !! 30%nat = Some 8834.
Proof.
  exact (buildLayout_letter_slots_parallel defaultSettings 30 117 20
           eq_refl eq_refl).
Defined.

Lemma buildLayout_lettersCounted (s : Settings) :
  lettersCounted (buildLayout s)
    (fun ch =>
       if quoteAsMod3R s
          && bool_decide (getLevel (buildLayout s) LEVEL_1 !! 40%nat = Some ch)
       then 2%nat else 1%nat) = true.
Proof. each_variant s; destruct (quoteAsMod3R s); vm_compute; reflexivity. Qed.

Lemma lettersCounted_count (l : Layout) (count : N -> nat) (ch : N) :
  lettersCounted l count = true -> In ch lowerLetters ->
  occurrences ch (getLevel l LEVEL_1) = count ch.
Proof.
  unfold lettersCounted. rewrite forallb_forall. intros H Hin.
  apply Nat.eqb_eq. exact (H ch Hin).
Qed.

(** X5. Level 1 of every layout is a permutation of [lowerLetters] on
    its letter slots: each of the 32 symbols sits in exactly one slot.
    With [quoteAsMod3R] the symbol of slot 40 sits in slot 43 as well,
    so that symbol, and no other, is counted twice. *)
Theorem buildLayout_letters_once :
  forall (s : Settings) (ch : N),
    In ch lowerLetters ->
    occurrences ch (getLevel (buildLayout s) LEVEL_1)
    = (if quoteAsMod3R s
          && bool_decide (getLevel (buildLayout s) LEVEL_1 !! 40%nat = Some ch)
       then 2%nat else 1%nat).
Proof.
  intros s ch Hin.
  exact (lettersCounted_count (buildLayout s) _ ch
           (buildLayout_lettersCounted s) Hin).
Qed.

(** The letter a on neo: one slot. *)
Lemma buildLayout_letters_once_witness :
  occurrences 97 (getLevel (buildLayout defaultSettings) LEVEL_1) = 1%nat.
Proof.
  exact (buildLayout_letters_once defaultSettings 97
           ltac:(vm_compute; tauto)).
Defined.

Lemma buildLayout_lettersPaired (s : Settings) :
  lettersPaired (buildLayout s) = true.
Proof. each_variant s; destruct (quoteAsMod3R s); vm_compute; reflexivity. Qed.

Lemma lettersPaired_lookup (l : Layout) (sc a b : N) :
  lettersPaired l = true ->
  length (getLevel l LEVEL_1) = MAPPING_LEN ->
  mapScanCodeToChar l LEVEL_1 sc = Some a ->
  mapScanCodeToChar l LEVEL_2 sc = Some b ->
  isLetter a = isLetter b.
Proof.
  unfold mapScanCodeToChar, lettersPaired. rewrite forallb_forall.
  intros H Hlen Ha Hb.
  assert (Hin : In (N.to_nat sc) (seq 0 MAPPING_LEN)).
  { apply in_seq. apply lookup_lt_Some in Ha. lia. }
  specialize (H _ Hin). cbv beta in H. rewrite Ha, Hb in H.
  now apply Bool.eqb_prop.
Qed.

(** X6. In every layout [buildLayout] returns, the level-1 and the
    level-2 character of a key are both letters for [isLetter] or both
    not: the test the caps lock applies to the character of the active
    level gives the same answer on either of the two levels. *)
Theorem buildLayout_letters_paired :
  forall (s : Settings) (sc a b : N),
    mapScanCodeToChar (buildLayout s) LEVEL_1 sc = Some a ->
    mapScanCodeToChar (buildLayout s) LEVEL_2 sc = Some b ->
    isLetter a = isLetter b.
Proof.
  intros s sc a b. apply lettersPaired_lookup.
  - apply buildLayout_lettersPaired.
  - apply wfLayout_level, buildLayout_wf.
Qed.

(** The key of scan code 26 on neo: sharp s and capital sharp s. *)
Lemma buildLayout_letters_paired_witness :
  isLetter 223 = isLetter 7838.
Proof.
  exact (buildLayout_letters_paired defaultSettings 26 223 7838
           eq_refl eq_refl).
Defined.

(** *** [Settings::sanitize] and the modifier scan codes *)

(** X7. [sanitize] is idempotent, leaves at most one of the two locks
    and at most one of the two swaps enabled, and changes nothing
    [buildLayout] reads. *)
Theorem sanitize_settles :
  forall s : Settings,
    sanitize (sanitize s) = sanitize s
    /\ capsLockEnabled (sanitize s) && shiftLockEnabled (sanitize s) = false
    /\ swapLeftCtrlLeftAltAndLeftWin (sanitize s)
       && swapLeftCtrlAndLeftAlt (sanitize s) = false
    /\ buildLayout (sanitize s) = buildLayout s.
Proof.
  intros s. split; [|split; [|split]].
  - unfold sanitize. cbn.
    destruct (capsLockEnabled s), (swapLeftCtrlLeftAltAndLeftWin s),
      (quoteAsMod3R s), (returnAsMod3R s), (tabAsMod4L s); reflexivity.
  - cbn. destruct (capsLockEnabled s); reflexivity.
  - cbn. destruct (swapLeftCtrlLeftAltAndLeftWin s); reflexivity.
  - apply buildLayout_reads; reflexivity.
Qed.

Lemma lettersTyped_key (mod3L mod3R mod4L : N) (l : Layout) (ch : N) :
  lettersTyped mod3L mod3R mod4L l = true -> In ch lowerLetters ->
  exists sc : N,
    mapScanCodeToChar l LEVEL_1 sc = Some ch
    /\ sc <> mod3L /\ sc <> mod3R /\ sc <> mod4L.
Proof.
  unfold lettersTyped. rewrite forallb_forall. intros H Hin.
  specialize (H ch Hin). cbv beta in H.
  apply existsb_exists in H as (i & _ & Hi). unfold typedBy in Hi.
  exists (N.of_nat i). unfold mapScanCodeToChar. rewrite Nat2N.id.
  destruct (getLevel l LEVEL_1 !! i) as [c|]; [|discriminate].
  split_bools Hi. apply N.eqb_eq in Hi. subst c.
  repeat split; try reflexivity; intros E; rewrite E, N.eqb_refl in *;
    discriminate.
Qed.

Lemma sanitize_lettersTyped (s : Settings) :
  scanCodeMod3L s = SCANCODE_CAPSLOCK_KEY ->
  scanCodeMod3R s = SCANCODE_HASH_KEY ->
  scanCodeMod4L s = SCANCODE_LOWER_THAN_KEY ->
  lettersTyped (scanCodeMod3L (sanitize s)) (scanCodeMod3R (sanitize s))
    (scanCodeMod4L (sanitize s)) (buildLayout s) = true.
Proof.
  intros H1 H2 H3. cbn [sanitize scanCodeMod3L scanCodeMod3R scanCodeMod4L].
  rewrite H1, H2, H3. each_variant s.
  all: destruct (quoteAsMod3R s), (returnAsMod3R s), (tabAsMod4L s);
    vm_compute; reflexivity.
Qed.

(** X8. Settings whose modifier scan codes are the initialisers, once
    sanitized, leave every letter a key: each symbol of [lowerLetters]
    is the level-1 character of a scan code that is none of the three
    modifier scan codes.  With [quoteAsMod3R] that is what the copy of
    slot 40 to slot 43 is for. *)
Theorem sanitized_letters_have_a_key :
  forall (s : Settings) (ch : N),
    scanCodeMod3L s = SCANCODE_CAPSLOCK_KEY ->
    scanCodeMod3R s = SCANCODE_HASH_KEY ->
    scanCodeMod4L s = SCANCODE_LOWER_THAN_KEY ->
    In ch lowerLetters ->
    exists sc : N,
      mapScanCodeToChar (buildLayout (sanitize s)) LEVEL_1 sc = Some ch
      /\ sc <> scanCodeMod3L (sanitize s)
      /\ sc <> scanCodeMod3R (sanitize s)
      /\ sc <> scanCodeMod4L (sanitize s).
Proof.
  intros s ch H1 H2 H3 Hin.
  destruct (sanitize_settles s) as (_ & _ & _ & ->).
  apply lettersTyped_key; [|exact Hin].
  now apply sanitize_lettersTyped.
Qed.

(** The letter y of neo with [quoteAsMod3R]: its key, scan code 40, is
    the modifier, and a key other than the modifiers types it. *)
Lemma sanitized_letters_have_a_key_witness :
  exists sc : N,
    mapScanCodeToChar (buildLayout (sanitize (variant "neo" true))) LEVEL_1 sc
    = Some 121
    /\ sc <> 58 /\ sc <> 40 /\ sc <> 86.
Proof.
  exact (sanitized_letters_have_a_key (variant "neo" true) 121
           eq_refl eq_refl eq_refl ltac:(vm_compute; tauto)).
Defined.

Lemma onlySlot_spec (l : Layout) (i : nat) :
  onlySlot l i = true -> length (getLevel l LEVEL_1) = MAPPING_LEN ->
  exists ch : N,
    getLevel l LEVEL_1 !! i = Some ch /\ In ch lowerLetters
    /\ forall sc : N,
         mapScanCodeToChar l LEVEL_1 sc = Some ch -> N.to_nat sc = i.
Proof.
  unfold onlySlot, mapScanCodeToChar. intros H Hlen.
  destruct (getLevel l LEVEL_1 !! i) as [ch|]; [|discriminate].
  apply andb_prop in H as [Hin Hall].
  exists ch. split; [reflexivity|]. split.
  - apply existsb_exists in Hin as (x & Hx & E).
    apply N.eqb_eq in E. now subst x.
  - intros sc Hsc. rewrite forallb_forall in Hall.
    assert (Hj : In (N.to_nat sc) (seq 0 MAPPING_LEN)).
    { apply in_seq. apply lookup_lt_Some in Hsc. lia. }
    specialize (Hall _ Hj). cbv beta in Hall.
    rewrite Hsc, N.eqb_refl in Hall.
    apply orb_prop in Hall as [E|E]; [now apply Nat.eqb_eq in E | discriminate].
Qed.

Lemma buildLayout_onlySlot (s : Settings) :
  quoteAsMod3R s = false -> onlySlot (buildLayout s) 40 = true.
Proof. intros H. each_variant s; rewrite H; vm_compute; reflexivity. Qed.

(** X9. [sanitize] moves [scanCodeMod3R] when a flag asks for it and
    never moves it back.  Settings with [quoteAsMod3R] set and
    [returnAsMod3R] clear that are sanitized, as [readSettingsIni]
    does, then have the flag cleared, as an argument of the command
    line does, and are sanitized again, as [WinMain] does, keep the
    quote key as the right mod3 key, while the layout built from them
    has no copy of its symbol: a letter is left whose only key is that
    modifier. *)
Theorem sanitize_keeps_moved_scan_code :
  forall s : Settings,
    quoteAsMod3R s = true -> returnAsMod3R s = false ->
    let s' := sanitize (set_quoteAsMod3R false (sanitize s)) in
    quoteAsMod3R s' = false
    /\ scanCodeMod3R s' = SCANCODE_QUOTE_KEY
    /\ exists ch : N,
         In ch lowerLetters
         /\ mapScanCodeToChar (buildLayout s') LEVEL_1 SCANCODE_QUOTE_KEY
            = Some ch
         /\ forall sc : N,
              mapScanCodeToChar (buildLayout s') LEVEL_1 sc = Some ch ->
              sc = scanCodeMod3R s'.
Proof.
  intros s Hq Hr s'.
  assert (H3 : scanCodeMod3R s' = SCANCODE_QUOTE_KEY)
    by (subst s'; cbn; now rewrite Hq, Hr).
  split; [reflexivity|]. split; [exact H3|].
  destruct (onlySlot_spec (buildLayout s') 40) as (ch & H40 & Hin & Honly).
  - now apply buildLayout_onlySlot.
  - apply wfLayout_level, buildLayout_wf.
  - exists ch. split; [exact Hin|]. split; [exact H40|].
    intros sc Hsc. rewrite H3. apply Honly in Hsc.
    unfold SCANCODE_QUOTE_KEY. lia.
Qed.

(** On neo the letter is y. *)
Lemma sanitize_keeps_moved_scan_code_witness :
  scanCodeMod3R
    (sanitize (set_quoteAsMod3R false (sanitize (variant "neo" true))))
  = SCANCODE_QUOTE_KEY.
Proof.
  exact (proj1 (proj2 (sanitize_keeps_moved_scan_code (variant "neo" true)
                         eq_refl eq_refl))).
Defined.

(** *** The key-event classifier *)

(** Case analysis on every flag of [st] the goal reads. *)
Ltac flags st :=
  repeat match goal with
    | |- context [?f st] =>
        lazymatch type of (f st) with bool => destruct (f st) end
    end.

Ltac rewrite_bools :=
  repeat match goal with
    | E : _ = true |- _ => rewrite E
    | E : _ = false |- _ => rewrite E
    end.

Ltac facts_to_goal :=
  repeat match goal with
    | E : ?x = true |- context [?x] => rewrite E
    | E : ?x = false |- context [?x] => rewrite E
    end.

Section Keys.

Variable VkKeyScanEx : N -> Z.
Variable MapVirtualKeyA : N -> N.
Variable s : Settings.
Variable l : Layout.

Local Abbreviation keyevent' := (keyevent VkKeyScanEx MapVirtualKeyA s l).
Local Abbreviation run' := (run VkKeyScanEx MapVirtualKeyA s l).

(** The special-case handlers, with what they return: [true] after
    sending, [false] without having sent anything. *)
Lemma wpg_handleLayer2_sent d (k : KBDLLHOOKSTRUCT) Q st :
  (forall o, Q true st o) -> Q false st [] ->
  wpg d (handleLayer2SpecialCases VkKeyScanEx k) Q st.
Proof.
  intros H H0. unfold handleLayer2SpecialCases. wp_run; solve [apply H | apply H0].
Qed.

Lemma wpg_handleLayer3_sent d (k : KBDLLHOOKSTRUCT) Q st :
  (forall o, Q true st o) -> Q false st [] ->
  wpg d (handleLayer3SpecialCases VkKeyScanEx l k) Q st.
Proof.
  intros H H0. unfold handleLayer3SpecialCases, keybd_event.
  wp_run; solve [apply H | apply H0].
Qed.

Lemma wpg_handleLayer4_sent d (k : KBDLLHOOKSTRUCT) Q st :
  (forall o, Q true st o) -> Q false st [] ->
  (level4Special l (scanCode k) = None -> d) ->
  wpg d (handleLayer4SpecialCases VkKeyScanEx l k) Q st.
Proof.
  intros H H0 Hd. unfold handleLayer4SpecialCases, keybd_event.
  wp_run; solve [apply H | apply H0 | auto].
Qed.

Ltac wp_sent :=
  first [ apply wpg_handleLayer2_sent; [intros ? | ]
        | apply wpg_handleLayer3_sent; [intros ? | ]
        | apply wpg_handleLayer4_sent; [intros ? | | intros ?] ]; cbv beta.

Ltac wp_keys := repeat (first [wp_step | wp_sent]; try discriminate).

(** A call the hook hands on has synthesized nothing. *)
Lemma keyevent_handed_on (c : Z) (w : N) (k : KBDLLHOOKSTRUCT) (st : State) :
  wpg True (keyevent' c w k)
    (fun r _ o => r = CallNextHookEx -> existsb isSynthInput o = false) st.
Proof.
  unfold keyevent, toggleBypassMode, keyUpBranch, keyDownBranch,
    keyDownMapping, toggleShiftOrCapsLock, toggleLevel4Lock, when,
    logKeyEvent, logActivation, keybd_event.
  cbv zeta. wp_keys; first [exact I | discriminate | reflexivity].
Qed.

(** One call keeps the relations between the modifier flags; the tap
    settings are what makes the hook return before it recomputes
    [mod3Pressed] or [mod4Pressed].  And only the release of a mod4 key
    changes the level-4 lock. *)
Lemma keyevent_modifiers (c : Z) (w : N) (k : KBDLLHOOKSTRUCT) (st : State) :
  wpg True (keyevent' c w k)
    (fun _ st' _ =>
       (shiftInv st = true -> shiftInv st' = true)
       /\ (mod3Inv st = true -> mod3Inv st' = true)
       /\ (mod4Inv st = true -> mod4Inv st' = true)
       /\ (mod3RAsReturn s = false -> capsLockAsEscape s = false ->
           mod3Exact st = true -> mod3Exact st' = true)
       /\ (mod4LAsTab s = false ->
           mod4Exact st = true -> mod4Exact st' = true)
       /\ (level4LockActive st' = level4LockActive st
           \/ (isKeyUpMsg w = true /\ isMod4 s k = true
               /\ level4LockEnabled s = true))) st.
Proof.
  unfold keyevent, toggleBypassMode, keyUpBranch, keyDownBranch,
    keyDownMapping, toggleShiftOrCapsLock, toggleLevel4Lock, when,
    logKeyEvent, logActivation, keybd_event.
  cbv zeta. wp_keys; try exact I.
  all: unfold shiftInv, mod3Inv, mod4Inv, mod3Exact, mod4Exact; cbn in *.
  all: split; [|split; [|split; [|split; [|split]]]].
  all: try solve [left; reflexivity].
  all: try solve [right; repeat match goal with
         | E : _ && _ = true |- _ => apply andb_prop in E; destruct E
         end; auto].
  all: facts_to_goal; flags st; cbn; intros;
    try reflexivity; try assumption; try discriminate.
  all: repeat match goal with
         | E : _ && _ = true |- _ => apply andb_prop in E; destruct E
         end; congruence.
Qed.

Lemma run_modifiers (cs : list HookCall) (st : State) :
  wpg True (run' cs)
    (fun _ st' _ =>
       (shiftInv st = true -> shiftInv st' = true)
       /\ (mod3Inv st = true -> mod3Inv st' = true)
       /\ (mod4Inv st = true -> mod4Inv st' = true)
       /\ (mod3RAsReturn s = false -> capsLockAsEscape s = false ->
           mod3Exact st = true -> mod3Exact st' = true)
       /\ (mod4LAsTab s = false ->
           mod4Exact st = true -> mod4Exact st' = true)) st.
Proof.
  revert st. induction cs as [|c cs IH]; intros st.
  - cbn. tauto.
  - cbn [run]. wp_step.
    eapply wpg_mono; [|apply keyevent_modifiers]. cbv beta.
    intros r st1 o1 (A1 & A2 & A3 & A4 & A5 & _). wp_step.
    eapply wpg_mono; [|apply IH]. cbv beta.
    intros rs st2 o2 (B1 & B2 & B3 & B4 & B5). wp_step.
    repeat split; auto.
Qed.

(** The release of a key that is no modifier of the hook and no left
    system key. *)
Lemma other_key_up (w : N) (k : KBDLLHOOKSTRUCT) (st : State) :
  isKeyUpMsg w = true -> injected k = false -> bypassMode st = false ->
  isShift k = false -> isMod3 s k = false -> isMod4 s k = false ->
  leftSystemKey k = false ->
  keyevent' HC_ACTION w k st
  = Some (CallNextHookEx, setRightPressed k false st, [LogKeyEvent "key up" k]).
Proof.
  intros Hw Hi Hbp H1 H2 H3 H4. rewrite keyevent_keyUp by auto.
  unfold leftSystemKey in H4.
  apply orb_false_elim in H4 as [H4 H6]. apply orb_false_elim in H4 as [H4 H5].
  apply wpg_exact.
  unfold keyUpBranch, setRightPressed, logKeyEvent, keybd_event. cbv zeta.
  use_hyps. wp_keys; rewrite_bools; reflexivity.
Qed.

(** In bypass mode with [shiftPressed] clear, every call is handed on
    and the state stays. *)
Lemma bypass_locked (c : Z) (w : N) (k : KBDLLHOOKSTRUCT) (st : State) :
  bypassMode st = true -> shiftPressed st = false ->
  keyevent' c w k st
  = Some (CallNextHookEx, st,
          if (c =? HC_ACTION)%Z && (isKeyUpMsg w || isKeyDownMsg w)
             && injected k
          then [LogKeyEvent "injected" k] else []).
Proof.
  intros Hbp Hs. unfold keyevent. cbv zeta.
  destruct (c =? HC_ACTION)%Z; [|reflexivity]. cbn [negb andb].
  destruct (isKeyUpMsg w), (isKeyDownMsg w), (injected k); cbn [negb andb orb];
    try reflexivity; rewrite bind_get, ?Hs; cbn [andb]; rewrite Hbp;
    reflexivity.
Qed.

(** A left system key is none of the other keys the hook tests by
    virtual key. *)
Lemma leftSystemKey_vk (k : KBDLLHOOKSTRUCT) :
  leftSystemKey k = true ->
  isShift k = false /\ (vkCode k =? VK_RMENU) = false
  /\ (vkCode k =? VK_RCONTROL) = false /\ (vkCode k =? VK_RWIN) = false.
Proof.
  unfold leftSystemKey, isShift. intros H.
  apply orb_prop in H as [H|H]; [apply orb_prop in H as [H|H]|].
  - apply andb_prop in H as [H _]. apply N.eqb_eq in H. rewrite H.
    repeat split; reflexivity.
  - apply N.eqb_eq in H. rewrite H. repeat split; reflexivity.
  - apply N.eqb_eq in H. rewrite H. repeat split; reflexivity.
Qed.

Lemma left_system_key_down (w : N) (k : KBDLLHOOKSTRUCT) (st : State) :
  leftSystemKey k = true ->
  isKeyDownMsg w = true -> injected k = false -> bypassMode st = false ->
  shiftPressed st && (scanCode k =? 69) = false ->
  keyevent' HC_ACTION w k st
  = Some (Consumed, setPressed (relabel s k) true (clearTaps st),
          [LogKeyEvent (String (Ascii.ascii_of_nat 10) "key down") k;
           KeybdEvent (relabel s k) 0 0 0]).
Proof.
  intros Hk Hw Hi Hbp Hp. rewrite keyevent_keyDown by auto.
  destruct (leftSystemKey_vk k Hk) as (_ & _ & V3 & V4).
  unfold leftSystemKey in Hk. apply wpg_exact.
  unfold keyDownBranch, relabel, setPressed, clearTaps, logKeyEvent, keybd_event.
  destruct ((vkCode k =? VK_LCONTROL) && (scanCode k =? 29)) eqn:E1;
    [|destruct (vkCode k =? VK_LMENU) eqn:E2;
      [|destruct (vkCode k =? VK_LWIN) eqn:E3; [|discriminate]]];
    destruct (swapLeftCtrlAndLeftAlt s), (swapLeftCtrlLeftAltAndLeftWin s);
    cbn [orb andb]; rewrite ?V3; wp_keys; reflexivity.
Qed.

Lemma left_system_key_up (w : N) (k : KBDLLHOOKSTRUCT) (st : State) :
  leftSystemKey k = true ->
  isKeyUpMsg w = true -> injected k = false -> bypassMode st = false ->
  isMod3 s k = false -> isMod4 s k = false ->
  keyevent' HC_ACTION w k st
  = Some (Consumed, setPressed (relabel s k) false st,
          [LogKeyEvent "key up" k;
           KeybdEvent (relabel s k) 0 KEYEVENTF_KEYUP 0]).
Proof.
  intros Hk Hw Hi Hbp H3 H4. rewrite keyevent_keyUp by auto.
  destruct (leftSystemKey_vk k Hk) as (V1 & _ & V3 & V4).
  unfold leftSystemKey in Hk. apply wpg_exact.
  unfold keyUpBranch, relabel, setPressed, logKeyEvent, keybd_event.
  cbv zeta. rewrite V1, H3, H4.
  destruct ((vkCode k =? VK_LCONTROL) && (scanCode k =? 29)) eqn:E1;
    [|destruct (vkCode k =? VK_LMENU) eqn:E2;
      [|destruct (vkCode k =? VK_LWIN) eqn:E3; [|discriminate]]];
    destruct (swapLeftCtrlAndLeftAlt s), (swapLeftCtrlLeftAltAndLeftWin s);
    cbn [orb andb]; rewrite ?V3; wp_keys; reflexivity.
Qed.

(** A computation that returns without output in front of another. *)
Lemma bind_silent {A B} (m : Hook A) (f : A -> Hook B) (a : A) (st st1 : State) :
  m st = Some (a, st1, []) -> bind m f st = f a st1.
Proof.
  intros H. unfold bind. rewrite H.
  destruct (f a st1) as [[[b st2] o2]|]; reflexivity.
Qed.

Lemma bind_output {A B} (m : Hook A) (f : A -> Hook B) (a : A) (st st1 : State)
    (o : list Effect) :
  m st = Some (a, st1, o) ->
  bind m f st
  = match f a st1 with
    | Some (b, st2, o2) => Some (b, st2, o ++ o2)
    | None => None
    end.
Proof. intros H. unfold bind. now rewrite H. Qed.

Lemma level_setRightPressed (k : KBDLLHOOKSTRUCT) (b : bool) (st : State) :
  level s (setRightPressed k b (clearTaps st)) = level s st.
Proof.
  unfold setRightPressed.
  destruct (vkCode k =? VK_RCONTROL), (vkCode k =? VK_RWIN); reflexivity.
Qed.

(** The key-down of a key that is no left system key: the tap flags are
    cleared, a right system key is noted, and the rest of the branch
    runs. *)
Lemma keyDownBranch_other (k : KBDLLHOOKSTRUCT) (st : State) :
  leftSystemKey k = false ->
  keyDownBranch VkKeyScanEx MapVirtualKeyA s l k st
  = match keyDownMapping VkKeyScanEx MapVirtualKeyA s l k
            (setRightPressed k true (clearTaps st)) with
    | Some (r, st', o) =>
        Some (r, st',
              LogKeyEvent (String (Ascii.ascii_of_nat 10) "key down") k :: o)
    | None => None
    end.
Proof.
  intros H. unfold leftSystemKey in H.
  apply orb_false_elim in H as [H H3]. apply orb_false_elim in H as [H1 H2].
  unfold keyDownBranch, setRightPressed, clearTaps, logKeyEvent.
  rewrite H1, H2, H3.
  generalize (keyDownMapping VkKeyScanEx MapVirtualKeyA s l k). intros km.
  unfold bind, emit, modify.
  destruct (vkCode k =? VK_RCONTROL); [|destruct (vkCode k =? VK_RWIN)];
    cbn; match goal with |- context [km ?x] => destruct (km x) as [[[r st'] o]|] end;
    reflexivity.
Qed.

(** Where no special case applies, the three handlers return [false]
    and send nothing. *)
Lemma special_cases_pass (k : KBDLLHOOKSTRUCT) (lvl : Level) (st : State) :
  specialCase l lvl (scanCode k) = false ->
  is_Some (level4Special l (scanCode k)) ->
  (if Level_eqb lvl LEVEL_2
   then handleLayer2SpecialCases VkKeyScanEx k else ret false) st
  = Some (false, st, [])
  /\ (if Level_eqb lvl LEVEL_3
      then handleLayer3SpecialCases VkKeyScanEx l k else ret false) st
     = Some (false, st, [])
  /\ (if Level_eqb lvl LEVEL_4
      then handleLayer4SpecialCases VkKeyScanEx l k else ret false) st
     = Some (false, st, []).
Proof.
  intros H [a Ha].
  unfold handleLayer2SpecialCases, handleLayer3SpecialCases,
    handleLayer4SpecialCases.
  destruct lvl; cbn [Level_eqb specialCase] in *; repeat split;
    try reflexivity.
  - repeat (apply orb_false_elim in H as [H ?]). now rewrite_bools.
  - repeat (apply orb_false_elim in H as [H ?]). rewrite_bools.
    destruct (is_kou_or_vue l);
      [|cbn; destruct (scanCode k =? 31), (scanCode k =? 48); reflexivity].
    cbn [andb] in *.
    match goal with E : _ || _ = false |- _ => apply orb_false_elim in E as [E1 E2] end.
    now rewrite E1, E2.
  - repeat (apply orb_false_elim in H as [H ?]). rewrite_bools.
    rewrite Ha in *. cbn in *.
    match goal with E : negb _ = false |- _ => now rewrite E end.
Qed.

(** The rest of the key-down branch for a key that is no modifier and
    that no special case takes: what is left is the test for the
    numeric keypad and for shortcuts, and the table. *)
Lemma keyDownMapping_table (k : KBDLLHOOKSTRUCT) (st : State) :
  isShift k = false -> isMod3 s k = false -> isMod4 s k = false ->
  specialCase l (level s st) (scanCode k) = false ->
  is_Some (level4Special l (scanCode k)) ->
  keyDownMapping VkKeyScanEx MapVirtualKeyA s l k st
  = (if (0x60 <=? vkCode k) && (vkCode k <=? 0x6F) then ret CallNextHookEx
     else if negb (qwertzForShortcuts s && isSystemKeyPressed st) then
       match mapScanCodeToChar l (level s st) (scanCode k) with
       | None => undefined
       | Some key =>
           match (if capsLockActive st
                     && (Level_eqb (level s st) LEVEL_1
                         || Level_eqb (level s st) LEVEL_2)
                     && isLetter key
                  then mapScanCodeToChar l
                         (if Level_eqb (level s st) LEVEL_1
                          then LEVEL_2 else LEVEL_1) (scanCode k)
                  else Some key) with
           | None => undefined
           | Some key =>
               if negb (key =? 0) && negb (injected k) then
                 emit (LogMapped (scanCode k) (MapVirtualKeyA (vkCode k))
                         key (level s st)) ;;
                 sendChar VkKeyScanEx key k ;;
                 ret Consumed
               else ret CallNextHookEx
           end
       end
     else ret CallNextHookEx) st.
Proof.
  intros H1 H2 H3 Hsp Hdef.
  destruct (special_cases_pass k (level s st) st Hsp Hdef) as (P2 & P3 & P4).
  unfold keyDownMapping. rewrite bind_get. cbv zeta. rewrite H1, H2, H3.
  rewrite (bind_silent _ _ _ _ _ P2).
  rewrite (bind_silent _ _ _ _ _ P3).
  rewrite (bind_silent _ _ _ _ _ P4).
  reflexivity.
Qed.

(** A key of the numeric keypad, or any key while a system key is held
    and [qwertzForShortcuts] is set, is not remapped. *)
Lemma keyDownMapping_not_remapped (k : KBDLLHOOKSTRUCT) (st : State) :
  isShift k = false -> isMod3 s k = false -> isMod4 s k = false ->
  specialCase l (level s st) (scanCode k) = false ->
  is_Some (level4Special l (scanCode k)) ->
  ((0x60 <=? vkCode k) && (vkCode k <=? 0x6F))
  || (qwertzForShortcuts s && isSystemKeyPressed st) = true ->
  keyDownMapping VkKeyScanEx MapVirtualKeyA s l k st
  = Some (CallNextHookEx, st, []).
Proof.
  intros H1 H2 H3 Hsp Hdef H. rewrite keyDownMapping_table by assumption.
  destruct ((0x60 <=? vkCode k) && (vkCode k <=? 0x6F)); [reflexivity|].
  cbn [orb] in H. now rewrite H.
Qed.

(** The table entry of the active level is what is sent, unless the
    caps lock swaps levels 1 and 2. *)
Lemma keyDownMapping_mapped (k : KBDLLHOOKSTRUCT) (st : State) (c : N) :
  isShift k = false -> isMod3 s k = false -> isMod4 s k = false ->
  specialCase l (level s st) (scanCode k) = false ->
  is_Some (level4Special l (scanCode k)) ->
  (0x60 <=? vkCode k) && (vkCode k <=? 0x6F) = false ->
  qwertzForShortcuts s && isSystemKeyPressed st = false ->
  injected k = false ->
  capsLockActive st
  && (Level_eqb (level s st) LEVEL_1 || Level_eqb (level s st) LEVEL_2) = false ->
  mapScanCodeToChar l (level s st) (scanCode k) = Some c ->
  exists o : list Effect,
    sendChar VkKeyScanEx c k st = Some (tt, st, o)
    /\ keyDownMapping VkKeyScanEx MapVirtualKeyA s l k st
       = if c =? 0 then Some (CallNextHookEx, st, [])
         else Some (Consumed, st,
                    LogMapped (scanCode k) (MapVirtualKeyA (vkCode k)) c
                      (level s st) :: o).
Proof.
  intros H1 H2 H3 Hsp Hdef Hn Hq Hi Hcaps Hc.
  destruct (sendChar_runs VkKeyScanEx c k st) as (o & Ho & _).
  exists o. split; [exact Ho|].
  rewrite keyDownMapping_table by assumption.
  rewrite Hn, Hq, Hc, Hcaps, Hi. cbn [negb andb].
  destruct (c =? 0); [reflexivity|]. cbn [negb andb].
  unfold bind, emit, ret. cbv beta iota. rewrite Ho.
  now rewrite app_nil_r.
Qed.

(** With the caps lock active, on levels 1 and 2 a letter is replaced
    by the character of the other of the two levels; and with a lock
    active the character goes out as Unicode input. *)
Lemma keyDownMapping_caps (k : KBDLLHOOKSTRUCT) (st : State) (c c' : N) :
  isShift k = false -> isMod3 s k = false -> isMod4 s k = false ->
  specialCase l (level s st) (scanCode k) = false ->
  is_Some (level4Special l (scanCode k)) ->
  (0x60 <=? vkCode k) && (vkCode k <=? 0x6F) = false ->
  qwertzForShortcuts s && isSystemKeyPressed st = false ->
  injected k = false ->
  capsLockActive st = true ->
  Level_eqb (level s st) LEVEL_1 || Level_eqb (level s st) LEVEL_2 = true ->
  mapScanCodeToChar l (level s st) (scanCode k) = Some c ->
  mapScanCodeToChar l
    (if Level_eqb (level s st) LEVEL_1 then LEVEL_2 else LEVEL_1) (scanCode k)
  = Some c' ->
  keyDownMapping VkKeyScanEx MapVirtualKeyA s l k st
  = let key := if isLetter c then c' else c in
    if key =? 0 then Some (CallNextHookEx, st, [])
    else Some (Consumed, st,
               [LogMapped (scanCode k) (MapVirtualKeyA (vkCode k)) key
                  (level s st);
                SendUnicode key]).
Proof.
  intros H1 H2 H3 Hsp Hdef Hn Hq Hi Hcaps Hlv Hc Hc'.
  rewrite keyDownMapping_table by assumption.
  rewrite Hn, Hq, Hc, Hcaps, Hlv, Hi. cbn [negb andb]. cbv zeta.
  assert (Hsend : forall key,
             sendChar VkKeyScanEx key k st = Some (tt, st, [SendUnicode key])).
  { intros key. unfold sendChar, useUnicode. rewrite bind_get, Hcaps.
    rewrite ?orb_true_r. reflexivity. }
  destruct (isLetter c); [rewrite Hc'|];
    (match goal with |- context [?x =? 0] => destruct (x =? 0) end;
     [reflexivity|]); cbn [negb andb]; unfold bind, emit, ret; cbv beta iota;
    rewrite Hsend; reflexivity.
Qed.

(** On level 4 a key with an entry in the action table sends that
    virtual key, extended, whatever the key is otherwise. *)
Lemma keyDownMapping_action (k : KBDLLHOOKSTRUCT) (st : State) (a : N) :
  isShift k = false -> isMod3 s k = false -> isMod4 s k = false ->
  level s st = LEVEL_4 ->
  (scanCode k =? 13) || (scanCode k =? 27) || (scanCode k =? 41) = false ->
  level4Special l (scanCode k) = Some a -> (a =? 0) = false ->
  keyDownMapping VkKeyScanEx MapVirtualKeyA s l k st
  = Some (Consumed, st, [KeybdEvent (a mod 256) 0 LLKHF_EXTENDED 0]).
Proof.
  intros H1 H2 H3 Hlv Hsc Ha Hnz.
  apply orb_false_elim in Hsc as [Hsc S41].
  apply orb_false_elim in Hsc as [S13 S27].
  unfold keyDownMapping. rewrite bind_get. cbv zeta.
  rewrite H1, H2, H3, Hlv. cbn [Level_eqb].
  apply wpg_exact. unfold handleLayer4SpecialCases, keybd_event.
  rewrite S13, S27, S41, Ha, Hnz. cbn [negb]. wp_run; reflexivity.
Qed.

(** The press of a mod3 or mod4 key: the modifier flag, the pressed
    flag of the key and, except for the right mod4 key, its tap flag
    are set; the right mod4 key is released for the host. *)
Lemma modifier_key_press (w : N) (k : KBDLLHOOKSTRUCT) (st : State) :
  isKeyDownMsg w = true -> injected k = false -> bypassMode st = false ->
  shiftPressed st && (scanCode k =? 69) = false ->
  leftSystemKey k = false -> isShift k = false ->
  isMod3 s k || isMod4 s k = true ->
  let st1 := setRightPressed k true (clearTaps st) in
  keyevent' HC_ACTION w k st
  = Some (Consumed,
          (if isMod3 s k then
             if scanCode k =? scanCodeMod3R s then
               set_level3modRightAndNoOtherKeyPressed true
                 (set_level3modRightPressed true (set_mod3Pressed true st1))
             else
               set_level3modLeftAndNoOtherKeyPressed true
                 (set_level3modLeftPressed true (set_mod3Pressed true st1))
           else
             if scanCode k =? scanCodeMod4L s then
               set_level4modLeftAndNoOtherKeyPressed true
                 (set_level4modLeftPressed true (set_mod4Pressed true st1))
             else set_level4modRightPressed true (set_mod4Pressed true st1)),
          LogKeyEvent (String (Ascii.ascii_of_nat 10) "key down") k
          :: (if negb (isMod3 s k) && negb (scanCode k =? scanCodeMod4L s)
              then [KeybdEvent VK_RMENU 0 KEYEVENTF_KEYUP 0] else [])).
Proof.
  intros Hw Hi Hbp Hp Hk Hs Hm st1.
  rewrite keyevent_keyDown, keyDownBranch_other by auto. fold st1.
  unfold keyDownMapping, keybd_event. rewrite bind_get. cbv zeta. rewrite Hs.
  destruct (isMod3 s k); [|cbn [orb] in Hm; rewrite Hm];
    destruct (scanCode k =? scanCodeMod3R s), (scanCode k =? scanCodeMod4L s);
    reflexivity.
Qed.

(** The release of the left mod3 key. *)
Lemma mod3_left_release (w : N) (k : KBDLLHOOKSTRUCT) (st : State) :
  isKeyUpMsg w = true -> bypassMode st = false -> mod3LeftKey s k = true ->
  keyevent' HC_ACTION w k st
  = if capsLockAsEscape s && level3modLeftAndNoOtherKeyPressed st then
      Some (Consumed,
            set_level3modLeftAndNoOtherKeyPressed false
              (set_level3modLeftPressed false st),
            [LogKeyEvent "key up" k;
             KeybdEvent VK_CAPITAL 0 KEYEVENTF_KEYUP 0;
             KeybdEvent VK_ESCAPE 0 LLKHF_EXTENDED 0])
    else
      Some (Consumed,
            set_mod3Pressed (level3modRightPressed st)
              (set_level3modLeftPressed false st),
            [LogKeyEvent "key up" k]).
Proof.
  intros Hw Hbp Hk. unfold mod3LeftKey in Hk. split_bools Hk.
  rewrite keyevent_keyUp by auto.
  unfold keyUpBranch, logKeyEvent, keybd_event. cbv zeta. rewrite_bools.
  destruct (capsLockAsEscape s), (level3modLeftAndNoOtherKeyPressed st) eqn:E;
    cbn [andb]; apply wpg_exact; wp_run; cbn in *;
    rewrite ?E in *; first [reflexivity | discriminate].
Qed.

(** The release of a mod4 key. *)
Lemma mod4_release (w : N) (k : KBDLLHOOKSTRUCT) (st : State) :
  isKeyUpMsg w = true -> bypassMode st = false -> mod4Key s k = true ->
  let released :=
    if scanCode k =? scanCodeMod4L s then set_level4modLeftPressed false st
    else set_level4modRightPressed false st in
  keyevent' HC_ACTION w k st
  = if otherMod4Held s k st && level4LockEnabled s then
      Some (Consumed,
            set_mod4Pressed true
              (set_level4LockActive (negb (level4LockActive st)) released),
            [LogKeyEvent "key up" k;
             LogActivation "Level4 lock" (negb (level4LockActive st))])
    else if (scanCode k =? scanCodeMod4L s) && mod4LAsTab s
            && level4modLeftAndNoOtherKeyPressed st then
      Some (Consumed,
            set_level4modLeftAndNoOtherKeyPressed false released,
            [LogKeyEvent "key up" k;
             KeybdEvent (vkCode k mod 256) 0 KEYEVENTF_KEYUP 0;
             KeybdEvent VK_TAB 0 LLKHF_EXTENDED 0])
    else
      Some (Consumed, set_mod4Pressed (otherMod4Held s k st) released,
            [LogKeyEvent "key up" k]).
Proof.
  intros Hw Hbp Hk released. subst released.
  unfold mod4Key in Hk. split_bools Hk.
  rewrite keyevent_keyUp by auto.
  unfold keyUpBranch, toggleLevel4Lock, when, otherMod4Held, logKeyEvent,
    logActivation, keybd_event.
  cbv zeta. rewrite_bools.
  destruct (scanCode k =? scanCodeMod4L s), (level4LockEnabled s),
    (mod4LAsTab s), (level4modLeftAndNoOtherKeyPressed st) eqn:E1,
    (level4modRightPressed st) eqn:E2, (level4modLeftPressed st) eqn:E3;
    cbn [andb orb]; apply wpg_exact; wp_run; cbn in *;
    rewrite ?E1, ?E2, ?E3 in *; first [reflexivity | discriminate].
Qed.

(** Two calls in a row. *)
Lemma run_two (c1 c2 : HookCall) (st st1 st2 : State) (r1 r2 : HookResult)
    (o1 o2 : list Effect) :
  keyevent' (code c1) (wparam c1) (lparam c1) st = Some (r1, st1, o1) ->
  keyevent' (code c2) (wparam c2) (lparam c2) st1 = Some (r2, st2, o2) ->
  run' [c1; c2] st = Some ([r1; r2], st2, o1 ++ o2).
Proof.
  intros H1 H2. cbn [run]. unfold bind, ret. rewrite H1, H2.
  now rewrite !app_nil_r.
Qed.

Lemma bypass_locked_run (cs : list HookCall) (st : State) :
  bypassMode st = true -> shiftPressed st = false ->
  exists o : list Effect,
    run' cs st = Some (map (fun _ => CallNextHookEx) cs, st, o)
    /\ existsb isSynthInput o = false.
Proof.
  intros Hbp Hs. induction cs as [|c cs (o & IH & Ho)].
  - exists []. split; reflexivity.
  - eexists. cbn [run map]. unfold bind, ret.
    rewrite (bypass_locked _ _ _ _ Hbp Hs), IH. split; [reflexivity|].
    rewrite app_nil_r, existsb_app, Ho, orb_false_r.
    now destruct ((code c =? HC_ACTION)%Z
                  && (isKeyUpMsg (wparam c) || isKeyDownMsg (wparam c))
                  && injected (lparam c)).
Qed.

(** A left system key sends the key it is relabelled to, and no other
    call sends a key-down of a key with scan code 0 and no flags but
    the press of a shift key. *)
Lemma left_system_key_sends (w : N) (k : KBDLLHOOKSTRUCT) (st st' : State)
    (r : HookResult) (o : list Effect) (v : N) :
  leftSystemKey k = true -> isKeyDownMsg w = true ->
  keyevent' HC_ACTION w k st = Some (r, st', o) ->
  In (KeybdEvent v 0 0 0) o -> v = relabel s k.
Proof.
  intros Hk Hw H Hin.
  destruct (injected k) eqn:Hi.
  { rewrite keyevent_injected in H by assumption. injection H as _ _ <-.
    rewrite Hw, orb_true_r in Hin. cbn in Hin. intuition discriminate. }
  destruct (shiftPressed st && (scanCode k =? 69)) eqn:Hp.
  { apply andb_prop in Hp as [Hp1 Hp2].
    rewrite bypass_toggle in H by assumption. injection H as _ _ <-.
    cbn in Hin. intuition discriminate. }
  destruct (bypassMode st) eqn:Hbp.
  { unfold keyevent in H. cbv zeta in H.
    rewrite Z.eqb_refl, Hw, Hi, (isKeyDownMsg_not_up w Hw) in H.
    cbn [negb andb orb] in H. rewrite bind_get in H. cbn [andb] in H.
    rewrite Hp, Hbp in H. injection H as _ _ <-. destruct Hin. }
  rewrite left_system_key_down in H by assumption. injection H as _ _ <-.
  cbn in Hin. destruct Hin as [Hin|[Hin|[]]]; [discriminate|].
  now injection Hin.
Qed.

End Keys.

(** With at most one swap set, as after [sanitize], the relabelling of
    the three left system keys is one to one. *)
Lemma relabel_injective (s : Settings) (k1 k2 : KBDLLHOOKSTRUCT) :
  swapLeftCtrlLeftAltAndLeftWin s && swapLeftCtrlAndLeftAlt s = false ->
  leftSystemKey k1 = true -> leftSystemKey k2 = true ->
  relabel s k1 = relabel s k2 -> vkCode k1 = vkCode k2.
Proof.
  unfold leftSystemKey, relabel. intros Hs H1 H2.
  destruct ((vkCode k1 =? VK_LCONTROL) && (scanCode k1 =? 29)) eqn:A1;
    [apply andb_prop in A1 as [A1 _]
    |destruct (vkCode k1 =? VK_LMENU) eqn:A2;
      [|destruct (vkCode k1 =? VK_LWIN) eqn:A3; [|discriminate]]];
  (destruct ((vkCode k2 =? VK_LCONTROL) && (scanCode k2 =? 29)) eqn:B1;
    [apply andb_prop in B1 as [B1 _]
    |destruct (vkCode k2 =? VK_LMENU) eqn:B2;
      [|destruct (vkCode k2 =? VK_LWIN) eqn:B3; [|discriminate]]]);
  repeat match goal with
    | E : (_ =? _) = true |- _ => apply N.eqb_eq in E
    end;
  destruct (swapLeftCtrlAndLeftAlt s), (swapLeftCtrlLeftAltAndLeftWin s);
  cbn in *; try discriminate; congruence.
Qed.

(** *** Properties of [keyevent] *)

(** X10. A call the hook hands on to the next hook has synthesized no
    input: an event is either passed on as it is or consumed and
    replaced, never both. *)
Theorem handed_on_events_are_untouched :
  forall (VkKeyScanEx : N -> Z) (MapVirtualKeyA : N -> N) (s : Settings)
         (l : Layout) (c : Z) (w : N) (k : KBDLLHOOKSTRUCT) (st st' : State)
         (r : HookResult) (o : list Effect),
    keyevent VkKeyScanEx MapVirtualKeyA s l c w k st = Some (r, st', o) ->
    r = CallNextHookEx -> existsb isSynthInput o = false.
Proof.
  intros Vk Map s l c w k st st' r o H.
  exact (wpg_partial _ _ _ _ _ _ (keyevent_handed_on Vk Map s l c w k st) H).
Qed.

(** The release of the key of scan code 30 on neo. *)
Lemma handed_on_events_are_untouched_witness :
  existsb isSynthInput [LogKeyEvent "key up" (lparam (keyUpOf 0x55 30))]
  = false.
Proof.
  exact (handed_on_events_are_untouched noHostKey noHostChar defaultSettings
           (buildLayout defaultSettings) HC_ACTION WM_KEYUP
           (lparam (keyUpOf 0x55 30)) initialState initialState
           CallNextHookEx [LogKeyEvent "key up" (lparam (keyUpOf 0x55 30))]
           eq_refl eq_refl).
Defined.

(** X11. Along every sequence of calls the modifier flags the level is
    computed from follow the flags of the keys: [shiftPressed] stays the
    disjunction of the two shift keys, and [mod3Pressed] and
    [mod4Pressed] stay set while one of their keys is held.  Without
    the tap settings ([mod3RAsReturn], [capsLockAsEscape] for mod3,
    [mod4LAsTab] for mod4) they stay exactly the disjunction of their
    two keys. *)
Theorem modifier_flags_follow_keys :
  forall (VkKeyScanEx : N -> Z) (MapVirtualKeyA : N -> N) (s : Settings)
         (l : Layout) (cs : list HookCall) (st st' : State)
         (rs : list HookResult) (o : list Effect),
    run VkKeyScanEx MapVirtualKeyA s l cs st = Some (rs, st', o) ->
    (shiftInv st = true -> shiftInv st' = true)
    /\ (mod3Inv st = true -> mod3Inv st' = true)
    /\ (mod4Inv st = true -> mod4Inv st' = true)
    /\ (mod3RAsReturn s = false -> capsLockAsEscape s = false ->
        mod3Exact st = true -> mod3Exact st' = true)
    /\ (mod4LAsTab s = false ->
        mod4Exact st = true -> mod4Exact st' = true).
Proof.
  intros Vk Map s l cs st st' rs o H.
  exact (wpg_partial _ _ _ _ _ _ (run_modifiers Vk Map s l cs st) H).
Qed.

(** Left shift and the left mod3 key pressed, shift released. *)
Lemma modifier_flags_follow_keys_witness :
  exists (rs : list HookResult) (st' : State) (o : list Effect),
    run noHostKey noHostChar defaultSettings (buildLayout defaultSettings)
      [keyDownOf VK_LSHIFT 42; keyDownOf VK_CAPITAL 58; keyUpOf VK_LSHIFT 42]
      initialState = Some (rs, st', o)
    /\ shiftInv st' = true /\ mod3Exact st' = true.
Proof.
  destruct (run noHostKey noHostChar defaultSettings
              (buildLayout defaultSettings)
              [keyDownOf VK_LSHIFT 42; keyDownOf VK_CAPITAL 58;
               keyUpOf VK_LSHIFT 42] initialState)
    as [[[rs st'] o]|] eqn:E; [|discriminate E].
  exists rs, st', o. split; [reflexivity|].
  destruct (modifier_flags_follow_keys _ _ _ _ _ _ _ _ _ E)
    as (A1 & _ & _ & A4 & _).
  split; [apply A1 | apply A4]; reflexivity.
Defined.

(** X12. The release of a key that is neither a modifier of the hook
    nor a left system key is handed on with nothing sent; the state
    stays, but for the pressed flag of right control or right win. *)
Theorem other_key_release_is_handed_on :
  forall (VkKeyScanEx : N -> Z) (MapVirtualKeyA : N -> N) (s : Settings)
         (l : Layout) (w : N) (k : KBDLLHOOKSTRUCT) (st : State),
    isKeyUpMsg w = true -> injected k = false -> bypassMode st = false ->
    otherKey s k = true ->
    keyevent VkKeyScanEx MapVirtualKeyA s l HC_ACTION w k st
    = Some (CallNextHookEx, setRightPressed k false st,
            [LogKeyEvent "key up" k]).
Proof.
  intros Vk Map s l w k st Hw Hi Hbp Hk. unfold otherKey in Hk.
  split_bools Hk. now apply other_key_up.
Qed.

Lemma other_key_release_is_handed_on_witness :
  keyevent noHostKey noHostChar defaultSettings (buildLayout defaultSettings)
    HC_ACTION WM_KEYUP (lparam (keyUpOf 0x55 30)) initialState
  = Some (CallNextHookEx, initialState,
          [LogKeyEvent "key up" (lparam (keyUpOf 0x55 30))]).
Proof.
  exact (other_key_release_is_handed_on noHostKey noHostChar defaultSettings
           (buildLayout defaultSettings) WM_KEYUP (lparam (keyUpOf 0x55 30))
           initialState eq_refl eq_refl eq_refl eq_refl).
Defined.

(** X13. Bypass mode entered while [shiftPressed] is clear, as the
    entry of the tray menu does by calling [toggleBypassMode], cannot
    be left from the keyboard: whatever calls follow, each is handed on,
    nothing is synthesized and the state stays as it is, because the
    hook no longer notes a shift key. *)
Theorem bypass_without_shift_is_permanent :
  forall (VkKeyScanEx : N -> Z) (MapVirtualKeyA : N -> N) (s : Settings)
         (l : Layout) (cs : list HookCall) (st : State),
    bypassMode st = true -> shiftPressed st = false ->
    exists o : list Effect,
      run VkKeyScanEx MapVirtualKeyA s l cs st
      = Some (map (fun _ => CallNextHookEx) cs, st, o)
      /\ existsb isSynthInput o = false.
Proof. intros Vk Map s l cs st. apply bypass_locked_run. Qed.

(** After the tray menu has switched bypass mode on, shift and pause
    are handed on like any other key. *)
Lemma bypass_without_shift_is_permanent_witness :
  exists o : list Effect,
    run noHostKey noHostChar defaultSettings (buildLayout defaultSettings)
      [keyDownOf VK_LSHIFT 42; keyDownOf 0x13 69]
      (set_bypassMode true initialState)
    = Some ([CallNextHookEx; CallNextHookEx],
            set_bypassMode true initialState, o)
    /\ existsb isSynthInput o = false.
Proof.
  exact (bypass_without_shift_is_permanent noHostKey noHostChar
           defaultSettings (buildLayout defaultSettings)
           [keyDownOf VK_LSHIFT 42; keyDownOf 0x13 69]
           (set_bypassMode true initialState) eq_refl eq_refl).
Defined.

(** X14. A left system key (left control with scan code 29, left alt,
    left win) is consumed and replaced by the key [relabel] gives, one
    of the three: the key-down branch and the key-up branch send the
    same key and set and clear the pressed flag of the key they send.
    Without a swap the key sent is the key pressed. *)
Theorem left_system_key_relabelled :
  forall (VkKeyScanEx : N -> Z) (MapVirtualKeyA : N -> N) (s : Settings)
         (l : Layout) (w : N) (k : KBDLLHOOKSTRUCT) (st : State),
    leftSystemKey k = true -> injected k = false -> bypassMode st = false ->
    In (relabel s k) [VK_LCONTROL; VK_LMENU; VK_LWIN]
    /\ (isKeyDownMsg w = true ->
        shiftPressed st && (scanCode k =? 69) = false ->
        keyevent VkKeyScanEx MapVirtualKeyA s l HC_ACTION w k st
        = Some (Consumed, setPressed (relabel s k) true (clearTaps st),
                [LogKeyEvent (String (Ascii.ascii_of_nat 10) "key down") k;
                 KeybdEvent (relabel s k) 0 0 0]))
    /\ (isKeyUpMsg w = true -> isMod3 s k = false -> isMod4 s k = false ->
        keyevent VkKeyScanEx MapVirtualKeyA s l HC_ACTION w k st
        = Some (Consumed, setPressed (relabel s k) false st,
                [LogKeyEvent "key up" k;
                 KeybdEvent (relabel s k) 0 KEYEVENTF_KEYUP 0]))
    /\ (swapLeftCtrlAndLeftAlt s = false ->
        swapLeftCtrlLeftAltAndLeftWin s = false -> relabel s k = vkCode k).
Proof.
  intros Vk Map s l w k st Hk Hi Hbp. split; [|split; [|split]].
  - unfold relabel.
    repeat match goal with
      | |- context [if ?c then _ else _] => destruct c
      end; cbn; tauto.
  - intros Hw Hp. now apply left_system_key_down.
  - intros Hw H3 H4. now apply left_system_key_up.
  - intros S1 S2. unfold relabel, leftSystemKey in *. rewrite S1, S2.
    cbn [orb].
    destruct ((vkCode k =? VK_LCONTROL) && (scanCode k =? 29)) eqn:E1.
    + apply andb_prop in E1 as [E1 _]. now apply N.eqb_eq in E1.
    + destruct (vkCode k =? VK_LMENU) eqn:E2;
        [now apply N.eqb_eq in E2|].
      cbn [orb] in Hk. now apply N.eqb_eq in Hk.
Qed.

(** Left control with the swap of left control and left alt. *)
Lemma left_system_key_relabelled_witness :
  relabel (sanitize (set_swap true defaultSettings))
    (lparam (keyDownOf VK_LCONTROL 29)) = VK_LMENU
  /\ keyevent noHostKey noHostChar (sanitize (set_swap true defaultSettings))
       (buildLayout defaultSettings) HC_ACTION WM_KEYDOWN
       (lparam (keyDownOf VK_LCONTROL 29)) initialState
     = Some (Consumed, set_altLeftPressed true (clearTaps initialState),
             [LogKeyEvent (String (Ascii.ascii_of_nat 10) "key down")
                (lparam (keyDownOf VK_LCONTROL 29));
              KeybdEvent VK_LMENU 0 0 0]).
Proof.
  split; [reflexivity|].
  exact (proj1 (proj2 (left_system_key_relabelled noHostKey noHostChar
                         (sanitize (set_swap true defaultSettings))
                         (buildLayout defaultSettings) WM_KEYDOWN
                         (lparam (keyDownOf VK_LCONTROL 29)) initialState
                         eq_refl eq_refl eq_refl))
           eq_refl eq_refl).
Defined.

(** X15. With sanitized settings no two of the left system keys are
    replaced by the same key: two key-downs of left system keys that
    make the hook press the same virtual key are key-downs of the same
    key. *)
Theorem sanitized_system_keys_distinct :
  forall (VkKeyScanEx : N -> Z) (MapVirtualKeyA : N -> N) (s : Settings)
         (l : Layout) (w1 w2 : N) (k1 k2 : KBDLLHOOKSTRUCT)
         (st1 st2 st1' st2' : State) (r1 r2 : HookResult)
         (o1 o2 : list Effect) (v : N),
    leftSystemKey k1 = true -> leftSystemKey k2 = true ->
    isKeyDownMsg w1 = true -> isKeyDownMsg w2 = true ->
    keyevent VkKeyScanEx MapVirtualKeyA (sanitize s) l HC_ACTION w1 k1 st1
    = Some (r1, st1', o1) ->
    keyevent VkKeyScanEx MapVirtualKeyA (sanitize s) l HC_ACTION w2 k2 st2
    = Some (r2, st2', o2) ->
    In (KeybdEvent v 0 0 0) o1 -> In (KeybdEvent v 0 0 0) o2 ->
    vkCode k1 = vkCode k2.
Proof.
  intros Vk Map s l w1 w2 k1 k2 st1 st2 st1' st2' r1 r2 o1 o2 v
    Hk1 Hk2 Hw1 Hw2 H1 H2 Hin1 Hin2.
  apply (relabel_injective (sanitize s)); auto.
  - apply sanitize_settles.
  - rewrite <- (left_system_key_sends _ _ _ _ _ _ _ _ _ _ _ Hk1 Hw1 H1 Hin1).
    exact (left_system_key_sends _ _ _ _ _ _ _ _ _ _ _ Hk2 Hw2 H2 Hin2).
Qed.

(** Left control pressed twice, the second time with the swap of the
    three keys asked for as well, which [sanitize] gives precedence. *)
Lemma sanitized_system_keys_distinct_witness :
  vkCode (lparam (keyDownOf VK_LCONTROL 29))
  = vkCode {| vkCode := VK_LCONTROL; scanCode := 29; flags := 0; time := 7;
              dwExtraInfo := 0 |}.
Proof.
  exact (sanitized_system_keys_distinct noHostKey noHostChar
           defaultSettings (buildLayout defaultSettings)
           WM_KEYDOWN WM_SYSKEYDOWN
           (lparam (keyDownOf VK_LCONTROL 29))
           {| vkCode := VK_LCONTROL; scanCode := 29; flags := 0; time := 7;
              dwExtraInfo := 0 |}
           initialState shiftLeftHeld _ _ _ _ _ _ VK_LCONTROL
           eq_refl eq_refl eq_refl eq_refl eq_refl eq_refl
           ltac:(right; left; reflexivity) ltac:(right; left; reflexivity)).
Defined.

(** *** Taps and the level-4 lock *)

Section Gestures.

Variable VkKeyScanEx : N -> Z.
Variable MapVirtualKeyA : N -> N.
Variable s : Settings.
Variable l : Layout.

Local Abbreviation keyevent' := (keyevent VkKeyScanEx MapVirtualKeyA s l).
Local Abbreviation run' := (run VkKeyScanEx MapVirtualKeyA s l).

Lemma bypassMode_setRightPressed (k : KBDLLHOOKSTRUCT) (b : bool) (st : State) :
  bypassMode (setRightPressed k b (clearTaps st)) = bypassMode st.
Proof.
  unfold setRightPressed.
  destruct (vkCode k =? VK_RCONTROL), (vkCode k =? VK_RWIN); reflexivity.
Qed.

Lemma locks_setRightPressed (k : KBDLLHOOKSTRUCT) (b : bool) (st : State) :
  locks (setRightPressed k b (clearTaps st)) = locks st.
Proof.
  unfold setRightPressed.
  destruct (vkCode k =? VK_RCONTROL), (vkCode k =? VK_RWIN); reflexivity.
Qed.

(** The left mod3 key pressed and released with nothing in between. *)
Lemma mod3_left_tap (wd wu : N) (kd ku : KBDLLHOOKSTRUCT) (st : State) :
  capsLockAsEscape s = true ->
  isKeyDownMsg wd = true -> isKeyUpMsg wu = true -> bypassMode st = false ->
  mod3LeftKey s kd = true -> mod3LeftKey s ku = true ->
  shiftPressed st && (scanCode kd =? 69) = false ->
  exists st' : State,
    run' [callOf wd kd; callOf wu ku] st
    = Some ([Consumed; Consumed], st',
            [LogKeyEvent (String (Ascii.ascii_of_nat 10) "key down") kd;
             LogKeyEvent "key up" ku;
             KeybdEvent VK_CAPITAL 0 KEYEVENTF_KEYUP 0;
             KeybdEvent VK_ESCAPE 0 LLKHF_EXTENDED 0])
    /\ mod3Pressed st' = true
    /\ level3modLeftPressed st' = false
    /\ level3modRightPressed st' = level3modRightPressed st
    /\ level3modLeftAndNoOtherKeyPressed st' = false
    /\ locks st' = locks st.
Proof.
  intros Hset Hwd Hwu Hbp Hkd Hku Hp.
  pose proof Hkd as Hd. unfold mod3LeftKey in Hd. split_bools Hd.
  assert (Hm : isMod3 s kd || isMod4 s kd = true) by now rewrite_bools.
  pose proof (modifier_key_press VkKeyScanEx MapVirtualKeyA s l wd kd st
                Hwd Hd Hbp Hp Hb1 Hb2 Hm) as E1.
  cbv zeta in E1. rewrite Hb0, Hb in E1. cbn [negb andb] in E1.
  match type of E1 with _ = Some (_, ?x, _) => set (st1 := x) in * end.
  assert (Hbp1 : bypassMode st1 = false)
    by (subst st1; cbn; now rewrite bypassMode_setRightPressed).
  pose proof (mod3_left_release VkKeyScanEx MapVirtualKeyA s l wu ku st1
                Hwu Hbp1 Hku) as E2.
  rewrite Hset in E2. cbn [andb] in E2.
  change (level3modLeftAndNoOtherKeyPressed st1) with true in E2.
  cbv iota in E2.
  eexists. split; [exact (run_two VkKeyScanEx MapVirtualKeyA s l
                            (callOf wd kd) (callOf wu ku) _ _ _ _ _ _ _ E1 E2)|].
  subst st1. cbn. rewrite <- (locks_setRightPressed kd true st).
  unfold setRightPressed.
  destruct (vkCode kd =? VK_RCONTROL), (vkCode kd =? VK_RWIN);
    repeat split; reflexivity.
Qed.

(** The left mod4 key pressed and released with nothing in between. *)
Lemma mod4_left_tap (wd wu : N) (kd ku : KBDLLHOOKSTRUCT) (st : State) :
  mod4LAsTab s = true ->
  isKeyDownMsg wd = true -> isKeyUpMsg wu = true -> bypassMode st = false ->
  mod4LeftKey s kd = true -> mod4LeftKey s ku = true ->
  shiftPressed st && (scanCode kd =? 69) = false ->
  level4modRightPressed st && level4LockEnabled s = false ->
  exists st' : State,
    run' [callOf wd kd; callOf wu ku] st
    = Some ([Consumed; Consumed], st',
            [LogKeyEvent (String (Ascii.ascii_of_nat 10) "key down") kd;
             LogKeyEvent "key up" ku;
             KeybdEvent (vkCode ku mod 256) 0 KEYEVENTF_KEYUP 0;
             KeybdEvent VK_TAB 0 LLKHF_EXTENDED 0])
    /\ mod4Pressed st' = true
    /\ level4modLeftPressed st' = false
    /\ level4modRightPressed st' = level4modRightPressed st
    /\ level4modLeftAndNoOtherKeyPressed st' = false
    /\ locks st' = locks st.
Proof.
  intros Hset Hwd Hwu Hbp Hkd Hku Hp Hlock.
  pose proof Hkd as Hd. unfold mod4LeftKey in Hd.
  apply andb_prop in Hd as [Hd Hsc]. unfold mod4Key in Hd. split_bools Hd.
  pose proof Hku as Hu. unfold mod4LeftKey in Hu.
  apply andb_prop in Hu as [Hu Hscu].
  assert (Hm : isMod3 s kd || isMod4 s kd = true)
    by (rewrite_bools; reflexivity).
  pose proof (modifier_key_press VkKeyScanEx MapVirtualKeyA s l wd kd st
                Hwd Hd Hbp Hp Hb1 Hb2 Hm) as E1.
  cbv zeta in E1. rewrite Hb0, Hsc in E1. cbn [negb andb] in E1.
  match type of E1 with _ = Some (_, ?x, _) => set (st1 := x) in * end.
  assert (Hbp1 : bypassMode st1 = false)
    by (subst st1; cbn; now rewrite bypassMode_setRightPressed).
  assert (Hr1 : level4modRightPressed st1 = level4modRightPressed st).
  { subst st1. cbn. unfold setRightPressed.
    destruct (vkCode kd =? VK_RCONTROL), (vkCode kd =? VK_RWIN); reflexivity. }
  pose proof (mod4_release VkKeyScanEx MapVirtualKeyA s l wu ku st1
                Hwu Hbp1 Hu) as E2.
  cbv zeta in E2. unfold otherMod4Held in E2.
  rewrite Hscu, Hr1, Hlock, Hset in E2. cbn [andb] in E2.
  change (level4modLeftAndNoOtherKeyPressed st1) with true in E2.
  cbv iota in E2.
  eexists. split; [exact (run_two VkKeyScanEx MapVirtualKeyA s l
                            (callOf wd kd) (callOf wu ku) _ _ _ _ _ _ _ E1 E2)|].
  subst st1. cbn. rewrite <- (locks_setRightPressed kd true st).
  unfold setRightPressed.
  destruct (vkCode kd =? VK_RCONTROL), (vkCode kd =? VK_RWIN);
    repeat split; reflexivity.
Qed.

(** The key-down of a key that is no left system key, up to the rest
    of the branch. *)
Lemma key_down_other (w : N) (k : KBDLLHOOKSTRUCT) (st : State) :
  isKeyDownMsg w = true -> injected k = false -> bypassMode st = false ->
  shiftPressed st && (scanCode k =? 69) = false ->
  leftSystemKey k = false ->
  keyevent' HC_ACTION w k st
  = match keyDownMapping VkKeyScanEx MapVirtualKeyA s l k
            (setRightPressed k true (clearTaps st)) with
    | Some (r, st', o) =>
        Some (r, st',
              LogKeyEvent (String (Ascii.ascii_of_nat 10) "key down") k :: o)
    | None => None
    end.
Proof.
  intros Hw Hi Hbp Hp Hk.
  rewrite keyevent_keyDown by assumption. now apply keyDownBranch_other.
Qed.

Lemma capsLockActive_setRightPressed (k : KBDLLHOOKSTRUCT) (b : bool) (st : State) :
  capsLockActive (setRightPressed k b (clearTaps st)) = capsLockActive st.
Proof.
  unfold setRightPressed.
  destruct (vkCode k =? VK_RCONTROL), (vkCode k =? VK_RWIN); reflexivity.
Qed.

Lemma table_read_special (lvl : Level) (sc c : N) :
  wfLayout l = true -> mapScanCodeToChar l lvl sc = Some c ->
  is_Some (level4Special l sc).
Proof.
  intros Hwf Hc. apply level4Special_defined; [assumption|].
  apply (mapScanCodeToChar_defined l lvl sc Hwf). rewrite Hc. eauto.
Qed.

End Gestures.

(** X16. With [capsLockAsEscape] set, the left mod3 key pressed and
    released with nothing in between is consumed and sends the release
    of [VK_CAPITAL] and then Escape.  The release returns before
    [mod3Pressed] is recomputed: it stays set although the key is no
    longer held. *)
Theorem mod3L_tap_sends_escape :
  forall (VkKeyScanEx : N -> Z) (MapVirtualKeyA : N -> N) (s : Settings)
         (l : Layout) (wd wu : N) (kd ku : KBDLLHOOKSTRUCT) (st : State),
    capsLockAsEscape s = true ->
    isKeyDownMsg wd = true -> isKeyUpMsg wu = true -> bypassMode st = false ->
    mod3LeftKey s kd = true -> mod3LeftKey s ku = true ->
    shiftPressed st && (scanCode kd =? 69) = false ->
    exists st' : State,
      run VkKeyScanEx MapVirtualKeyA s l [callOf wd kd; callOf wu ku] st
      = Some ([Consumed; Consumed], st',
              [LogKeyEvent (String (Ascii.ascii_of_nat 10) "key down") kd;
               LogKeyEvent "key up" ku;
               KeybdEvent VK_CAPITAL 0 KEYEVENTF_KEYUP 0;
               KeybdEvent VK_ESCAPE 0 LLKHF_EXTENDED 0])
      /\ mod3Pressed st' = true
      /\ level3modLeftPressed st' = false
      /\ level3modRightPressed st' = level3modRightPressed st
      /\ level3modLeftAndNoOtherKeyPressed st' = false
      /\ locks st' = locks st.
Proof. intros Vk Map s l wd wu kd ku st. apply mod3_left_tap. Qed.

Lemma mod3L_tap_sends_escape_witness :
  exists st' : State,
    run noHostKey noHostChar gestureSettings (buildLayout gestureSettings)
      [keyDownOf VK_CAPITAL 58; keyUpOf VK_CAPITAL 58] initialState
    = Some ([Consumed; Consumed], st',
            [LogKeyEvent (String (Ascii.ascii_of_nat 10) "key down")
               (lparam (keyDownOf VK_CAPITAL 58));
             LogKeyEvent "key up" (lparam (keyUpOf VK_CAPITAL 58));
             KeybdEvent VK_CAPITAL 0 KEYEVENTF_KEYUP 0;
             KeybdEvent VK_ESCAPE 0 LLKHF_EXTENDED 0])
    /\ mod3Pressed st' = true
    /\ level3modLeftPressed st' = false
    /\ level3modRightPressed st' = false
    /\ level3modLeftAndNoOtherKeyPressed st' = false
    /\ locks st' = locks initialState.
Proof.
  exact (mod3L_tap_sends_escape noHostKey noHostChar gestureSettings
           (buildLayout gestureSettings) WM_KEYDOWN WM_KEYUP
           (lparam (keyDownOf VK_CAPITAL 58)) (lparam (keyUpOf VK_CAPITAL 58))
           initialState eq_refl eq_refl eq_refl eq_refl eq_refl eq_refl
           eq_refl).
Defined.

(** X17. With [mod4LAsTab] set, the left mod4 key pressed and released
    with nothing in between is consumed and sends the release of the
    key and then Tab, unless the release toggles the level-4 lock (the
    right mod4 key held and the lock enabled).  The release returns
    before [mod4Pressed] is recomputed: it stays set. *)
Theorem mod4L_tap_sends_tab :
  forall (VkKeyScanEx : N -> Z) (MapVirtualKeyA : N -> N) (s : Settings)
         (l : Layout) (wd wu : N) (kd ku : KBDLLHOOKSTRUCT) (st : State),
    mod4LAsTab s = true ->
    isKeyDownMsg wd = true -> isKeyUpMsg wu = true -> bypassMode st = false ->
    mod4LeftKey s kd = true -> mod4LeftKey s ku = true ->
    shiftPressed st && (scanCode kd =? 69) = false ->
    level4modRightPressed st && level4LockEnabled s = false ->
    exists st' : State,
      run VkKeyScanEx MapVirtualKeyA s l [callOf wd kd; callOf wu ku] st
      = Some ([Consumed; Consumed], st',
              [LogKeyEvent (String (Ascii.ascii_of_nat 10) "key down") kd;
               LogKeyEvent "key up" ku;
               KeybdEvent (vkCode ku mod 256) 0 KEYEVENTF_KEYUP 0;
               KeybdEvent VK_TAB 0 LLKHF_EXTENDED 0])
      /\ mod4Pressed st' = true
      /\ level4modLeftPressed st' = false
      /\ level4modRightPressed st' = level4modRightPressed st
      /\ level4modLeftAndNoOtherKeyPressed st' = false
      /\ locks st' = locks st.
Proof. intros Vk Map s l wd wu kd ku st. apply mod4_left_tap. Qed.

Lemma mod4L_tap_sends_tab_witness :
  exists st' : State,
    run noHostKey noHostChar gestureSettings (buildLayout gestureSettings)
      [keyDownOf 0xE2 86; keyUpOf 0xE2 86] initialState
    = Some ([Consumed; Consumed], st',
            [LogKeyEvent (String (Ascii.ascii_of_nat 10) "key down")
               (lparam (keyDownOf 0xE2 86));
             LogKeyEvent "key up" (lparam (keyUpOf 0xE2 86));
             KeybdEvent 0xE2 0 KEYEVENTF_KEYUP 0;
             KeybdEvent VK_TAB 0 LLKHF_EXTENDED 0])
    /\ mod4Pressed st' = true
    /\ level4modLeftPressed st' = false
    /\ level4modRightPressed st' = false
    /\ level4modLeftAndNoOtherKeyPressed st' = false
    /\ locks st' = locks initialState.
Proof.
  exact (mod4L_tap_sends_tab noHostKey noHostChar gestureSettings
           (buildLayout gestureSettings) WM_KEYDOWN WM_KEYUP
           (lparam (keyDownOf 0xE2 86)) (lparam (keyUpOf 0xE2 86))
           initialState eq_refl eq_refl eq_refl eq_refl eq_refl eq_refl
           eq_refl eq_refl).
Defined.

(** X18. The release of a mod4 key is consumed and flips
    [level4LockActive] exactly when the other mod4 key is held and
    [level4LockEnabled] is set; [mod4Pressed] then stays set and the
    new value is logged; the shift lock and the caps lock stay.  No
    other call changes [level4LockActive]. *)
Theorem level4_lock_toggles_on_mod4_release :
  forall (VkKeyScanEx : N -> Z) (MapVirtualKeyA : N -> N) (s : Settings)
         (l : Layout),
    (forall (w : N) (k : KBDLLHOOKSTRUCT) (st : State),
        isKeyUpMsg w = true -> bypassMode st = false -> mod4Key s k = true ->
        exists (st' : State) (o : list Effect),
          keyevent VkKeyScanEx MapVirtualKeyA s l HC_ACTION w k st
          = Some (Consumed, st', o)
          /\ level4LockActive st'
             = xorb (level4LockActive st)
                 (otherMod4Held s k st && level4LockEnabled s)
          /\ shiftLockActive st' = shiftLockActive st
          /\ capsLockActive st' = capsLockActive st
          /\ (otherMod4Held s k st && level4LockEnabled s = true ->
              mod4Pressed st' = true
              /\ In (LogActivation "Level4 lock" (level4LockActive st')) o))
    /\ (forall (c : Z) (w : N) (k : KBDLLHOOKSTRUCT) (st st' : State)
               (r : HookResult) (o : list Effect),
          keyevent VkKeyScanEx MapVirtualKeyA s l c w k st = Some (r, st', o) ->
          level4LockActive st' = level4LockActive st
          \/ (isKeyUpMsg w = true /\ isMod4 s k = true
              /\ level4LockEnabled s = true)).
Proof.
  intros Vk Map s l. split.
  - intros w k st Hw Hbp Hk.
    pose proof (mod4_release Vk Map s l w k st Hw Hbp Hk) as E.
    cbv zeta in E.
    destruct (otherMod4Held s k st && level4LockEnabled s) eqn:Ht.
    + do 2 eexists. split; [exact E|].
      destruct (scanCode k =? scanCodeMod4L s); cbn;
        rewrite xorb_true_r; repeat split; auto.
    + destruct ((scanCode k =? scanCodeMod4L s) && mod4LAsTab s
                && level4modLeftAndNoOtherKeyPressed st);
        (do 2 eexists; split; [exact E|]);
        destruct (scanCode k =? scanCodeMod4L s); cbn;
        rewrite xorb_false_r; repeat split; auto; discriminate.
  - intros c w k st st' r o H.
    pose proof (wpg_partial _ _ _ _ _ _
                  (keyevent_modifiers Vk Map s l c w k st) H) as Hm.
    cbv beta in Hm. tauto.
Qed.

(** The right mod4 key released while the left one is held. *)
Lemma level4_lock_toggles_on_mod4_release_witness :
  exists (st' : State) (o : list Effect),
    keyevent noHostKey noHostChar gestureSettings
      (buildLayout gestureSettings) HC_ACTION WM_KEYUP
      (lparam (keyUpOf VK_RMENU 56))
      (set_level4modRightPressed true
         (set_level4modLeftPressed true (set_mod4Pressed true initialState)))
    = Some (Consumed, st', o)
    /\ level4LockActive st' = true.
Proof.
  destruct (proj1 (level4_lock_toggles_on_mod4_release noHostKey noHostChar
                     gestureSettings (buildLayout gestureSettings))
              WM_KEYUP (lparam (keyUpOf VK_RMENU 56))
              (set_level4modRightPressed true
                 (set_level4modLeftPressed true
                    (set_mod4Pressed true initialState)))
              eq_refl eq_refl eq_refl)
    as (st' & o & E & Hl & _).
  exists st', o. split; [exact E | exact Hl].
Defined.

(** *** Keys that are mapped *)

(** X19. The key-down of a key that is no modifier, no left system key
    and not on the numeric keypad, that no special case of the level
    takes and that no shortcut exempts, is answered from the table of
    the level [level] gives for the state before the event: an entry 0
    hands the event on with nothing sent; any other entry is logged and
    sent by [sendChar], and the event is consumed.  This is for an
    event that is not injected and not the Shift+Pause toggle, with
    bypass mode off, and with the caps lock off or the level above 2
    (the caps lock does not interfere above level 2).  The state only
    loses the tap flags and notes a right system key. *)
Theorem key_down_sends_table_entry :
  forall (VkKeyScanEx : N -> Z) (MapVirtualKeyA : N -> N) (s : Settings)
         (l : Layout) (w : N) (k : KBDLLHOOKSTRUCT) (st : State) (c : N),
    wfLayout l = true ->
    isKeyDownMsg w = true -> injected k = false -> bypassMode st = false ->
    shiftPressed st && (scanCode k =? 69) = false ->
    otherKey s k = true ->
    (0x60 <=? vkCode k) && (vkCode k <=? 0x6F) = false ->
    qwertzForShortcuts s
    && isSystemKeyPressed (setRightPressed k true (clearTaps st)) = false ->
    specialCase l (level s st) (scanCode k) = false ->
    capsLockActive st
    && (Level_eqb (level s st) LEVEL_1 || Level_eqb (level s st) LEVEL_2)
    = false ->
    mapScanCodeToChar l (level s st) (scanCode k) = Some c ->
    let st1 := setRightPressed k true (clearTaps st) in
    exists o : list Effect,
      sendChar VkKeyScanEx c k st1 = Some (tt, st1, o)
      /\ keyevent VkKeyScanEx MapVirtualKeyA s l HC_ACTION w k st
         = if c =? 0 then
             Some (CallNextHookEx, st1,
                   [LogKeyEvent (String (Ascii.ascii_of_nat 10) "key down") k])
           else
             Some (Consumed, st1,
                   LogKeyEvent (String (Ascii.ascii_of_nat 10) "key down") k
                   :: LogMapped (scanCode k) (MapVirtualKeyA (vkCode k)) c
                        (level s st)
                   :: o).
Proof.
  intros Vk Map s l w k st c Hwf Hw Hi Hbp Hp Hk Hn Hq Hsp Hcaps Hc st1.
  unfold otherKey in Hk. split_bools Hk.
  rewrite key_down_other by assumption. fold st1.
  assert (Hl : level s st1 = level s st) by apply level_setRightPressed.
  destruct (keyDownMapping_mapped Vk Map s l k st1 c) as (o & Ho & E);
    rewrite ?Hl; try assumption.
  - now apply (table_read_special l (level s st) _ c).
  - subst st1. now rewrite capsLockActive_setRightPressed.
  - exists o. split; [exact Ho|]. rewrite E, Hl.
    destruct (c =? 0); reflexivity.
Qed.

(** The key of scan code 30 on neo, nothing held, no key for the
    character on the host layout: u goes out as Unicode input. *)
Lemma key_down_sends_table_entry_witness :
  keyevent noHostKey noHostChar defaultSettings (buildLayout defaultSettings)
    HC_ACTION WM_KEYDOWN (lparam (keyDownOf 0x41 30)) initialState
  = Some (Consumed, initialState,
          [LogKeyEvent (String (Ascii.ascii_of_nat 10) "key down")
             (lparam (keyDownOf 0x41 30));
           LogMapped 30 0 117 LEVEL_1;
           SendUnicode 117]).
Proof.
  destruct (key_down_sends_table_entry noHostKey noHostChar defaultSettings
              (buildLayout defaultSettings) WM_KEYDOWN
              (lparam (keyDownOf 0x41 30)) initialState 117
              eq_refl eq_refl eq_refl eq_refl eq_refl eq_refl eq_refl
              eq_refl eq_refl eq_refl eq_refl)
    as (o & Ho & E).
  injection Ho as <-. exact E.
Defined.

(** X20. With the caps lock active, on levels 1 and 2 a key whose
    character on the active level is a letter sends the character of
    the other of the two levels, any other key its own; and because a
    lock is active the character goes out as one Unicode input.  The
    key is one the table decides: no modifier, no left system key, not
    on the numeric keypad, taken by no special case of the level and
    exempted by no shortcut; the event is not injected and bypass mode
    is off. *)
Theorem caps_lock_swaps_letter_levels :
  forall (VkKeyScanEx : N -> Z) (MapVirtualKeyA : N -> N) (s : Settings)
         (l : Layout) (w : N) (k : KBDLLHOOKSTRUCT) (st : State) (c c' : N),
    wfLayout l = true ->
    isKeyDownMsg w = true -> injected k = false -> bypassMode st = false ->
    shiftPressed st && (scanCode k =? 69) = false ->
    otherKey s k = true ->
    (0x60 <=? vkCode k) && (vkCode k <=? 0x6F) = false ->
    qwertzForShortcuts s
    && isSystemKeyPressed (setRightPressed k true (clearTaps st)) = false ->
    specialCase l (level s st) (scanCode k) = false ->
    capsLockActive st = true ->
    Level_eqb (level s st) LEVEL_1 || Level_eqb (level s st) LEVEL_2 = true ->
    mapScanCodeToChar l (level s st) (scanCode k) = Some c ->
    mapScanCodeToChar l
      (if Level_eqb (level s st) LEVEL_1 then LEVEL_2 else LEVEL_1)
      (scanCode k) = Some c' ->
    let st1 := setRightPressed k true (clearTaps st) in
    let key := if isLetter c then c' else c in
    keyevent VkKeyScanEx MapVirtualKeyA s l HC_ACTION w k st
    = if key =? 0 then
        Some (CallNextHookEx, st1,
              [LogKeyEvent (String (Ascii.ascii_of_nat 10) "key down") k])
      else
        Some (Consumed, st1,
              [LogKeyEvent (String (Ascii.ascii_of_nat 10) "key down") k;
               LogMapped (scanCode k) (MapVirtualKeyA (vkCode k)) key
                 (level s st);
               SendUnicode key]).
Proof.
  intros Vk Map s l w k st c c' Hwf Hw Hi Hbp Hp Hk Hn Hq Hsp Hcaps Hlv
    Hc Hc' st1 key.
  unfold otherKey in Hk. split_bools Hk.
  rewrite key_down_other by assumption. fold st1.
  assert (Hl : level s st1 = level s st) by apply level_setRightPressed.
  rewrite (keyDownMapping_caps Vk Map s l k st1 c c'); rewrite ?Hl;
    try assumption.
  - cbv zeta. fold key. destruct (key =? 0); reflexivity.
  - now apply (table_read_special l (level s st) _ c).
  - subst st1. now rewrite capsLockActive_setRightPressed.
Qed.

(** With the caps lock active on neo, the key of u sends U and the key
    of the digit 1 sends 1. *)
Lemma caps_lock_swaps_letter_levels_witness :
  keyevent noHostKey noHostChar capsLockSettings
    (buildLayout capsLockSettings) HC_ACTION WM_KEYDOWN
    (lparam (keyDownOf 0x41 30)) (set_capsLockActive true initialState)
  = Some (Consumed, set_capsLockActive true initialState,
          [LogKeyEvent (String (Ascii.ascii_of_nat 10) "key down")
             (lparam (keyDownOf 0x41 30));
           LogMapped 30 0 85 LEVEL_1;
           SendUnicode 85])
  /\ keyevent noHostKey noHostChar capsLockSettings
       (buildLayout capsLockSettings) HC_ACTION WM_KEYDOWN
       (lparam (keyDownOf 0x31 2)) (set_capsLockActive true initialState)
     = Some (Consumed, set_capsLockActive true initialState,
             [LogKeyEvent (String (Ascii.ascii_of_nat 10) "key down")
                (lparam (keyDownOf 0x31 2));
              LogMapped 2 0 49 LEVEL_1;
              SendUnicode 49]).
Proof.
  split.
  - exact (caps_lock_swaps_letter_levels noHostKey noHostChar
             capsLockSettings (buildLayout capsLockSettings) WM_KEYDOWN
             (lparam (keyDownOf 0x41 30))
             (set_capsLockActive true initialState) 117 85
             eq_refl eq_refl eq_refl eq_refl eq_refl eq_refl eq_refl
             eq_refl eq_refl eq_refl eq_refl eq_refl eq_refl).
  - exact (caps_lock_swaps_letter_levels noHostKey noHostChar
             capsLockSettings (buildLayout capsLockSettings) WM_KEYDOWN
             (lparam (keyDownOf 0x31 2))
             (set_capsLockActive true initialState) 49 176
             eq_refl eq_refl eq_refl eq_refl eq_refl eq_refl eq_refl
             eq_refl eq_refl eq_refl eq_refl eq_refl eq_refl).
Defined.

(** X21. On level 4 a key with a non-zero entry in the action table,
    other than the three dead keys of the level, is consumed and sends
    the key-down of that virtual key with the extended flag: keypad
    keys and shortcuts included, and with no release of its own. *)
Theorem level4_action_key_sent :
  forall (VkKeyScanEx : N -> Z) (MapVirtualKeyA : N -> N) (s : Settings)
         (l : Layout) (w : N) (k : KBDLLHOOKSTRUCT) (st : State) (a : N),
    isKeyDownMsg w = true -> injected k = false -> bypassMode st = false ->
    shiftPressed st && (scanCode k =? 69) = false ->
    otherKey s k = true ->
    level s st = LEVEL_4 ->
    (scanCode k =? 13) || (scanCode k =? 27) || (scanCode k =? 41) = false ->
    level4Special l (scanCode k) = Some a -> (a =? 0) = false ->
    keyevent VkKeyScanEx MapVirtualKeyA s l HC_ACTION w k st
    = Some (Consumed, setRightPressed k true (clearTaps st),
            [LogKeyEvent (String (Ascii.ascii_of_nat 10) "key down") k;
             KeybdEvent (a mod 256) 0 LLKHF_EXTENDED 0]).
Proof.
  intros Vk Map s l w k st a Hw Hi Hbp Hp Hk Hlv Hsc Ha Hnz.
  unfold otherKey in Hk. split_bools Hk.
  rewrite key_down_other by assumption.
  rewrite (keyDownMapping_action Vk Map s l k _ a); try assumption.
  - reflexivity.
  - now rewrite level_setRightPressed.
Qed.

(** With the left mod4 key held on neo, the key of scan code 31 is
    the left arrow. *)
Lemma level4_action_key_sent_witness :
  keyevent noHostKey noHostChar defaultSettings (buildLayout defaultSettings)
    HC_ACTION WM_KEYDOWN (lparam (keyDownOf 0x53 31))
    (set_level4modLeftPressed true (set_mod4Pressed true initialState))
  = Some (Consumed,
          set_level4modLeftPressed true (set_mod4Pressed true initialState),
          [LogKeyEvent (String (Ascii.ascii_of_nat 10) "key down")
             (lparam (keyDownOf 0x53 31));
           KeybdEvent VK_LEFT 0 LLKHF_EXTENDED 0]).
Proof.
  exact (level4_action_key_sent noHostKey noHostChar defaultSettings
           (buildLayout defaultSettings) WM_KEYDOWN
           (lparam (keyDownOf 0x53 31))
           (set_level4modLeftPressed true (set_mod4Pressed true initialState))
           VK_LEFT eq_refl eq_refl eq_refl eq_refl eq_refl eq_refl eq_refl
           eq_refl eq_refl).
Defined.

(** X22. A key of the numeric keypad, and with [qwertzForShortcuts]
    any key while control, left alt or win is held, is not remapped:
    unless a special case of the level takes it, the key-down is handed
    on with nothing sent. *)
Theorem numpad_and_shortcuts_not_remapped :
  forall (VkKeyScanEx : N -> Z) (MapVirtualKeyA : N -> N) (s : Settings)
         (l : Layout) (w : N) (k : KBDLLHOOKSTRUCT) (st : State),
    wfLayout l = true -> scanCode k < 103 ->
    isKeyDownMsg w = true -> injected k = false -> bypassMode st = false ->
    shiftPressed st && (scanCode k =? 69) = false ->
    otherKey s k = true ->
    specialCase l (level s st) (scanCode k) = false ->
    ((0x60 <=? vkCode k) && (vkCode k <=? 0x6F))
    || (qwertzForShortcuts s
        && isSystemKeyPressed (setRightPressed k true (clearTaps st))) = true ->
    keyevent VkKeyScanEx MapVirtualKeyA s l HC_ACTION w k st
    = Some (CallNextHookEx, setRightPressed k true (clearTaps st),
            [LogKeyEvent (String (Ascii.ascii_of_nat 10) "key down") k]).
Proof.
  intros Vk Map s l w k st Hwf Hsc Hw Hi Hbp Hp Hk Hsp Hn.
  unfold otherKey in Hk. split_bools Hk.
  rewrite key_down_other by assumption.
  rewrite keyDownMapping_not_remapped; try assumption.
  - reflexivity.
  - now rewrite level_setRightPressed.
  - now apply level4Special_defined.
Qed.

(** The key 5 of the numeric keypad. *)
Lemma numpad_and_shortcuts_not_remapped_witness :
  keyevent noHostKey noHostChar defaultSettings (buildLayout defaultSettings)
    HC_ACTION WM_KEYDOWN (lparam (keyDownOf 0x65 76)) initialState
  = Some (CallNextHookEx, initialState,
          [LogKeyEvent (String (Ascii.ascii_of_nat 10) "key down")
             (lparam (keyDownOf 0x65 76))]).
Proof.
  exact (numpad_and_shortcuts_not_remapped noHostKey noHostChar
           defaultSettings (buildLayout defaultSettings) WM_KEYDOWN
           (lparam (keyDownOf 0x65 76)) initialState
           eq_refl eq_refl eq_refl eq_refl eq_refl eq_refl eq_refl eq_refl
           eq_refl).
Defined.

(** X23. The three special-case handlers take exactly the scan codes
    of [specialCase]: on such a scan code a handler returns [true]
    after synthesizing input, on any other it returns [false] and has
    sent nothing; the state stays in both cases.  The level-4 handler
    needs its read of the action table to be defined. *)
Theorem special_case_handlers_decide :
  forall (VkKeyScanEx : N -> Z) (l : Layout) (k : KBDLLHOOKSTRUCT)
         (st : State),
    (exists o : list Effect,
        handleLayer2SpecialCases VkKeyScanEx k st
        = Some (specialCase l LEVEL_2 (scanCode k), st, o)
        /\ forallb isSynthInput o = true
        /\ (o = [] <-> specialCase l LEVEL_2 (scanCode k) = false))
    /\ (exists o : list Effect,
          handleLayer3SpecialCases VkKeyScanEx l k st
          = Some (specialCase l LEVEL_3 (scanCode k), st, o)
          /\ forallb isSynthInput o = true
          /\ (o = [] <-> specialCase l LEVEL_3 (scanCode k) = false))
    /\ (is_Some (level4Special l (scanCode k)) ->
        exists o : list Effect,
          handleLayer4SpecialCases VkKeyScanEx l k st
          = Some (specialCase l LEVEL_4 (scanCode k), st, o)
          /\ forallb isSynthInput o = true
          /\ (o = [] <-> specialCase l LEVEL_4 (scanCode k) = false)).
Proof.
  intros Vk l k st.
  assert (Hsend : forall key (tail : list Effect) (f : Hook bool),
             (forall st0, f st0 = Some (true, st0, tail)) ->
             forallb isSynthInput tail = true ->
             exists o : list Effect,
               (sendChar Vk key k ;; f) st = Some (true, st, o)
               /\ forallb isSynthInput o = true /\ (o = [] <-> true = false)).
  { intros key tail f Hf Ht.
    destruct (sendChar_runs Vk key k st) as (o & Ho & Hs).
    exists (o ++ tail). unfold bind. rewrite Ho, Hf. split; [reflexivity|].
    split; [now rewrite forallb_app, Hs, Ht|].
    split; [|discriminate]. intros E. apply app_eq_nil in E as [-> _].
    revert Ho. unfold sendChar, bind, get, when, keybd_event,
      sendUnicodeChar, emit, ret.
    destruct (useUnicode _ _ _); [discriminate|].
    repeat match goal with
      | |- context [if ?c then _ else _] => destruct c
      end; discriminate. }
  assert (Hnone : exists o : list Effect,
             Some (false, st, @nil Effect) = Some (false, st, o)
             /\ forallb isSynthInput o = true /\ (o = [] <-> false = false)).
  { exists []. repeat split; reflexivity. }
  pose (sent := fun key => Hsend key [] (ret true) (fun _ => eq_refl) eq_refl).
  pose (spaced := fun key =>
          Hsend key [KeybdEvent VK_SPACE 0 0 0]
            (keybd_event VK_SPACE 0 0 0 ;; ret true) (fun _ => eq_refl) eq_refl).
  split; [|split].
  - unfold handleLayer2SpecialCases, specialCase.
    destruct (scanCode k =? 27); [apply sent|].
    destruct (scanCode k =? 41); [apply sent|].
    exact Hnone.
  - unfold handleLayer3SpecialCases, specialCase.
    destruct (scanCode k =? 13); [apply sent|].
    destruct (scanCode k =? 20); [apply spaced|].
    destruct (scanCode k =? 27); [apply sent|].
    cbn [orb].
    destruct (is_kou_or_vue l); cbn [andb];
      destruct (scanCode k =? 31); cbn [orb];
      try (destruct (scanCode k =? 48));
      first [exact Hnone | apply spaced].
  - intros [a Ha].
    unfold handleLayer4SpecialCases, specialCase. rewrite Ha.
    destruct (scanCode k =? 13); [apply sent|].
    destruct (scanCode k =? 27); [apply sent|].
    destruct (scanCode k =? 41); [apply sent|].
    cbn [orb]. change (default 0 (Some a)) with a.
    destruct (a =? 0); cbn [negb].
    + exact Hnone.
    + eexists. split; [reflexivity|]. split; [reflexivity|].
      split; discriminate.
Qed.

(** X24. [sendChar] on the key path: the modifiers the high byte of
    the lookup result asks for are pressed, then the key found is sent
    with the scan code, the flags and the extra information of the
    original event, then the same modifiers are released in the order
    they were pressed.  Both bits 2 and 4 press the right alt key alone;
    otherwise bit 2 presses [VK_MENU] and bit 4 [VK_CONTROL]; bit 1
    presses shift. *)
Theorem sendChar_chord_is_balanced :
  forall (VkKeyScanEx : N -> Z) (key : N) (k : KBDLLHOOKSTRUCT) (st : State),
    useUnicode (VkKeyScanEx key) st k = false ->
    let bit := fun m : Z =>
      negb (Z.land (Z.shiftr (VkKeyScanEx key) 8) m =? 0)%Z in
    exists mods : list N,
      sendChar VkKeyScanEx key k st
      = Some (tt, st,
              map pressKey mods
              ++ KeybdEvent (Z.to_N (VkKeyScanEx key mod 2 ^ 32) mod 256)
                   (scanCode k mod 256) (flags k) (dwExtraInfo k)
              :: map releaseKey mods)
      /\ sublist mods [VK_RMENU; VK_CONTROL; VK_MENU; VK_SHIFT]
      /\ (In VK_SHIFT mods <-> bit 1%Z = true)
      /\ (In VK_RMENU mods <-> bit 2%Z && bit 4%Z = true)
      /\ (In VK_MENU mods <-> bit 2%Z && negb (bit 4%Z) = true)
      /\ (In VK_CONTROL mods <-> bit 4%Z && negb (bit 2%Z) = true).
Proof.
  intros Vk key k st H bit. subst bit. cbv beta.
  unfold sendChar. rewrite bind_get, H. cbv zeta.
  unfold bind, when, keybd_event, emit, ret.
  cbn [set_vkCode vkCode scanCode flags dwExtraInfo].
  destruct (negb (Z.land (Z.shiftr (Vk key) 8) 1 =? 0)%Z),
    (negb (Z.land (Z.shiftr (Vk key) 8) 2 =? 0)%Z),
    (negb (Z.land (Z.shiftr (Vk key) 8) 4 =? 0)%Z); cbn [andb negb].
  all: first
    [ exists [VK_RMENU; VK_SHIFT]; split; [reflexivity|]
    | exists [VK_RMENU]; split; [reflexivity|]
    | exists [VK_CONTROL; VK_SHIFT]; split; [reflexivity|]
    | exists [VK_CONTROL]; split; [reflexivity|]
    | exists [VK_MENU; VK_SHIFT]; split; [reflexivity|]
    | exists [VK_MENU]; split; [reflexivity|]
    | exists [VK_SHIFT]; split; [reflexivity|]
    | exists []; split; [reflexivity|] ].
  all: split;
    [repeat first [apply sublist_nil | apply sublist_skip | apply sublist_cons]|].
  all: vm_compute; intuition discriminate.
Qed.

(** A host layout that types every character with shift. *)
Lemma sendChar_chord_is_balanced_witness :
  exists mods : list N,
    sendChar shiftedHostKey 117 (lparam (keyDownOf 0x41 30)) initialState
    = Some (tt, initialState,
            map pressKey mods ++ KeybdEvent 117 30 0 0 :: map releaseKey mods)
    /\ In VK_SHIFT mods.
Proof.
  destruct (sendChar_chord_is_balanced shiftedHostKey 117
              (lparam (keyDownOf 0x41 30)) initialState eq_refl)
    as (mods & E & _ & Hs & _).
  exists mods. split; [exact E | apply Hs; reflexivity].
Defined.

(** X25. After a tap of the right mod3 key with [mod3RAsReturn] set
    the hook is left on level 3 or above although the key is released:
    the release returns before [mod3Pressed] is recomputed, so the flag
    stays set and the next key is looked up on a level that needs
    mod3. *)
Theorem mod3R_tap_leaves_level_3 :
  forall (VkKeyScanEx : N -> Z) (MapVirtualKeyA : N -> N) (s : Settings)
         (l : Layout) (cd cu : HookCall) (st : State),
    mod3RAsReturn s = true -> bypassMode st = false ->
    mod3RightDown s cd = true -> mod3RightUp s cu = true ->
    exists (st' : State) (o : list Effect),
      run VkKeyScanEx MapVirtualKeyA s l [cd; cu] st
      = Some ([Consumed; Consumed], st', o)
      /\ level3modRightPressed st' = false
      /\ level3modLeftPressed st' = level3modLeftPressed st
      /\ mod3Pressed st' = true
      /\ In (level s st') [LEVEL_3; LEVEL_4; LEVEL_5; LEVEL_6].
Proof.
  intros Vk Map s l cd cu st Hset Hbp Hd Hu.
  pose proof Hd as H. unfold mod3RightDown, delivered in H. split_bools H.
  apply Z.eqb_eq in H.
  assert (Hk : leftSystemKey (lparam cd) = false)
    by (unfold leftSystemKey; now rewrite_bools).
  assert (Hm : isMod3 s (lparam cd) || isMod4 s (lparam cd) = true)
    by (unfold isMod3; rewrite_bools; now rewrite orb_true_r).
  assert (Hp : shiftPressed st && (scanCode (lparam cd) =? 69) = false)
    by (rewrite_bools; apply andb_false_r).
  pose proof (modifier_key_press Vk Map s l (wparam cd) (lparam cd) st
                ltac:(assumption) ltac:(assumption) Hbp Hp Hk
                ltac:(assumption) Hm) as E1.
  cbv zeta in E1. rewrite <- H in E1.
  assert (H3 : isMod3 s (lparam cd) = true)
    by (unfold isMod3; rewrite_bools; apply orb_true_r).
  rewrite H3 in E1.
  match goal with
  | E : (scanCode (lparam cd) =? scanCodeMod3R s) = true |- _ =>
      rewrite E in E1
  end.
  cbn [negb andb] in E1.
  match type of E1 with _ = Some (_, ?x, _) => set (st1 := x) in * end.
  assert (Hbp1 : bypassMode st1 = false)
    by (subst st1; cbn; now rewrite bypassMode_setRightPressed).
  pose proof (mod3Right_tap_release Vk Map s l cu st1 Hu Hbp1 Hset eq_refl)
    as E2.
  do 2 eexists. split; [exact (run_two Vk Map s l cd cu _ _ _ _ _ _ _ E1 E2)|].
  subst st1. unfold level, bool_ne, setRightPressed.
  destruct (vkCode (lparam cd) =? VK_RCONTROL),
    (vkCode (lparam cd) =? VK_RWIN); cbn;
    destruct (supportLevels5and6 s), (shiftPressed st), (shiftLockActive st),
      (mod4Pressed st), (level4LockActive st); cbn; tauto.
Qed.

(** From the initial state the tap leaves the hook on level 3. *)
Lemma mod3R_tap_leaves_level_3_witness :
  exists (st' : State) (o : list Effect),
    run noHostKey noHostChar tapSettings (buildLayout tapSettings)
      [keyDownOf 0xBF 43; keyUpOf 0xBF 43] initialState
    = Some ([Consumed; Consumed], st', o)
    /\ level3modRightPressed st' = false
    /\ level3modLeftPressed st' = false
    /\ mod3Pressed st' = true
    /\ In (level tapSettings st') [LEVEL_3; LEVEL_4; LEVEL_5; LEVEL_6].
Proof.
  exact (mod3R_tap_leaves_level_3 noHostKey noHostChar tapSettings
           (buildLayout tapSettings) (keyDownOf 0xBF 43) (keyUpOf 0xBF 43)
           initialState eq_refl eq_refl eq_refl eq_refl).
Defined.

(** X26. A call with a code other than [HC_ACTION], or with a message
    that is neither a key-down nor a key-up, is handed on with the
    state untouched and nothing done, not even logged. *)
Theorem other_messages_are_handed_on :
  forall (VkKeyScanEx : N -> Z) (MapVirtualKeyA : N -> N) (s : Settings)
         (l : Layout) (c : Z) (w : N) (k : KBDLLHOOKSTRUCT) (st : State),
    (c =? HC_ACTION)%Z && (isKeyUpMsg w || isKeyDownMsg w) = false ->
    keyevent VkKeyScanEx MapVirtualKeyA s l c w k st
    = Some (CallNextHookEx, st, []).
Proof.
  intros Vk Map s l c w k st H. unfold keyevent.
  destruct (c =? HC_ACTION)%Z; [|reflexivity]. cbn [negb andb] in *.
  apply orb_false_elim in H as [-> ->]. reflexivity.
Qed.

(** A call with code 3, [HC_NOREMOVE]. *)
Lemma other_messages_are_handed_on_witness :
  keyevent noHostKey noHostChar defaultSettings (buildLayout defaultSettings)
    3 WM_KEYDOWN (lparam (keyDownOf 0x41 30)) initialState
  = Some (CallNextHookEx, initialState, []).
Proof.
  exact (other_messages_are_handed_on noHostKey noHostChar defaultSettings
           (buildLayout defaultSettings) 3 WM_KEYDOWN
           (lparam (keyDownOf 0x41 30)) initialState eq_refl).
Defined.

(** *** Modifier keys *)

(** X27. A shift key is consumed and replayed under the virtual key of
    its side, the generic [VK_SHIFT] as the left one: the press with
    scan code 0, the release with the scan code of the side (54 right,
    42 left) and after the log line of a lock toggle, if there is one.
    After the release [shiftPressed] is the pressed flag of the other
    shift key. *)
Theorem shift_key_is_replayed :
  forall (VkKeyScanEx : N -> Z) (MapVirtualKeyA : N -> N) (s : Settings)
         (l : Layout) (w : N) (k : KBDLLHOOKSTRUCT) (st : State),
    isShift k = true -> injected k = false -> bypassMode st = false ->
    let right := vkCode k =? VK_RSHIFT in
    (isKeyDownMsg w = true ->
     shiftPressed st && (scanCode k =? 69) = false ->
     keyevent VkKeyScanEx MapVirtualKeyA s l HC_ACTION w k st
     = Some (Consumed,
             (if right then set_shiftRightPressed true
              else set_shiftLeftPressed true)
               (set_shiftPressed true (clearTaps st)),
             [LogKeyEvent (String (Ascii.ascii_of_nat 10) "key down") k;
              KeybdEvent (if right then VK_RSHIFT else VK_LSHIFT) 0 0 0]))
    /\ (isKeyUpMsg w = true ->
        exists st' : State,
          keyevent VkKeyScanEx MapVirtualKeyA s l HC_ACTION w k st
          = Some (Consumed, st',
                  LogKeyEvent "key up" k
                  :: (if otherShiftHeld k st then lockLog s st else [])
                  ++ [KeybdEvent (if right then VK_RSHIFT else VK_LSHIFT)
                        (if right then 54 else 42) KEYEVENTF_KEYUP 0])
          /\ shiftPressed st' = otherShiftHeld k st
          /\ otherShiftHeld k st' = otherShiftHeld k st).
Proof.
  intros Vk Map s l w k st Hs Hi Hbp right. subst right.
  destruct (isShift_vk k Hs) as (V1 & V2 & V3 & V4 & V5). split.
  - intros Hw Hp. rewrite keyevent_keyDown by assumption.
    rewrite keyDownBranch_other
      by (unfold leftSystemKey; now rewrite V1, V3, V4).
    unfold setRightPressed. rewrite V2, V5.
    unfold keyDownMapping, keybd_event. rewrite bind_get. cbv zeta. rewrite Hs.
    destruct (vkCode k =? VK_RSHIFT); reflexivity.
  - intros Hw. rewrite keyevent_keyUp by assumption.
    unfold keyUpBranch, toggleShiftOrCapsLock, when, otherShiftHeld, lockLog,
      logKeyEvent, logActivation, keybd_event.
    cbv zeta. rewrite Hs.
    destruct (vkCode k =? VK_RSHIFT), (shiftLeftPressed st) eqn:E1,
      (shiftRightPressed st) eqn:E2, (shiftLockEnabled s),
      (capsLockEnabled s);
      (eexists; split;
       [apply wpg_exact; wp_run; cbn in *; rewrite ?E1, ?E2 in *;
        first [reflexivity | discriminate]|]);
      cbn; rewrite ?E1, ?E2; split; reflexivity.
Qed.

(** Right shift released on neo with shift lock enabled while left
    shift is held. *)
Lemma shift_key_is_replayed_witness :
  exists st' : State,
    keyevent noHostKey noHostChar shiftLockSettings
      (buildLayout shiftLockSettings) HC_ACTION WM_KEYUP
      (lparam (keyUpOf VK_RSHIFT 54))
      (set_shiftRightPressed true shiftLeftHeld)
    = Some (Consumed, st',
            [LogKeyEvent "key up" (lparam (keyUpOf VK_RSHIFT 54));
             LogActivation "Shift lock" true;
             KeybdEvent VK_RSHIFT 54 KEYEVENTF_KEYUP 0])
    /\ shiftPressed st' = true.
Proof.
  destruct (proj2 (shift_key_is_replayed noHostKey noHostChar
                     shiftLockSettings (buildLayout shiftLockSettings)
                     WM_KEYUP (lparam (keyUpOf VK_RSHIFT 54))
                     (set_shiftRightPressed true shiftLeftHeld)
                     eq_refl eq_refl eq_refl) eq_refl)
    as (st' & E & Hp & _).
  exists st'. split; [exact E | exact Hp].
Defined.

(** X28. The press of a mod3 or mod4 key is consumed and not replayed:
    the modifier flag, the pressed flag of the key and, for all but the
    right mod4 key, its tap flag are set, after every key-down has
    cleared the three tap flags.  Only the right mod4 key makes the
    hook send something, the release of [VK_RMENU]. *)
Theorem modifier_press_is_swallowed :
  forall (VkKeyScanEx : N -> Z) (MapVirtualKeyA : N -> N) (s : Settings)
         (l : Layout) (w : N) (k : KBDLLHOOKSTRUCT) (st : State),
    isKeyDownMsg w = true -> injected k = false -> bypassMode st = false ->
    shiftPressed st && (scanCode k =? 69) = false ->
    leftSystemKey k = false -> isShift k = false ->
    isMod3 s k || isMod4 s k = true ->
    let st1 := setRightPressed k true (clearTaps st) in
    keyevent VkKeyScanEx MapVirtualKeyA s l HC_ACTION w k st
    = Some (Consumed,
            (if isMod3 s k then
               if scanCode k =? scanCodeMod3R s then
                 set_level3modRightAndNoOtherKeyPressed true
                   (set_level3modRightPressed true (set_mod3Pressed true st1))
               else
                 set_level3modLeftAndNoOtherKeyPressed true
                   (set_level3modLeftPressed true (set_mod3Pressed true st1))
             else
               if scanCode k =? scanCodeMod4L s then
                 set_level4modLeftAndNoOtherKeyPressed true
                   (set_level4modLeftPressed true (set_mod4Pressed true st1))
               else set_level4modRightPressed true (set_mod4Pressed true st1)),
            LogKeyEvent (String (Ascii.ascii_of_nat 10) "key down") k
            :: (if negb (isMod3 s k) && negb (scanCode k =? scanCodeMod4L s)
                then [KeybdEvent VK_RMENU 0 KEYEVENTF_KEYUP 0] else [])).
Proof.
  intros Vk Map s l w k st. apply modifier_key_press.
Qed.

(** AltGr on neo. *)
Lemma modifier_press_is_swallowed_witness :
  keyevent noHostKey noHostChar defaultSettings (buildLayout defaultSettings)
    HC_ACTION WM_KEYDOWN (lparam (keyDownOf VK_RMENU 56)) initialState
  = Some (Consumed,
          set_level4modRightPressed true (set_mod4Pressed true initialState),
          [LogKeyEvent (String (Ascii.ascii_of_nat 10) "key down")
             (lparam (keyDownOf VK_RMENU 56));
           KeybdEvent VK_RMENU 0 KEYEVENTF_KEYUP 0]).
Proof.
  exact (modifier_press_is_swallowed noHostKey noHostChar defaultSettings
           (buildLayout defaultSettings) WM_KEYDOWN
           (lparam (keyDownOf VK_RMENU 56)) initialState
           eq_refl eq_refl eq_refl eq_refl eq_refl eq_refl eq_refl).
Defined.

(** X29. [buildLayout] depends on the settings through the name its
    chain of comparisons takes the layout name as and through
    [quoteAsMod3R], and on nothing else: two settings records build the
    same layout exactly when they agree on both.  The fourteen layouts
    are pairwise different. *)
Theorem buildLayout_reads_exactly :
  forall s1 s2 : Settings,
    buildLayout s1 = buildLayout s2
    <-> canonicalName (layout s1) = canonicalName (layout s2)
        /\ quoteAsMod3R s1 = quoteAsMod3R s2.
Proof.
  intros s1 s2.
  rewrite (buildLayout_variant s1), (buildLayout_variant s2).
  split; [|intros [-> ->]; reflexivity].
  generalize (canonicalName_in (layout s1)), (canonicalName_in (layout s2)).
  generalize (canonicalName (layout s1)), (canonicalName (layout s2)).
  intros n1 n2 Hin1 Hin2. unfold layoutNames in Hin1, Hin2.
  repeat (destruct Hin1 as [<- | Hin1]); [ .. | destruct Hin1 ];
    (repeat (destruct Hin2 as [<- | Hin2]); [ .. | destruct Hin2 ]);
    destruct (quoteAsMod3R s1), (quoteAsMod3R s2);
    first [ intros _; split; reflexivity
          | intros H; apply (f_equal levels) in H; vm_compute in H;
            discriminate H ].
Qed.

(** ** The ways through [keyevent] *)

Section Taps.

Variable VkKeyScanEx : N -> Z.
Variable MapVirtualKeyA : N -> N.
Variable s : Settings.
Variable l : Layout.

Local Abbreviation keyevent' := (keyevent VkKeyScanEx MapVirtualKeyA s l).
Local Abbreviation run' := (run VkKeyScanEx MapVirtualKeyA s l).

(** Every call takes one of four ways: the key-down branch, the key-up
    branch, the bypass toggle, or it is handed on with the state as it
    is and nothing sent. *)
Lemma keyevent_dispatch (c : Z) (w : N) (k : KBDLLHOOKSTRUCT) (st : State) :
  (classifiedKeyDown st {| code := c; wparam := w; lparam := k |} = true
   /\ keyevent' c w k st = keyDownBranch VkKeyScanEx MapVirtualKeyA s l k st)
  \/ (c = HC_ACTION /\ isKeyUpMsg w = true /\ injected k = false
      /\ bypassMode st = false
      /\ keyevent' c w k st = keyUpBranch s k st)
  \/ (c = HC_ACTION /\ isKeyDownMsg w = true /\ injected k = false
      /\ shiftPressed st = true /\ (scanCode k =? 69) = true
      /\ keyevent' c w k st
         = Some (Consumed, set_bypassMode (negb (bypassMode st)) st,
                 [TrayChangeIcon (negb (bypassMode st));
                  LogBypass (negb (bypassMode st))]))
  \/ ((c =? HC_ACTION)%Z && isKeyUpMsg w && negb (injected k)
      && negb (bypassMode st) = false
      /\ exists o : list Effect,
           keyevent' c w k st = Some (CallNextHookEx, st, o)
           /\ existsb isSynthInput o = false).
Proof.
  unfold classifiedKeyDown, delivered. cbn [code wparam lparam].
  destruct (c =? HC_ACTION)%Z eqn:Ec.
  2:{ right; right; right. split; [reflexivity|]. exists [].
      unfold keyevent. rewrite Ec. split; reflexivity. }
  apply Z.eqb_eq in Ec. subst c.
  destruct (injected k) eqn:Hi.
  { right; right; right. rewrite andb_false_r. split; [reflexivity|].
    eexists. rewrite keyevent_injected by assumption.
    split; [reflexivity|]. now destruct (_ && _). }
  destruct (isKeyDownMsg w) eqn:Hd.
  - pose proof (isKeyDownMsg_not_up w Hd) as Hu.
    destruct (shiftPressed st && (scanCode k =? 69)) eqn:Hp.
    + apply andb_prop in Hp as [Hp1 Hp2].
      right; right; left. repeat split; auto. now apply bypass_toggle.
    + destruct (bypassMode st) eqn:Hbp.
      * right; right; right. rewrite Hu. split; [reflexivity|]. exists [].
        split; [|reflexivity].
        unfold keyevent. cbv zeta.
        rewrite Z.eqb_refl, Hd, Hu, Hi. cbn [negb andb orb].
        now rewrite bind_get, Hp, Hbp.
      * left. rewrite Hu. split; [reflexivity|].
        now apply keyevent_keyDown.
  - destruct (isKeyUpMsg w) eqn:Hu.
    + destruct (bypassMode st) eqn:Hbp.
      * right; right; right. split; [reflexivity|]. exists [].
        split; [|reflexivity].
        unfold keyevent. cbv zeta.
        rewrite Z.eqb_refl, Hd, Hu, Hi. cbn [negb andb orb].
        now rewrite bind_get, Hbp.
      * right; left. repeat split; auto. now apply keyevent_keyUp.
    + right; right; right. split; [reflexivity|]. exists [].
      unfold keyevent. cbv zeta. rewrite Z.eqb_refl, Hd, Hu.
      split; reflexivity.
Qed.

(** A key-down the hook does not classify changes at most the bypass
    flag and sends nothing. *)
Lemma unclassified_key_down (c : HookCall) (st : State) :
  isKeyDownMsg (wparam c) = true -> classifiedKeyDown st c = false ->
  exists (r : HookResult) (st' : State) (o : list Effect),
    keyevent' (code c) (wparam c) (lparam c) st = Some (r, st', o)
    /\ (st' = st \/ st' = set_bypassMode (negb (bypassMode st)) st)
    /\ existsb isSynthInput o = false.
Proof.
  intros Hd Hc.
  destruct (keyevent_dispatch (code c) (wparam c) (lparam c) st)
    as [[H _]|[(_ & Hu & _)|[(_ & _ & _ & _ & _ & E)|(_ & o & E & Ho)]]].
  - destruct c. cbn in *. congruence.
  - rewrite (isKeyUpMsg_not_down _ Hu) in Hd. discriminate.
  - do 3 eexists. split; [exact E|]. split; [now right | reflexivity].
  - do 3 eexists. split; [exact E|]. split; [now left | exact Ho].
Qed.

(** With its flag cleared the tap stays disarmed by every call other
    than a key-down with the scan code of the right mod3 key. *)
Lemma keyevent_disarmed d (c : Z) (w : N) (k : KBDLLHOOKSTRUCT) (st : State) :
  (wfLayout l = true /\ scanCode k < 103) \/ d ->
  level3modRightAndNoOtherKeyPressed st = false ->
  isKeyDownMsg w && (scanCode k =? scanCodeMod3R s) = false ->
  wpg d (keyevent' c w k)
    (fun _ st' o =>
       level3modRightAndNoOtherKeyPressed st' = false
       /\ (isKeyDownMsg w = false -> existsb isReturnDown o = false)) st.
Proof.
  intros Hb Hflag Hne.
  destruct (keyevent_dispatch c w k st)
    as [[Hc E]|[(_ & Hu & _ & _ & E)|[(_ & _ & _ & _ & _ & E)|(_ & o & E & Ho)]]].
  - unfold classifiedKeyDown in Hc. cbn [wparam] in Hc. split_bools Hc.
    match goal with
    | H : isKeyDownMsg w = true |- _ =>
        rewrite H in Hne; cbn [andb] in Hne
    end.
    eapply wpg_eq; [exact E|].
    eapply wpg_mono; [|apply keyDownBranch_summary; exact Hb]. cbv beta.
    intros _ st' o (_ & _ & H3). split; [|intros; congruence].
    destruct (level3modRightAndNoOtherKeyPressed st'); [|reflexivity].
    rewrite H3 in Hne; [discriminate|reflexivity].
  - eapply wpg_eq; [exact E|].
    eapply wpg_mono; [|apply keyUpBranch_summary]. cbv beta.
    intros _ st' o (_ & _ & H3 & _). destruct (H3 Hflag). auto.
  - unfold wpg. rewrite E. cbn. auto.
  - unfold wpg. rewrite E. split; [exact Hflag|]. intros _.
    clear E. induction o as [|e o IH]; [reflexivity|].
    cbn in *. apply orb_false_elim in Ho as [He Ho].
    rewrite (IH Ho), orb_false_r. destruct e; try reflexivity; discriminate.
Qed.

Lemma disarmed_until_repress d (cs : list HookCall) (st : State) :
  (wfLayout l = true
   /\ forallb (fun c => scanCode (lparam c) <? 103) cs = true) \/ d ->
  forallb (fun c => negb (isKeyDownMsg (wparam c)
                          && (scanCode (lparam c) =? scanCodeMod3R s))) cs
  = true ->
  level3modRightAndNoOtherKeyPressed st = false ->
  wpg d (run' cs)
    (fun _ st' _ => level3modRightAndNoOtherKeyPressed st' = false) st.
Proof.
  revert st. induction cs as [|c cs IH]; intros st Hb Hall Hflag.
  - cbn. auto.
  - cbn [forallb] in Hall. apply andb_prop in Hall as [Hc Hall].
    apply negb_true_iff in Hc.
    cbn [run]. wp_step.
    eapply wpg_mono; [|apply keyevent_disarmed; auto].
    + cbv beta. intros r st1 o1 [H5 _]. wp_step.
      eapply wpg_mono; [|apply IH; auto].
      * cbv beta. intros rs st2 o2 H. wp_step. exact H.
      * destruct Hb as [[Hwf Hsc]|Hd]; [left|now right].
        cbn [forallb] in Hsc. apply andb_prop in Hsc as [_ Hsc]. auto.
    + destruct Hb as [[Hwf Hsc]|Hd]; [left|now right].
      cbn [forallb] in Hsc. apply andb_prop in Hsc as [Hsc _].
      apply N.ltb_lt in Hsc. auto.
Qed.

(** A call that keeps the tap leaves the armed flag armed. *)
Lemma keepsTap_step (c : HookCall) (st : State) :
  keepsTap s st c = true ->
  level3modRightAndNoOtherKeyPressed st = true ->
  exists (r : HookResult) (st' : State) (o : list Effect),
    keyevent' (code c) (wparam c) (lparam c) st = Some (r, st', o)
    /\ level3modRightAndNoOtherKeyPressed st' = true.
Proof.
  intros H Hflag. unfold keepsTap in H.
  destruct (isKeyDownMsg (wparam c) && negb (classifiedKeyDown st c)) eqn:Hu.
  - apply andb_prop in Hu as [Hd Hc]. apply negb_true_iff in Hc.
    destruct (unclassified_key_down c st Hd Hc) as (r & st' & o & E & Hst & _).
    exists r, st', o. split; [exact E|].
    destruct Hst as [-> | ->]; [exact Hflag | destruct st; exact Hflag].
  - rewrite orb_false_r in H.
    destruct (bypassMode st) eqn:Hbp.
    + unfold quiet in H.
      assert (Hp : isKeyDownMsg (wparam c) && (scanCode (lparam c) =? 69) = false).
      { apply orb_prop in H as [H|H].
        - apply andb_prop in H as [H _]. apply negb_true_iff in H.
          now rewrite H.
        - unfold mod3RightDown in H. split_bools H.
          rewrite_bools. apply andb_false_r. }
      destruct (wpg_total _ _ _
                  (bypass_passes VkKeyScanEx MapVirtualKeyA s l
                     (code c) (wparam c) (lparam c) st Hbp Hp))
        as (r & st' & o & E & _ & -> & _).
      eauto.
    + destruct (wpg_total _ _ _
                  (quiet_step VkKeyScanEx MapVirtualKeyA s l c st H Hbp Hflag))
        as (r & st' & o & E & _ & Hf).
      eauto.
Qed.

Lemma tapKept_run (cs : list HookCall) (st : State) :
  tapKept VkKeyScanEx MapVirtualKeyA s l cs st = true ->
  level3modRightAndNoOtherKeyPressed st = true ->
  exists (rs : list HookResult) (st' : State) (o : list Effect),
    run' cs st = Some (rs, st', o)
    /\ level3modRightAndNoOtherKeyPressed st' = true.
Proof.
  revert st. induction cs as [|c cs IH]; intros st H Hflag.
  - exists [], st, []. split; [reflexivity | exact Hflag].
  - cbn [tapKept] in H. apply andb_prop in H as [Hc H].
    destruct (keepsTap_step c st Hc Hflag) as (r & st1 & o1 & E & Hf1).
    rewrite E in H.
    destruct (IH st1 H Hf1) as (rs & st2 & o2 & E2 & Hf2).
    exists (r :: rs), st2, (o1 ++ o2 ++ []). split; [|exact Hf2].
    cbn [run]. unfold bind at 1. rewrite E. unfold bind at 1. rewrite E2.
    reflexivity.
Qed.

(** The release of a shift key in any state: an injected release and a
    release in bypass mode are handed on and change no lock. *)
Lemma shift_release_any (w : N) (k : KBDLLHOOKSTRUCT) (st : State) :
  isKeyUpMsg w = true -> isShift k = true ->
  exists (r : HookResult) (st' : State) (o : list Effect),
    keyevent' HC_ACTION w k st = Some (r, st', o)
    /\ r = (if injected k || bypassMode st then CallNextHookEx else Consumed)
    /\ locks st'
       = (if negb (injected k) && negb (bypassMode st) && otherShiftHeld k st
          then toggledLocks s (locks st) else locks st).
Proof.
  intros Hw Hs.
  destruct (keyevent_dispatch HC_ACTION w k st)
    as [[Hc _]|[(_ & _ & Hi & Hbp & _)|[(_ & Hd & _)|(Hn & o & E & _)]]].
  - unfold classifiedKeyDown in Hc. cbn [wparam] in Hc. split_bools Hc.
    match goal with
    | H : isKeyDownMsg w = true |- _ =>
        rewrite (isKeyDownMsg_not_up w H) in Hw; discriminate
    end.
  - destruct (wpg_total _ _ _
                (shift_release VkKeyScanEx MapVirtualKeyA s l w k st
                   Hw Hi Hbp Hs))
      as (r & st' & o & E & -> & _ & _ & Hl).
    exists Consumed, st', o. rewrite Hi, Hbp. cbn [negb andb orb]. auto.
  - rewrite (isKeyUpMsg_not_down w Hw) in Hd. discriminate.
  - rewrite Z.eqb_refl, Hw in Hn. cbn [andb] in Hn.
    exists CallNextHookEx, st, o. split; [exact E|].
    rewrite Hn. cbn [andb].
    destruct (injected k), (bypassMode st); cbn in *;
      first [discriminate | auto].
Qed.

(** One shift key pressed and released while the other is held, in any
    state. *)
Lemma shift_gesture_any (wd wu : N) (kd ku : KBDLLHOOKSTRUCT) (st : State) :
  isKeyDownMsg wd = true -> isKeyUpMsg wu = true ->
  injected kd = false -> injected ku = false ->
  isShift kd = true -> isShift ku = true ->
  (vkCode kd =? VK_RSHIFT) = (vkCode ku =? VK_RSHIFT) ->
  (scanCode kd =? 69) = false ->
  otherShiftHeld ku st = true ->
  exists (rs : list HookResult) (st' : State) (o : list Effect),
    run' [ {| code := HC_ACTION; wparam := wd; lparam := kd |};
           {| code := HC_ACTION; wparam := wu; lparam := ku |} ] st
    = Some (rs, st', o)
    /\ rs = (if bypassMode st then [CallNextHookEx; CallNextHookEx]
             else [Consumed; Consumed])
    /\ bypassMode st' = bypassMode st
    /\ otherShiftHeld ku st' = true
    /\ locks st'
       = (if bypassMode st then locks st else toggledLocks s (locks st)).
Proof.
  intros Hwd Hwu Hid Hiu Hsd Hsu Hside Hsc Hother.
  destruct (bypassMode st) eqn:Hbp.
  - destruct (wpg_total _ _ _
                (bypass_run VkKeyScanEx MapVirtualKeyA s l
                   [ {| code := HC_ACTION; wparam := wd; lparam := kd |};
                     {| code := HC_ACTION; wparam := wu; lparam := ku |} ]
                   st Hbp
                   ltac:(cbn; now rewrite Hsc, (isKeyUpMsg_not_down wu Hwu),
                           andb_false_r)))
      as (rs & st' & o & E & -> & -> & _).
    exists [CallNextHookEx; CallNextHookEx], st, o. auto.
  - destruct (wpg_total _ _ _
                (shift_gesture VkKeyScanEx MapVirtualKeyA s l wd wu kd ku st
                   Hwd Hwu Hid Hiu Hsd Hsu Hside Hsc Hbp Hother))
      as (rs & st' & o & E & -> & Hbp' & Ho & Hl).
    exists [Consumed; Consumed], st', o. auto.
Qed.

End Taps.

(** ** Reads of the tables *)

Section Reads.

Variable VkKeyScanEx : N -> Z.
Variable MapVirtualKeyA : N -> N.
Variable s : Settings.
Variable l : Layout.
Hypothesis Hwf : wfLayout l = true.

(** A read below [MAPPING_LEN] gives the entry at the index. *)
Lemma mapScanCodeToChar_entry (lvl : Level) (sc : N) :
  sc < 103 ->
  mapScanCodeToChar l lvl sc = Some (nth (N.to_nat sc) (getLevel l lvl) 0).
Proof.
  intros Hsc.
  destruct (proj2 (mapScanCodeToChar_defined l lvl sc Hwf) Hsc) as [x E].
  rewrite E. f_equal. symmetry. now apply nth_lookup_Some.
Qed.

Lemma level4Special_entry (sc : N) :
  sc < 103 ->
  level4Special l sc = Some (nth (N.to_nat sc) (level4_specials l) 0).
Proof.
  intros Hsc.
  destruct (proj2 (level4Special_defined l sc Hwf) Hsc) as [x E].
  rewrite E. f_equal. symmetry. now apply nth_lookup_Some.
Qed.

Lemma mapScanCodeToChar_past (lvl : Level) (sc : N) :
  103 <= sc -> mapScanCodeToChar l lvl sc = None.
Proof.
  intros Hsc. destruct (mapScanCodeToChar l lvl sc) eqn:E; [|reflexivity].
  assert (sc < 103) by (apply (mapScanCodeToChar_defined l lvl sc Hwf);
                        rewrite E; eauto).
  lia.
Qed.

Lemma level4Special_past (sc : N) :
  103 <= sc -> level4Special l sc = None.
Proof.
  intros Hsc. destruct (level4Special l sc) eqn:E; [|reflexivity].
  assert (sc < 103) by (apply (level4Special_defined l sc Hwf);
                        rewrite E; eauto).
  lia.
Qed.

(** The key-down of a key the table decides: the entry of the active
    level at the scan code is what the hook acts on. *)
Lemma table_entry_decides (w : N) (k : KBDLLHOOKSTRUCT) (st : State) :
  scanCode k < 103 ->
  isKeyDownMsg w = true -> injected k = false -> bypassMode st = false ->
  shiftPressed st && (scanCode k =? 69) = false ->
  otherKey s k = true ->
  (0x60 <=? vkCode k) && (vkCode k <=? 0x6F) = false ->
  qwertzForShortcuts s
  && isSystemKeyPressed (setRightPressed k true (clearTaps st)) = false ->
  specialCase l (level s st) (scanCode k) = false ->
  capsLockActive st
  && (Level_eqb (level s st) LEVEL_1 || Level_eqb (level s st) LEVEL_2)
  = false ->
  let st1 := setRightPressed k true (clearTaps st) in
  let c := nth (N.to_nat (scanCode k)) (getLevel l (level s st)) 0 in
  exists o : list Effect,
    sendChar VkKeyScanEx c k st1 = Some (tt, st1, o)
    /\ keyevent VkKeyScanEx MapVirtualKeyA s l HC_ACTION w k st
       = if c =? 0 then
           Some (CallNextHookEx, st1,
                 [LogKeyEvent (String (Ascii.ascii_of_nat 10) "key down") k])
         else
           Some (Consumed, st1,
                 LogKeyEvent (String (Ascii.ascii_of_nat 10) "key down") k
                 :: LogMapped (scanCode k) (MapVirtualKeyA (vkCode k)) c
                      (level s st)
                 :: o).
Proof.
  intros Hsc Hw Hi Hbp Hp Hk Hn Hq Hsp Hcaps st1 c.
  unfold otherKey in Hk. split_bools Hk.
  rewrite key_down_other by assumption. fold st1.
  assert (Hl : level s st1 = level s st) by apply level_setRightPressed.
  destruct (keyDownMapping_mapped VkKeyScanEx MapVirtualKeyA s l k st1 c)
    as (o & Ho & E); rewrite ?Hl; try assumption.
  - now apply level4Special_defined.
  - subst st1. now rewrite capsLockActive_setRightPressed.
  - now apply mapScanCodeToChar_entry.
  - exists o. split; [exact Ho|]. rewrite E, Hl.
    destruct (c =? 0); reflexivity.
Qed.

(** On level 4 the entry of the action table at the scan code, if it
    is not zero, is the virtual key sent. *)
Lemma action_entry_decides (w : N) (k : KBDLLHOOKSTRUCT) (st : State) :
  scanCode k < 103 ->
  isKeyDownMsg w = true -> injected k = false -> bypassMode st = false ->
  shiftPressed st && (scanCode k =? 69) = false ->
  otherKey s k = true ->
  level s st = LEVEL_4 ->
  (scanCode k =? 13) || (scanCode k =? 27) || (scanCode k =? 41) = false ->
  let a := nth (N.to_nat (scanCode k)) (level4_specials l) 0 in
  (a =? 0) = false ->
  keyevent VkKeyScanEx MapVirtualKeyA s l HC_ACTION w k st
  = Some (Consumed, setRightPressed k true (clearTaps st),
          [LogKeyEvent (String (Ascii.ascii_of_nat 10) "key down") k;
           KeybdEvent (a mod 256) 0 LLKHF_EXTENDED 0]).
Proof.
  intros Hsc Hw Hi Hbp Hp Hk Hlv Hdead a Ha.
  unfold otherKey in Hk. split_bools Hk.
  rewrite key_down_other by assumption.
  rewrite (keyDownMapping_action VkKeyScanEx MapVirtualKeyA s l k _ a);
    try assumption.
  - reflexivity.
  - now rewrite level_setRightPressed.
  - now apply level4Special_entry.
Qed.

End Reads.

(** ** The properties of the specification *)

(** C1. On every key-down the level is the priority table of the
    specification applied to [shiftPressed], [mod3Pressed],
    [mod4Pressed], [shiftLockActive], [level4LockActive] and the
    [supportLevels5and6] setting: level 5, else 6, else 4, else 3, else
    2, else 1, first match wins.  The equation holds for each of the 64
    combinations, so each has exactly one level and no other flag is
    read. *)
Theorem level_is_priority_table :
  forall (s : Settings) (st : State),
    level s st =
      levelTable (supportLevels5and6 s) (shiftPressed st) (mod3Pressed st)
        (mod4Pressed st) (shiftLockActive st) (level4LockActive st).
Proof.
  intros s st. unfold level, levelTable, bool_ne.
  destruct (supportLevels5and6 s), (shiftPressed st), (mod3Pressed st),
    (mod4Pressed st), (shiftLockActive st), (level4LockActive st);
    reflexivity.
Qed.

(** C2, as the code has it.  With [mod3RAsReturn] set:

    - When, with bypass mode off, the hook classifies a press of the
      right mod3 key and, until its release, receives no key-down of
      another key, the release is consumed, releases the modifier key
      and then sends Return, and returns before the modifier
      bookkeeping: only the pressed flag and the tap flag of the right
      mod3 key are cleared, [mod3Pressed] and the lock flags stay as
      they were.
    - When the hook classifies a key-down of another key (an event that
      is not injected, is not the Shift+Pause toggle and arrives with
      bypass mode off), then, as long as no key-down with the scan code
      of the right mod3 key follows, no key-up message makes the hook
      send Return.
    - A key-down the hook does not classify (another hook code, an
      injected event, the Shift+Pause toggle, any key-down in bypass
      mode) leaves the tap flag as it is, changes at most the bypass
      flag and sends nothing.
    - So a press followed only by calls that keep the tap, quiet ones
      and unclassified key-downs in any order, leaves the tap armed;
      and if bypass mode is off when the release arrives, the release
      sends Return as in the first case. *)
Theorem mod3R_tap_sends_return :
  forall (VkKeyScanEx : N -> Z) (MapVirtualKeyA : N -> N) (s : Settings)
         (l : Layout),
    mod3RAsReturn s = true ->
    (forall (st : State) (press release : HookCall) (between : list HookCall),
        bypassMode st = false ->
        mod3RightDown s press = true ->
        forallb (quiet s) between = true ->
        mod3RightUp s release = true ->
        exists (rs : list HookResult) (st1 st2 : State) (o1 : list Effect),
          run VkKeyScanEx MapVirtualKeyA s l (press :: between) st
          = Some (rs, st1, o1)
          /\ keyevent VkKeyScanEx MapVirtualKeyA s l
               (code release) (wparam release) (lparam release) st1
             = Some (Consumed, st2,
                     [LogKeyEvent "key up" (lparam release);
                      KeybdEvent (vkCode (lparam release) mod 256) 0
                        KEYEVENTF_KEYUP 0;
                      KeybdEvent VK_RETURN 0 LLKHF_EXTENDED 0])
          /\ st2 = set_level3modRightAndNoOtherKeyPressed false
                     (set_level3modRightPressed false st1)
          /\ locks st2 = locks st1
          /\ mod3Pressed st2 = mod3Pressed st1)
    /\ (forall (st : State) (other : HookCall) (after : list HookCall)
               (c : Z) (w : N) (k : KBDLLHOOKSTRUCT),
          wfLayout l = true ->
          forallb (fun c => scanCode (lparam c) <? 103) (other :: after) = true ->
          classifiedKeyDown st other = true ->
          (scanCode (lparam other) =? scanCodeMod3R s) = false ->
          forallb (fun c => negb (isKeyDownMsg (wparam c)
                                  && (scanCode (lparam c) =? scanCodeMod3R s)))
            after = true ->
          isKeyDownMsg w = false ->
          exists (rs : list HookResult) (st1 st2 : State) (o1 o2 : list Effect)
                 (r : HookResult),
            run VkKeyScanEx MapVirtualKeyA s l (other :: after) st
            = Some (rs, st1, o1)
            /\ level3modRightAndNoOtherKeyPressed st1 = false
            /\ keyevent VkKeyScanEx MapVirtualKeyA s l c w k st1
               = Some (r, st2, o2)
            /\ existsb isReturnDown o2 = false)
    /\ (forall (st : State) (c : HookCall),
          isKeyDownMsg (wparam c) = true -> classifiedKeyDown st c = false ->
          exists (r : HookResult) (st' : State) (o : list Effect),
            keyevent VkKeyScanEx MapVirtualKeyA s l
              (code c) (wparam c) (lparam c) st = Some (r, st', o)
            /\ (st' = st \/ st' = set_bypassMode (negb (bypassMode st)) st)
            /\ level3modRightAndNoOtherKeyPressed st'
               = level3modRightAndNoOtherKeyPressed st
            /\ existsb isSynthInput o = false)
    /\ (forall (st : State) (press release : HookCall)
               (between : list HookCall),
          bypassMode st = false ->
          mod3RightDown s press = true ->
          tapKept VkKeyScanEx MapVirtualKeyA s l (press :: between) st = true ->
          mod3RightUp s release = true ->
          exists (rs : list HookResult) (st1 : State) (o1 : list Effect),
            run VkKeyScanEx MapVirtualKeyA s l (press :: between) st
            = Some (rs, st1, o1)
            /\ level3modRightAndNoOtherKeyPressed st1 = true
            /\ (bypassMode st1 = false ->
                keyevent VkKeyScanEx MapVirtualKeyA s l
                  (code release) (wparam release) (lparam release) st1
                = Some (Consumed,
                        set_level3modRightAndNoOtherKeyPressed false
                          (set_level3modRightPressed false st1),
                        [LogKeyEvent "key up" (lparam release);
                         KeybdEvent (vkCode (lparam release) mod 256) 0
                           KEYEVENTF_KEYUP 0;
                         KeybdEvent VK_RETURN 0 LLKHF_EXTENDED 0]))).
Proof.
  intros Vk Map s l Hset. split; [|split; [|split]].
  - intros st press release between Hbp Hpress Hquiet Hrel.
    destruct (wpg_total _ _ _ (mod3Right_press Vk Map s l press st Hpress Hbp))
      as (r0 & st0 & o0 & E0 & -> & Hbp0 & Hflag0).
    destruct (wpg_total _ _ _
                (quiet_run Vk Map s l between st0 Hquiet Hbp0 Hflag0))
      as (rs & st1 & o1 & E1 & Hbp1 & Hflag1).
    exists (Consumed :: rs), st1,
      (set_level3modRightAndNoOtherKeyPressed false
         (set_level3modRightPressed false st1)), (o0 ++ o1 ++ []).
    split.
    { cbn [run]. unfold bind at 1. rewrite E0. unfold bind at 1. rewrite E1.
      reflexivity. }
    split; [now apply mod3Right_tap_release|].
    split; [reflexivity|]. split; destruct st1; reflexivity.
  - intros st other after c w k Hwf Hsc Hcls Hne0 Hne Hw.
    cbn [forallb] in Hsc. apply andb_prop in Hsc as [Hsc0 Hsc].
    apply N.ltb_lt in Hsc0.
    destruct (wpg_total _ _ _
                (classified_key_down_disarms Vk Map s l False other st
                   (or_introl (conj Hwf Hsc0)) Hcls Hne0))
      as (r0 & st0 & o0 & E0 & Hflag0).
    destruct (wpg_total _ _ _
                (disarmed_until_repress Vk Map s l False after st0
                   (or_introl (conj Hwf Hsc)) Hne Hflag0))
      as (rs & st1 & o1 & E1 & Hflag1).
    destruct (wpg_total _ _ _
                (disarmed_release Vk Map s l c w k st1 Hw Hflag1))
      as (r & st2 & o2 & E2 & Hret).
    exists (r0 :: rs), st1, st2, (o0 ++ o1 ++ []), o2, r.
    split; [|split; [exact Hflag1 | split; [exact E2 | exact Hret]]].
    cbn [run]. unfold bind at 1. rewrite E0. unfold bind at 1. rewrite E1.
    reflexivity.
  - intros st c Hd Hc.
    destruct (unclassified_key_down Vk Map s l c st Hd Hc)
      as (r & st' & o & E & Hst & Ho).
    exists r, st', o. split; [exact E|]. split; [exact Hst|].
    split; [|exact Ho].
    destruct Hst as [-> | ->]; [reflexivity | now destruct st].
  - intros st press release between Hbp Hpress Hkept Hrel.
    destruct (wpg_total _ _ _ (mod3Right_press Vk Map s l press st Hpress Hbp))
      as (r0 & st0 & o0 & E0 & -> & Hbp0 & Hflag0).
    cbn [tapKept] in Hkept. apply andb_prop in Hkept as [_ Hkept].
    rewrite E0 in Hkept.
    destruct (tapKept_run Vk Map s l between st0 Hkept Hflag0)
      as (rs & st1 & o1 & E1 & Hflag1).
    exists (Consumed :: rs), st1, (o0 ++ o1 ++ []).
    split.
    { cbn [run]. unfold bind at 1. rewrite E0. unfold bind at 1. rewrite E1.
      reflexivity. }
    split; [exact Hflag1|].
    intros Hbp1. now apply mod3Right_tap_release.
Qed.

(** On the neo layout: the hash key pressed, another key released, the
    hash key released sends Return; after a key-down of another key the
    release sends none; an injected key-down leaves the tap flag; and
    with shift held the pause key pressed twice between the press and
    the release leaves the tap armed and bypass mode off, so the release
    sends Return. *)
Lemma mod3R_tap_sends_return_witness :
  (exists (rs : list HookResult) (st1 st2 : State) (o1 : list Effect),
      run noHostKey noHostChar tapSettings (buildLayout tapSettings)
        [keyDownOf 0xBF 43; keyUpOf 0x41 30] initialState
      = Some (rs, st1, o1)
      /\ keyevent noHostKey noHostChar tapSettings (buildLayout tapSettings)
           HC_ACTION WM_KEYUP (lparam (keyUpOf 0xBF 43)) st1
         = Some (Consumed, st2,
                 [LogKeyEvent "key up" (lparam (keyUpOf 0xBF 43));
                  KeybdEvent 0xBF 0 KEYEVENTF_KEYUP 0;
                  KeybdEvent VK_RETURN 0 LLKHF_EXTENDED 0])
      /\ st2 = set_level3modRightAndNoOtherKeyPressed false
                 (set_level3modRightPressed false st1)
      /\ locks st2 = locks st1
      /\ mod3Pressed st2 = mod3Pressed st1)
  /\ (exists (rs : list HookResult) (st1 st2 : State) (o1 o2 : list Effect)
             (r : HookResult),
        run noHostKey noHostChar tapSettings (buildLayout tapSettings)
          [keyDownOf 0x41 30; keyUpOf 0x41 30]
          (set_level3modRightAndNoOtherKeyPressed true initialState)
        = Some (rs, st1, o1)
        /\ level3modRightAndNoOtherKeyPressed st1 = false
        /\ keyevent noHostKey noHostChar tapSettings (buildLayout tapSettings)
             HC_ACTION WM_KEYUP (lparam (keyUpOf 0xBF 43)) st1
           = Some (r, st2, o2)
        /\ existsb isReturnDown o2 = false)
  /\ (exists (r : HookResult) (st' : State) (o : list Effect),
        keyevent noHostKey noHostChar tapSettings (buildLayout tapSettings)
          HC_ACTION WM_KEYDOWN (lparam (injectedDownOf 0x41 30))
          (set_level3modRightAndNoOtherKeyPressed true initialState)
        = Some (r, st', o)
        /\ level3modRightAndNoOtherKeyPressed st' = true
        /\ existsb isSynthInput o = false)
  /\ (exists (rs : list HookResult) (st1 : State) (o1 : list Effect),
        run noHostKey noHostChar tapSettings (buildLayout tapSettings)
          [keyDownOf 0xBF 43; keyDownOf 0x13 69; keyDownOf 0x13 69]
          shiftLeftHeld
        = Some (rs, st1, o1)
        /\ level3modRightAndNoOtherKeyPressed st1 = true).
Proof.
  destruct (mod3R_tap_sends_return noHostKey noHostChar tapSettings
              (buildLayout tapSettings) eq_refl) as (H1 & H2 & H3 & H4).
  split; [|split; [|split]].
  - exact (H1 initialState (keyDownOf 0xBF 43) (keyUpOf 0xBF 43)
             [keyUpOf 0x41 30] eq_refl eq_refl eq_refl eq_refl).
  - exact (H2 (set_level3modRightAndNoOtherKeyPressed true initialState)
             (keyDownOf 0x41 30) [keyUpOf 0x41 30]
             HC_ACTION WM_KEYUP (lparam (keyUpOf 0xBF 43))
             eq_refl eq_refl eq_refl eq_refl eq_refl eq_refl).
  - destruct (H3 (set_level3modRightAndNoOtherKeyPressed true initialState)
                (injectedDownOf 0x41 30) eq_refl eq_refl)
      as (r & st' & o & E & _ & Hf & Ho).
    exists r, st', o. split; [exact E|]. split; [exact Hf | exact Ho].
  - destruct (H4 shiftLeftHeld (keyDownOf 0xBF 43) (keyUpOf 0xBF 43)
                [keyDownOf 0x13 69; keyDownOf 0x13 69]
                eq_refl eq_refl eq_refl eq_refl)
      as (rs & st1 & o1 & E & Hf & _).
    exists rs, st1, o1. split; [exact E | exact Hf].
Defined.

(** C2 as stated fails: a key-down of another key between the press and
    the release of the right mod3 key does not always prevent the
    Return.  With shift held, the pause key pressed twice in between
    switches bypass mode on and off again without touching the tap flag;
    an injected key-down in between is handed on before the flag is
    touched; and a second key-down of the right mod3 key, after the
    other key, arms the tap again.  In the three sequences the release
    sends Return. *)
Lemma mod3R_tap_survives_unclassified_key_down :
  lastCall noHostKey noHostChar tapSettings (buildLayout tapSettings)
    [keyDownOf VK_LSHIFT 42; keyDownOf 0xBF 43;
     keyDownOf 0x13 69; keyDownOf 0x13 69]
    (keyUpOf 0xBF 43) initialState
  = Some (Consumed,
          [LogKeyEvent "key up" (lparam (keyUpOf 0xBF 43));
           KeybdEvent 0xBF 0 KEYEVENTF_KEYUP 0;
           KeybdEvent VK_RETURN 0 LLKHF_EXTENDED 0])
  /\ lastCall noHostKey noHostChar tapSettings (buildLayout tapSettings)
       [keyDownOf 0xBF 43; injectedDownOf 0x41 30]
       (keyUpOf 0xBF 43) initialState
     = Some (Consumed,
             [LogKeyEvent "key up" (lparam (keyUpOf 0xBF 43));
              KeybdEvent 0xBF 0 KEYEVENTF_KEYUP 0;
              KeybdEvent VK_RETURN 0 LLKHF_EXTENDED 0])
  /\ lastCall noHostKey noHostChar tapSettings (buildLayout tapSettings)
       [keyDownOf 0xBF 43; keyDownOf 0x41 30; keyDownOf 0xBF 43]
       (keyUpOf 0xBF 43) initialState
     = Some (Consumed,
             [LogKeyEvent "key up" (lparam (keyUpOf 0xBF 43));
              KeybdEvent 0xBF 0 KEYEVENTF_KEYUP 0;
              KeybdEvent VK_RETURN 0 LLKHF_EXTENDED 0]).
Proof. split; [|split]; vm_compute; reflexivity. Qed.

(** C3, as the code has it.  The release of one shift key toggles the
    lock the settings select exactly when the release is not injected,
    bypass mode is off and the other shift key is held:
    [shiftLockActive] if [shiftLockEnabled] is set, else
    [capsLockActive] if [capsLockEnabled] is set, once, and no other
    lock flag changes; an injected release and a release in bypass mode
    are handed on and change no lock.  No key-down changes a lock flag.
    Pressing and releasing one shift key while the other is held
    toggles the selected lock with bypass mode off and changes nothing
    in bypass mode; doing it twice leaves the lock flags as they were,
    from any state.  From the initial state on, along every sequence of
    events, [shiftLockActive] and [capsLockActive] are never both set;
    and [sanitize] leaves at most one of the two locks enabled. *)
Theorem shift_release_toggles_selected_lock :
  forall (VkKeyScanEx : N -> Z) (MapVirtualKeyA : N -> N) (s : Settings)
         (l : Layout),
    (forall (w : N) (k : KBDLLHOOKSTRUCT) (st : State),
        isKeyUpMsg w = true -> isShift k = true ->
        exists (r : HookResult) (st' : State) (o : list Effect),
          keyevent VkKeyScanEx MapVirtualKeyA s l HC_ACTION w k st
          = Some (r, st', o)
          /\ r = (if injected k || bypassMode st
                  then CallNextHookEx else Consumed)
          /\ locks st'
             = (if negb (injected k) && negb (bypassMode st)
                   && otherShiftHeld k st
                then toggledLocks s (locks st) else locks st))
    /\ (forall x : bool * bool * bool,
          toggledLocks s x
          = (if shiftLockEnabled s then (negb x.1.1, x.1.2, x.2)
             else if capsLockEnabled s then (x.1.1, negb x.1.2, x.2)
             else x))
    /\ (forall (c : Z) (w : N) (k : KBDLLHOOKSTRUCT) (st st' : State)
               (r : HookResult) (o : list Effect),
          isKeyDownMsg w = true ->
          keyevent VkKeyScanEx MapVirtualKeyA s l c w k st = Some (r, st', o) ->
          locks st' = locks st)
    /\ (forall (wd wu : N) (kd ku : KBDLLHOOKSTRUCT) (st : State),
          isKeyDownMsg wd = true -> isKeyUpMsg wu = true ->
          injected kd = false -> injected ku = false ->
          isShift kd = true -> isShift ku = true ->
          (vkCode kd =? VK_RSHIFT) = (vkCode ku =? VK_RSHIFT) ->
          (scanCode kd =? 69) = false ->
          otherShiftHeld ku st = true ->
          let down := {| code := HC_ACTION; wparam := wd; lparam := kd |} in
          let up := {| code := HC_ACTION; wparam := wu; lparam := ku |} in
          let results :=
            if bypassMode st then [CallNextHookEx; CallNextHookEx]
            else [Consumed; Consumed] in
          exists (st1 st2 : State) (o1 o2 : list Effect),
            run VkKeyScanEx MapVirtualKeyA s l [down; up] st
            = Some (results, st1, o1)
            /\ locks st1
               = (if bypassMode st then locks st
                  else toggledLocks s (locks st))
            /\ run VkKeyScanEx MapVirtualKeyA s l [down; up] st1
               = Some (results, st2, o2)
            /\ locks st2 = locks st)
    /\ (forall (cs : list HookCall) (rs : list HookResult) (st : State)
               (o : list Effect),
          run VkKeyScanEx MapVirtualKeyA s l cs initialState = Some (rs, st, o) ->
          shiftLockActive st && capsLockActive st = false)
    /\ shiftLockEnabled (sanitize s) && capsLockEnabled (sanitize s) = false.
Proof.
  intros Vk Map s l.
  split.
  { intros w k st Hw Hs. now apply shift_release_any. }
  split.
  { intros [[a b] c]. reflexivity. }
  split.
  { intros c w k st st' r o Hw E.
    exact (wpg_partial _ _ _ _ _ _
             (key_down_keeps_locks Vk Map s l c w k st Hw) E). }
  split.
  { intros wd wu kd ku st Hwd Hwu Hid Hiu Hsd Hsu Hside Hsc Hother
      down up results.
    destruct (shift_gesture_any Vk Map s l wd wu kd ku st Hwd Hwu Hid Hiu
                Hsd Hsu Hside Hsc Hother)
      as (rs1 & st1 & o1 & E1 & -> & Hbp1 & Hother1 & Hl1).
    destruct (shift_gesture_any Vk Map s l wd wu kd ku st1 Hwd Hwu Hid Hiu
                Hsd Hsu Hside Hsc Hother1)
      as (rs2 & st2 & o2 & E2 & -> & _ & _ & Hl2).
    exists st1, st2, o1, o2. subst results. rewrite Hbp1 in *.
    repeat split; auto.
    rewrite Hl2, Hl1. destruct (bypassMode st); [reflexivity|].
    apply toggledLocks_twice. }
  split.
  { intros cs rs st o E.
    apply (lockInv_not_both s).
    refine (wpg_partial _ _ _ _ _ _ (lockInv_run Vk Map s l cs initialState _) E).
    unfold lockInv. now destruct (shiftLockEnabled s). }
  cbn. destruct (capsLockEnabled s); [reflexivity | apply andb_false_r].
Qed.

(** With shift lock enabled and the right shift key held, tapping the
    left shift key twice leaves the lock flags as they were. *)
Lemma shift_release_toggles_selected_lock_witness :
  exists (st1 st2 : State) (o1 o2 : list Effect),
    run noHostKey noHostChar shiftLockSettings (buildLayout shiftLockSettings)
      [keyDownOf VK_LSHIFT 42; keyUpOf VK_LSHIFT 42] shiftRightHeld
    = Some ([Consumed; Consumed], st1, o1)
    /\ locks st1 = toggledLocks shiftLockSettings (locks shiftRightHeld)
    /\ run noHostKey noHostChar shiftLockSettings (buildLayout shiftLockSettings)
         [keyDownOf VK_LSHIFT 42; keyUpOf VK_LSHIFT 42] st1
       = Some ([Consumed; Consumed], st2, o2)
    /\ locks st2 = locks shiftRightHeld.
Proof.
  destruct (shift_release_toggles_selected_lock noHostKey noHostChar
              shiftLockSettings (buildLayout shiftLockSettings))
    as (_ & _ & _ & H & _ & _).
  exact (H WM_KEYDOWN WM_KEYUP (lparam (keyDownOf VK_LSHIFT 42))
           (lparam (keyUpOf VK_LSHIFT 42)) shiftRightHeld
           eq_refl eq_refl eq_refl eq_refl eq_refl eq_refl eq_refl eq_refl
           eq_refl).
Defined.

(** C3 as stated fails in bypass mode and for an injected release.
    With shift lock enabled: left shift pressed, right shift pressed,
    pause pressed, which switches bypass mode on; the release of left
    shift, with right shift still held, is handed on and the shift lock
    stays off.  And with bypass mode off and right shift held, an
    injected release of left shift is handed on and leaves the state as
    it is. *)
Lemma shift_release_in_bypass_mode_toggles_nothing :
  (exists (st1 : State) (o1 : list Effect),
      run noHostKey noHostChar shiftLockSettings
        (buildLayout shiftLockSettings)
        [keyDownOf VK_LSHIFT 42; keyDownOf VK_RSHIFT 54; keyDownOf 0x13 69]
        initialState
      = Some ([Consumed; Consumed; Consumed], st1, o1)
      /\ shiftLockEnabled shiftLockSettings = true
      /\ shiftRightPressed st1 = true
      /\ shiftLockActive st1 = false
      /\ keyevent noHostKey noHostChar shiftLockSettings
           (buildLayout shiftLockSettings) HC_ACTION WM_KEYUP
           (lparam (keyUpOf VK_LSHIFT 42)) st1
         = Some (CallNextHookEx, st1, []))
  /\ (exists o : list Effect,
        shiftRightPressed shiftRightHeld = true
        /\ bypassMode shiftRightHeld = false
        /\ keyevent noHostKey noHostChar shiftLockSettings
             (buildLayout shiftLockSettings) HC_ACTION WM_KEYUP
             {| vkCode := VK_LSHIFT; scanCode := 42; flags := LLKHF_INJECTED;
                time := 0; dwExtraInfo := 0 |} shiftRightHeld
           = Some (CallNextHookEx, shiftRightHeld, o)).
Proof.
  split.
  - do 2 eexists. split; [vm_compute; reflexivity|]. repeat split.
  - eexists. repeat split. vm_compute. reflexivity.
Qed.

(** C4. An event whose flags contain the injected bit is handed to the
    next hook unchanged, after being logged when it is a key message:
    the state is the one before, nothing is synthesized, whatever the
    bypass flag, the modifier state and the settings. *)
Theorem injected_events_pass_through :
  forall (VkKeyScanEx : N -> Z) (MapVirtualKeyA : N -> N) (s : Settings)
         (l : Layout) (c : Z) (w : N) (k : KBDLLHOOKSTRUCT) (st : State),
    N.land (flags k) LLKHF_INJECTED <> 0 ->
    keyevent VkKeyScanEx MapVirtualKeyA s l c w k st =
      Some (CallNextHookEx, st,
            if (c =? HC_ACTION)%Z && (isKeyUpMsg w || isKeyDownMsg w)
            then [LogKeyEvent "injected" k] else []).
Proof.
  intros Vk Map s l c w k st H. apply keyevent_injected.
  unfold injected. now apply negb_true_iff, N.eqb_neq.
Qed.

(** An injected key-down of the key at scan code 30 is logged and
    handed on. *)
Lemma injected_events_pass_through_witness :
  keyevent noHostKey noHostChar defaultSettings (buildLayout defaultSettings)
    HC_ACTION WM_KEYDOWN
    {| vkCode := 0x41; scanCode := 30; flags := LLKHF_INJECTED; time := 0;
       dwExtraInfo := 0 |} initialState
  = Some (CallNextHookEx, initialState,
          [LogKeyEvent "injected"
             {| vkCode := 0x41; scanCode := 30; flags := LLKHF_INJECTED;
                time := 0; dwExtraInfo := 0 |}]).
Proof.
  apply (injected_events_pass_through noHostKey noHostChar defaultSettings
           (buildLayout defaultSettings) HC_ACTION WM_KEYDOWN
           {| vkCode := 0x41; scanCode := 30; flags := LLKHF_INJECTED;
              time := 0; dwExtraInfo := 0 |} initialState).
  vm_compute. discriminate.
Defined.



(** C6. With [quoteAsMod3R] set, at each of the six levels the entry at
    the hash scan code 43 is the entry at the quote scan code 40. *)
Theorem quoteAsMod3R_copies_quote_to_hash :
  forall (s : Settings) (lvl : Level),
    quoteAsMod3R s = true ->
    exists c : N,
      mapScanCodeToChar (buildLayout s) lvl 40 = Some c
      /\ mapScanCodeToChar (buildLayout s) lvl 43 = Some c.
Proof.
  intros s lvl H. each_variant s; rewrite H;
    destruct lvl; vm_compute; eexists; split; reflexivity.
Qed.

(** On the neo layout the quote key types y (121) at level 1; with
    [quoteAsMod3R] the hash key does too, without it the hash key has no
    mapping. *)
Lemma quoteAsMod3R_copies_quote_to_hash_witness :
  mapScanCodeToChar (buildLayout (variant "neo" true)) LEVEL_1 40 = Some 121
  /\ mapScanCodeToChar (buildLayout (variant "neo" true)) LEVEL_1 43 = Some 121
  /\ mapScanCodeToChar (buildLayout (variant "neo" false)) LEVEL_1 43 = Some 0.
Proof.
  destruct (quoteAsMod3R_copies_quote_to_hash (variant "neo" true) LEVEL_1
              eq_refl) as (c & H40 & H43).
  assert (c = 121) as -> by (vm_compute in H40; congruence).
  split; [exact H40 | split; [exact H43 | reflexivity]].
Defined.

(** C7. Whatever the settings, the level-4 action table holds a fixed
    set of slots (page up, the arrows, home, end, the digit 0 on the
    space bar); the is_kou_or_vue flag is set exactly for the layouts kou
    and vou; and the two groups of four slots 17 to 20 (next page, up,
    backspace, delete) and 44 to 47 (insert, tab, return, escape) are
    filled in the order of the family.  Every slot not named is empty.
    Between the two families the order of both groups differs: the
    entries differ at the slots 17, 19, 20 and 44, 46, 47 (up at 18 and
    tab at 45 keep their place), and every other slot is the same for
    all settings. *)
Theorem level4_action_table_by_family :
  forall s : Settings,
    let t := level4_specials (buildLayout s) in
    let kou := is_kou_or_vue (buildLayout s) in
    kou = String.eqb (layout s) "kou" || String.eqb (layout s) "vou"
    /\ t = actionTable kou
    /\ slots t [16; 30; 31; 32; 33; 34; 57]%nat
       = map Some [VK_PRIOR; VK_HOME; VK_LEFT; VK_DOWN; VK_RIGHT; VK_END; 48]
    /\ slots t [17; 18; 19; 20]%nat
       = map Some (if kou then [VK_NEXT; VK_UP; VK_BACK; VK_DELETE]
                   else [VK_BACK; VK_UP; VK_DELETE; VK_NEXT])
    /\ slots t [44; 45; 46; 47]%nat
       = map Some (if kou then [VK_INSERT; VK_TAB; VK_RETURN; VK_ESCAPE]
                   else [VK_ESCAPE; VK_TAB; VK_INSERT; VK_RETURN])
    /\ (forall i : nat,
          (i < MAPPING_LEN)%nat ->
          ~ In i [16; 17; 18; 19; 20; 30; 31; 32; 33; 34;
                  44; 45; 46; 47; 57]%nat ->
          t !! i = Some 0)
    /\ (forall (s' : Settings) (i : nat),
          ~ In i [17; 19; 20; 44; 46; 47]%nat ->
          level4_specials (buildLayout s') !! i = t !! i)
    /\ (forall (s' : Settings) (i : nat),
          is_kou_or_vue (buildLayout s') = negb kou ->
          In i [17; 19; 20; 44; 46; 47]%nat ->
          level4_specials (buildLayout s') !! i <> t !! i)
    /\ (forall s' : Settings,
          is_kou_or_vue (buildLayout s') = negb kou ->
          slots (level4_specials (buildLayout s')) [17; 18; 19; 20]%nat
          <> slots t [17; 18; 19; 20]%nat
          /\ slots (level4_specials (buildLayout s')) [44; 45; 46; 47]%nat
             <> slots t [44; 45; 46; 47]%nat).
Proof.
  intros s t kou. subst t kou.
  split.
  { rewrite <- kou_or_vou_canonical.
    each_variant s; destruct (quoteAsMod3R s); reflexivity. }
  split; [apply level4_specials_actionTable|].
  rewrite level4_specials_actionTable.
  destruct (is_kou_or_vue (buildLayout s)).
  all: split; [reflexivity|].
  all: split; [reflexivity|].
  all: split; [reflexivity|].
  all: split; [intros i Hi Hn; now apply actionTable_unused|].
  all: split;
    [intros s' i Hn; rewrite level4_specials_actionTable;
     now apply actionTable_common|].
  all: split;
    [intros s' i Hs' Hi; rewrite level4_specials_actionTable, Hs';
     now apply actionTable_differs|].
  all: intros s' Hs'; rewrite level4_specials_actionTable, Hs';
    split; discriminate.
Qed.

(** The first group on the layouts kou and neo, and a slot outside the
    groups. *)
Lemma level4_action_table_by_family_witness :
  slots (level4_specials (buildLayout (variant "kou" false))) [17; 18; 19; 20]%nat
  = map Some [VK_NEXT; VK_UP; VK_BACK; VK_DELETE]
  /\ slots (level4_specials (buildLayout (variant "neo" false))) [17; 18; 19; 20]%nat
     = map Some [VK_BACK; VK_UP; VK_DELETE; VK_NEXT]
  /\ level4_specials (buildLayout (variant "kou" false)) !! 31%nat
     = level4_specials (buildLayout (variant "neo" false)) !! 31%nat.
Proof.
  pose proof (level4_action_table_by_family (variant "kou" false)) as Hk.
  pose proof (level4_action_table_by_family (variant "neo" false)) as Hn.
  cbv zeta in Hk, Hn.
  destruct Hk as (_ & _ & _ & Hk & _).
  destruct Hn as (_ & _ & _ & Hn & _ & _ & Hc & _ & _).
  split; [exact Hk | split; [exact Hn |]].
  apply (Hc (variant "kou" false) 31%nat).
  simpl. intros H. repeat (destruct H as [H|H]; [discriminate H|]). exact H.
Defined.

(** C8. [sendChar] always succeeds and leaves the state alone.  It
    sends the character as one direct Unicode input exactly when the
    reverse lookup of the host layout finds no key ([-1]), or one of the
    shift, caps or level-4 locks is active, or the original virtual key
    is a digit key (0x30 to 0x39); in particular a failed lookup always
    ends in the Unicode input.  Otherwise no Unicode input is sent and
    the key found is pressed with the scan code and flags of the
    original event. *)
Theorem sendChar_unicode_exactly_on_fallback :
  forall (VkKeyScanEx : N -> Z) (key : N) (keyInfo : KBDLLHOOKSTRUCT)
         (st : State),
    let fallback :=
      VkKeyScanEx key = (-1)%Z
      \/ shiftLockActive st = true \/ capsLockActive st = true
      \/ level4LockActive st = true
      \/ (0x30 <= vkCode keyInfo /\ vkCode keyInfo <= 0x39) in
    exists o : list Effect,
      sendChar VkKeyScanEx key keyInfo st = Some (tt, st, o)
      /\ (o = [SendUnicode key] <-> fallback)
      /\ (existsb isUnicodeInput o = true <-> fallback)
      /\ (~ fallback ->
          In (KeybdEvent (Z.to_N (VkKeyScanEx key mod 2 ^ 32) mod 256)
                (scanCode keyInfo mod 256) (flags keyInfo)
                (dwExtraInfo keyInfo)) o).
Proof.
  intros Vk key k st fallback.
  pose proof (useUnicode_spec (Vk key) st k) as Hspec.
  fold fallback in Hspec.
  unfold sendChar. rewrite bind_get.
  destruct (useUnicode (Vk key) st k) eqn:E.
  - exists [SendUnicode key].
    assert (fallback) by (now apply Hspec).
    repeat split; auto. tauto.
  - assert (~ fallback) as Hn by (intros Hf; apply Hspec in Hf; discriminate).
    unfold bind, when, keybd_event, emit, ret. cbn [set_vkCode vkCode scanCode flags dwExtraInfo].
    repeat match goal with
      | |- context [if ?c then _ else _] => destruct c
      end; cbn;
    (eexists; split; [reflexivity|]);
    (split; [split; [discriminate | tauto]|]);
    (split; [split; [discriminate | tauto]|]);
    intros _; simpl; tauto.
Qed.

(** With no key for the character on the host layout, the character
    is sent as one Unicode input. *)
Lemma sendChar_unicode_exactly_on_fallback_witness :
  sendChar noHostKey 117
    {| vkCode := 0x41; scanCode := 30; flags := 0; time := 0; dwExtraInfo := 0 |}
    initialState
  = Some (tt, initialState, [SendUnicode 117]).
Proof.
  destruct (sendChar_unicode_exactly_on_fallback noHostKey 117
              {| vkCode := 0x41; scanCode := 30; flags := 0; time := 0;
                 dwExtraInfo := 0 |} initialState)
    as (o & Hrun & Hiff & _).
  cbv zeta in Hiff.
  assert (o = [SendUnicode 117]) as -> by (apply Hiff; left; reflexivity).
  exact Hrun.
Defined.

(** C10. The tables [buildLayout] returns have 103 entries each, and
    [mapScanCodeToChar] and the read of the level-4 action table index
    them at the event's scan code as it is.  For a scan code below 103
    the read returns the entry of the table at that scan code; for a
    scan code of 103 or more it is a read past the end; so the read is
    defined exactly for scan codes below 103, and the hook is defined on
    every event with such a scan code.  The hook acts on the entry it
    reads: for the key-down of a key that is no modifier and no left
    system key, not on the numeric keypad, not taken as a shortcut or by
    a special case of the level, and with no caps lock on levels 1 and
    2, the entry of the active level at the scan code decides; zero
    means no mapping and the event is handed on, any other entry is the
    character sent and the event is consumed.  On level 4 a non-zero
    entry of the action table at the scan code is the virtual key sent.
    The hook checks no bound: a key-down it classifies, of a key that is
    neither a modifier nor on the numeric keypad, with a scan code of
    103 or more, reads a table past its end. *)
Theorem table_reads_defined_below_103 :
  forall (VkKeyScanEx : N -> Z) (MapVirtualKeyA : N -> N) (s : Settings),
    (forall (lvl : Level) (sc : N),
        is_Some (mapScanCodeToChar (buildLayout s) lvl sc) <-> sc < 103)
    /\ (forall sc : N,
          is_Some (level4Special (buildLayout s) sc) <-> sc < 103)
    /\ (forall (st : State) (c : HookCall),
          scanCode (lparam c) < 103 ->
          is_Some (keyevent VkKeyScanEx MapVirtualKeyA s (buildLayout s)
                     (code c) (wparam c) (lparam c) st))
    /\ (forall (st : State) (c : HookCall),
          classifiedKeyDown st c = true ->
          plainKey s (lparam c) = true ->
          qwertzForShortcuts s = false ->
          103 <= scanCode (lparam c) ->
          keyevent VkKeyScanEx MapVirtualKeyA s (buildLayout s)
            (code c) (wparam c) (lparam c) st = None)
    /\ (forall lvl : Level,
          length (getLevel (buildLayout s) lvl) = 103%nat)
    /\ length (level4_specials (buildLayout s)) = 103%nat
    /\ (forall (lvl : Level) (sc : N),
          mapScanCodeToChar (buildLayout s) lvl sc
          = if sc <? 103
            then Some (nth (N.to_nat sc) (getLevel (buildLayout s) lvl) 0)
            else None)
    /\ (forall sc : N,
          level4Special (buildLayout s) sc
          = if sc <? 103
            then Some (nth (N.to_nat sc) (level4_specials (buildLayout s)) 0)
            else None)
    /\ (forall (w : N) (k : KBDLLHOOKSTRUCT) (st : State),
          scanCode k < 103 ->
          isKeyDownMsg w = true -> injected k = false ->
          bypassMode st = false ->
          shiftPressed st && (scanCode k =? 69) = false ->
          otherKey s k = true ->
          (0x60 <=? vkCode k) && (vkCode k <=? 0x6F) = false ->
          qwertzForShortcuts s
          && isSystemKeyPressed (setRightPressed k true (clearTaps st))
          = false ->
          specialCase (buildLayout s) (level s st) (scanCode k) = false ->
          capsLockActive st
          && (Level_eqb (level s st) LEVEL_1 || Level_eqb (level s st) LEVEL_2)
          = false ->
          let st1 := setRightPressed k true (clearTaps st) in
          let c := nth (N.to_nat (scanCode k))
                     (getLevel (buildLayout s) (level s st)) 0 in
          exists o : list Effect,
            sendChar VkKeyScanEx c k st1 = Some (tt, st1, o)
            /\ keyevent VkKeyScanEx MapVirtualKeyA s (buildLayout s)
                 HC_ACTION w k st
               = if c =? 0 then
                   Some (CallNextHookEx, st1,
                         [LogKeyEvent
                            (String (Ascii.ascii_of_nat 10) "key down") k])
                 else
                   Some (Consumed, st1,
                         LogKeyEvent
                           (String (Ascii.ascii_of_nat 10) "key down") k
                         :: LogMapped (scanCode k) (MapVirtualKeyA (vkCode k))
                              c (level s st)
                         :: o))
    /\ (forall (w : N) (k : KBDLLHOOKSTRUCT) (st : State),
          scanCode k < 103 ->
          isKeyDownMsg w = true -> injected k = false ->
          bypassMode st = false ->
          shiftPressed st && (scanCode k =? 69) = false ->
          otherKey s k = true ->
          level s st = LEVEL_4 ->
          (scanCode k =? 13) || (scanCode k =? 27) || (scanCode k =? 41)
          = false ->
          let a := nth (N.to_nat (scanCode k))
                     (level4_specials (buildLayout s)) 0 in
          (a =? 0) = false ->
          keyevent VkKeyScanEx MapVirtualKeyA s (buildLayout s)
            HC_ACTION w k st
          = Some (Consumed, setRightPressed k true (clearTaps st),
                  [LogKeyEvent (String (Ascii.ascii_of_nat 10) "key down") k;
                   KeybdEvent (a mod 256) 0 LLKHF_EXTENDED 0])).
Proof.
  intros Vk Map s. pose proof (buildLayout_wf s) as Hwf.
  generalize dependent (buildLayout s). intros l Hwf.
  split; [intros; now apply mapScanCodeToChar_defined|].
  split; [intros; now apply level4Special_defined|].
  split; [intros; now apply keyevent_defined|].
  split; [intros; now apply out_of_range_read|].
  split; [intros; now apply wfLayout_level|].
  split; [now apply wfLayout_specials|].
  split.
  { intros lvl sc. destruct (N.ltb_spec sc 103).
    - now apply mapScanCodeToChar_entry.
    - now apply mapScanCodeToChar_past. }
  split.
  { intros sc. destruct (N.ltb_spec sc 103).
    - now apply level4Special_entry.
    - now apply level4Special_past. }
  split.
  { intros w k st Hsc Hw Hi Hbp Hp Hk Hn Hq Hsp Hcaps.
    now apply table_entry_decides. }
  intros w k st Hsc Hw Hi Hbp Hp Hk Hlv Hdead.
  now apply action_entry_decides.
Qed.

(** On neo: the left-control event with scan code 541 that AltGr sends
    reads past the end of the level-1 table, and scan code 102 is the
    last one with a defined read; the key of scan code 30 reads [u] on
    level 1 and sends it; scan code 31 of the action table is the left
    arrow, and with the left mod4 key held the key sends it. *)
Lemma table_reads_defined_below_103_witness :
  keyevent noHostKey noHostChar defaultSettings (buildLayout defaultSettings)
    HC_ACTION WM_KEYDOWN
    {| vkCode := VK_LCONTROL; scanCode := 541; flags := 0; time := 0;
       dwExtraInfo := 0 |} initialState = None
  /\ is_Some (mapScanCodeToChar (buildLayout defaultSettings) LEVEL_1 102)
  /\ mapScanCodeToChar (buildLayout defaultSettings) LEVEL_1 103 = None
  /\ mapScanCodeToChar (buildLayout defaultSettings) LEVEL_1 30 = Some 117
  /\ mapScanCodeToChar (buildLayout defaultSettings) LEVEL_1 31 = Some 105
  /\ level4Special (buildLayout defaultSettings) 31 = Some VK_LEFT
  /\ level4Special (buildLayout defaultSettings) 32 = Some VK_DOWN
  /\ keyevent noHostKey noHostChar defaultSettings
       (buildLayout defaultSettings) HC_ACTION WM_KEYDOWN
       (lparam (keyDownOf 0x41 30)) initialState
     = Some (Consumed, initialState,
             [LogKeyEvent (String (Ascii.ascii_of_nat 10) "key down")
                (lparam (keyDownOf 0x41 30));
              LogMapped 30 0 117 LEVEL_1;
              SendUnicode 117])
  /\ keyevent noHostKey noHostChar defaultSettings
       (buildLayout defaultSettings) HC_ACTION WM_KEYDOWN
       (lparam (keyDownOf 0x53 31))
       (set_level4modLeftPressed true (set_mod4Pressed true initialState))
     = Some (Consumed,
             set_level4modLeftPressed true (set_mod4Pressed true initialState),
             [LogKeyEvent (String (Ascii.ascii_of_nat 10) "key down")
                (lparam (keyDownOf 0x53 31));
              KeybdEvent VK_LEFT 0 LLKHF_EXTENDED 0]).
Proof.
  destruct (table_reads_defined_below_103 noHostKey noHostChar defaultSettings)
    as (H1 & _ & _ & H4 & _ & _ & H7 & H8 & H9 & H10).
  split.
  { apply (H4 initialState (keyDownOf VK_LCONTROL 541));
      [reflexivity | reflexivity | reflexivity | vm_compute; discriminate]. }
  split; [apply H1; reflexivity|].
  split; [exact (H7 LEVEL_1 103)|].
  split; [exact (H7 LEVEL_1 30)|].
  split; [exact (H7 LEVEL_1 31)|].
  split; [exact (H8 31)|].
  split; [exact (H8 32)|].
  split.
  { destruct (H9 WM_KEYDOWN (lparam (keyDownOf 0x41 30)) initialState
                eq_refl eq_refl eq_refl eq_refl eq_refl eq_refl eq_refl
                eq_refl eq_refl eq_refl) as (o & Ho & E).
    injection Ho as <-. exact E. }
  exact (H10 WM_KEYDOWN (lparam (keyDownOf 0x53 31))
           (set_level4modLeftPressed true (set_mod4Pressed true initialState))
           eq_refl eq_refl eq_refl eq_refl eq_refl eq_refl eq_refl eq_refl
           eq_refl).
Defined.
